(** * PICclock: hybrid NCO / software clock generator (PIC16F18344)

    A shallow embedding of [main.c]: the NCO driver functions, the step
    button helpers and one pass of the [while (1)] control loop, written
    as a state monad over the special-function registers the firmware
    touches, the local variables of [main] and a clock.  Every register
    write, port read and delay is recorded, in program order, in an event
    list, so that statements about "what the pin does, and when" become
    statements about lists.

    Conventions.
    - C integers are [Z]; [uint8_t] results are reduced modulo 256 and
      [uint32_t] ones modulo 2^32 where the source can overflow them.
    - Time is counted in microseconds.  Only [__delay_ms], [__delay_us]
      and one turn of a busy-wait poll advance it: the clock of the model
      counts the waits the code asks for, not the time its instructions
      or an ADC conversion take.
    - The input ports (switches, button, ADC result) are functions of
      time supplied by the environment.

    [clc_debounce_init] of [clc_debounce.c] is embedded separately, as
    the list of its register writes, together with a reading of the CLC
    and TMR2 register bits that turns the written values into a circuit. *)

From Stdlib Require Import ZArith QArith List Bool Lia.
Import ListNotations.
Local Open Scope Z_scope.

(* ------------------------------------------------------------------ *)
(** ** Registers, ports and events *)

(** The special-function registers written by the control loop.
    [LATB6] and [LATC5] are the single latch bits [LATBbits.LATB6] and
    [LATCbits.LATC5] (the latter is [DEBUG_LED]). *)
Inductive reg : Type :=
  | R_NCO1CON | R_RB6PPS | R_NCO1INCL | R_NCO1INCH | R_NCO1INCU
  | R_LATB6 | R_LATC5.

(** The inputs read by the control loop: [PORTCbits.RC6], [RC3], [RC4]
    and the ADC result register. *)
Inductive port : Type := HALT_SEL | STEP_SEL | STEP_BTN | ADRESH.

Inductive event : Type :=
  | EvWrite (r : reg) (v : Z)
  | EvRead (p : port) (v : Z)
  | EvDelay (us : Z).

Record regs : Type := mkRegs {
  NCO1CON : Z;
  RB6PPS : Z;
  NCO1INCL : Z;
  NCO1INCH : Z;
  NCO1INCU : Z;
  LATB6 : Z;
  LATC5 : Z
}.

Definition write_reg (r : reg) (v : Z) (h : regs) : regs :=
  match r with
  | R_NCO1CON  => mkRegs v (RB6PPS h) (NCO1INCL h) (NCO1INCH h) (NCO1INCU h) (LATB6 h) (LATC5 h)
  | R_RB6PPS   => mkRegs (NCO1CON h) v (NCO1INCL h) (NCO1INCH h) (NCO1INCU h) (LATB6 h) (LATC5 h)
  | R_NCO1INCL => mkRegs (NCO1CON h) (RB6PPS h) v (NCO1INCH h) (NCO1INCU h) (LATB6 h) (LATC5 h)
  | R_NCO1INCH => mkRegs (NCO1CON h) (RB6PPS h) (NCO1INCL h) v (NCO1INCU h) (LATB6 h) (LATC5 h)
  | R_NCO1INCU => mkRegs (NCO1CON h) (RB6PPS h) (NCO1INCL h) (NCO1INCH h) v (LATB6 h) (LATC5 h)
  | R_LATB6    => mkRegs (NCO1CON h) (RB6PPS h) (NCO1INCL h) (NCO1INCH h) (NCO1INCU h) v (LATC5 h)
  | R_LATC5    => mkRegs (NCO1CON h) (RB6PPS h) (NCO1INCL h) (NCO1INCH h) (NCO1INCU h) (LATB6 h) v
  end.

(** The local variables of [main] that live across loop iterations. *)
Record locals : Type := mkLocals {
  last_adc : Z;
  freq_entry : Z;
  software_mode : Z;
  half_period : Z;
  running : Z;
  halted : Z
}.

Definition set_last_adc (v : Z) (l : locals) : locals :=
  mkLocals v (freq_entry l) (software_mode l) (half_period l) (running l) (halted l).
Definition set_freq_entry (v : Z) (l : locals) : locals :=
  mkLocals (last_adc l) v (software_mode l) (half_period l) (running l) (halted l).
Definition set_software_mode (v : Z) (l : locals) : locals :=
  mkLocals (last_adc l) (freq_entry l) v (half_period l) (running l) (halted l).
Definition set_half_period (v : Z) (l : locals) : locals :=
  mkLocals (last_adc l) (freq_entry l) (software_mode l) v (running l) (halted l).
Definition set_running (v : Z) (l : locals) : locals :=
  mkLocals (last_adc l) (freq_entry l) (software_mode l) (half_period l) v (halted l).
Definition set_halted (v : Z) (l : locals) : locals :=
  mkLocals (last_adc l) (freq_entry l) (software_mode l) (half_period l) (running l) v.

Record state : Type := mkState {
  hw : regs;
  lv : locals;
  now : Z
}.

(** What the world presents on each input at each instant: pin levels
    are [true] for a high pin, [adresh] is the ADC result register. *)
Record env : Type := mkEnv {
  halt_sel : Z -> bool;
  step_sel : Z -> bool;
  step_btn : Z -> bool;
  adresh : Z -> Z
}.

Definition port_value (E : env) (p : port) (t : Z) : Z :=
  match p with
  | HALT_SEL => if halt_sel E t then 1 else 0
  | STEP_SEL => if step_sel E t then 1 else 0
  | STEP_BTN => if step_btn E t then 1 else 0
  | ADRESH => adresh E t mod 256
  end.

(* ------------------------------------------------------------------ *)
(** ** The monad: state, event log, and running out of fuel *)

Inductive outcome (A : Type) : Type :=
  | Ret (a : A)
  | OutOfFuel.
Arguments Ret {A} a.
Arguments OutOfFuel {A}.

Definition M (A : Type) : Type := state -> outcome A * state * list event.

Definition ret {A} (a : A) : M A := fun s => (Ret a, s, []).

Definition bind {A B} (m : M A) (f : A -> M B) : M B :=
  fun s =>
    match m s with
    | (Ret a, s1, t1) =>
        match f a s1 with
        | (r, s2, t2) => (r, s2, t1 ++ t2)
        end
    | (OutOfFuel, s1, t1) => (OutOfFuel, s1, t1)
    end.

Definition out_of_fuel {A} : M A := fun s => (OutOfFuel, s, []).

Declare Scope m_scope.
Delimit Scope m_scope with m.
Notation "x <- m ;; k" := (bind m (fun x => k))
  (at level 61, m at next level, right associativity) : m_scope.
Notation "m ;; k" := (bind m (fun _ => k))
  (at level 61, right associativity) : m_scope.
Local Open Scope m_scope.

Definition write (r : reg) (v : Z) : M unit :=
  fun s => (Ret tt, mkState (write_reg r v (hw s)) (lv s) (now s), [EvWrite r v]).

Definition delay_us (us : Z) : M unit :=
  fun s => (Ret tt, mkState (hw s) (lv s) (now s + us), [EvDelay us]).

Definition delay_ms (ms : Z) : M unit := delay_us (ms * 1000).

Definition get_local {A} (f : locals -> A) : M A :=
  fun s => (Ret (f (lv s)), s, []).

Definition set_local (upd : locals -> locals) : M unit :=
  fun s => (Ret tt, mkState (hw s) (upd (lv s)) (now s), []).

Definition events_of {A} (x : outcome A * state * list event) : list event := snd x.
Definition state_of {A} (x : outcome A * state * list event) : state := snd (fst x).
Definition outcome_of {A} (x : outcome A * state * list event) : outcome A := fst (fst x).

(** Replaying a list of events on a register file: the registers as they
    stand after the events. *)
Definition apply_event (h : regs) (e : event) : regs :=
  match e with
  | EvWrite r v => write_reg r v h
  | _ => h
  end.

Definition replay (h : regs) (tr : list event) : regs := fold_left apply_event tr h.

(* ------------------------------------------------------------------ *)
(** ** The output pin *)

(** What drives pin RB6.  [RB6PPS = 0x00] selects the port latch,
    [RB6PPS = 0x1D] the NCO1 output (the values used by the source).  An
    NCO whose enable bit [N1EN] (bit 7 of [NCO1CON]) is clear holds its
    output low, which is what [nco_stop]'s "Stop NCO output" relies on;
    an enabled one toggles on its own. *)
Inductive level : Type := PinLow | PinHigh | PinNCO | PinOther.

Definition nco_enabled (h : regs) : bool := Z.testbit (NCO1CON h) 7.

Definition pin_level (h : regs) : level :=
  if RB6PPS h =? 0x00 then (if LATB6 h =? 0 then PinLow else PinHigh)
  else if RB6PPS h =? 0x1D then (if nco_enabled h then PinNCO else PinLow)
  else PinOther.

(** The software generator asserts the pin when the latch is high; the
    hardware generator drives it when it is enabled. *)
Definition latch_high (h : regs) : bool := negb (LATB6 h =? 0).

(* ------------------------------------------------------------------ *)
(** ** The frequency-table entry encoding ([freq_table.h]) *)

(** Modelled from the spec: the macro [IS_SOFTWARE_MODE] of the header
    [freq_table.h], which is not among the sources.  The firmware notes
    say "Bit 31 = 1: Software mode", "Bit 31 = 0: NCO mode". *)
Definition IS_SOFTWARE_MODE (entry : Z) : bool := Z.testbit entry 31.

(** Modelled from the spec: the macro [GET_FREQ_VALUE] of the header
    [freq_table.h], which is not among the sources.  The value occupies
    the low 24 bits of an entry ("bits 0-23 = half-period in cycles",
    "bits 0-19 = NCO increment value"; "24 usable bits"). *)
Definition GET_FREQ_VALUE (entry : Z) : Z := Z.land entry 0xFFFFFF.

Definition u32 (x : Z) : Z := x mod 2 ^ 32.

(** Modelled from the spec: the output frequency an entry stands for, in
    Hz, by the two formulas of the firmware notes: [Fosc / (2 *
    half_period)] for a software entry and [Fosc * NCO_INC / 2^21] for an
    NCO entry, with [Fosc] = 24 MHz. *)
Definition decoded_frequency (entry : Z) : Q :=
  let v := GET_FREQ_VALUE entry in
  if IS_SOFTWARE_MODE entry then Qmake 24000000 (Z.to_pos (2 * v))
  else Qmake (24000000 * v) (Z.to_pos (2 ^ 21)).

(** What is asked of a table: every entry within 1 Hz .. 1 MHz, the
    frequency non-decreasing in the index, software entries first. *)
Definition table_in_range (tbl : Z -> Z) : Prop :=
  forall i, 0 <= i <= 255 ->
    (1 <= decoded_frequency (tbl i))%Q /\ (decoded_frequency (tbl i) <= 1000000)%Q.

Definition table_monotone (tbl : Z -> Z) : Prop :=
  forall i, 0 <= i < 255 ->
    (decoded_frequency (tbl i) <= decoded_frequency (tbl (i + 1)%Z))%Q.

Definition table_split (tbl : Z -> Z) : Prop :=
  exists b, 0 <= b <= 256 /\
    forall i, 0 <= i <= 255 -> IS_SOFTWARE_MODE (tbl i) = (i <? b).

(** The test guarding a re-lookup, [adc_val != last_adc] followed by
    [adc_val > last_adc + 1 || adc_val < last_adc - 1].  Both operands
    are [uint8_t], promoted to [int] before the additions, so neither
    [last_adc + 1] nor [last_adc - 1] wraps. *)
Definition adc_moved (adc_val last : Z) : bool :=
  negb (adc_val =? last) && ((adc_val >? last + 1) || (adc_val <? last - 1)).

(* ------------------------------------------------------------------ *)
(** ** The firmware *)

Section Firmware.

(** [freq_table] is the 256-entry table of [freq_table.h]; its contents
    are not among the sources, so the program is taken over any table. *)
Variable freq_table : Z -> Z.
Variable E : env.

Definition read_port (p : port) : M Z :=
  fun s => let v := port_value E p (now s) in (Ret v, s, [EvRead p v]).

(** [adc_read]: start a conversion, wait for it, return [ADRESH]. *)
Definition adc_read : M Z := read_port ADRESH.

(** [nco_init], restricted to the registers of the model (the pin
    direction, clock source and accumulator writes are left out). *)
Definition nco_init : M unit :=
  write R_RB6PPS 0x1D;;
  write R_NCO1CON 0x00;;
  write R_NCO1INCU 0x00;;
  write R_NCO1INCH 0x00;;
  write R_NCO1INCL 0x01;;
  write R_NCO1CON 0x80.

Definition nco_set_increment (inc : Z) : M unit :=
  write R_NCO1CON 0x00;;
  write R_NCO1INCL (Z.land inc 0xFF);;
  write R_NCO1INCH (Z.land (Z.shiftr inc 8) 0xFF);;
  write R_NCO1INCU (Z.land (Z.shiftr inc 16) 0x0F);;
  write R_NCO1CON 0x80.

Definition nco_stop : M unit :=
  write R_NCO1CON 0x00;;
  write R_LATB6 0.

Definition nco_disconnect : M unit :=
  write R_NCO1CON 0x00;;
  write R_RB6PPS 0x00;;
  write R_LATB6 0.

Definition nco_connect : M unit :=
  write R_RB6PPS 0x1D;;
  write R_NCO1CON 0x80.

Definition output_step_pulse : M unit :=
  write R_LATB6 1;;
  delay_ms 10;;
  write R_LATB6 0.

Definition button_pressed : M Z :=
  b <- read_port STEP_BTN;;
  if b =? 0 then
    delay_ms 20;;
    b' <- read_port STEP_BTN;;
    if b' =? 0 then ret 1 else ret 0
  else ret 0.

(** [while (STEP_BTN == 0);]: one turn of the empty loop takes one
    microsecond of the model's clock. *)
Fixpoint poll_release (fuel : nat) : M unit :=
  b <- read_port STEP_BTN;;
  if b =? 0 then
    match fuel with
    | O => out_of_fuel
    | S f => delay_us 1;; poll_release f
    end
  else ret tt.

Definition wait_button_release (fuel : nat) : M unit :=
  poll_release fuel;;
  delay_ms 20.

(** [(HALT_SEL ? 0 : 2) | (STEP_SEL ? 0 : 1)] *)
Definition read_mode : M Z :=
  h <- read_port HALT_SEL;;
  st <- read_port STEP_SEL;;
  ret (Z.lor (if h =? 0 then 2 else 0) (if st =? 0 then 1 else 0)).

(** The halt branch of the loop body, up to its [continue]. *)
Definition halt_branch : M unit :=
  hl <- get_local halted;;
  (if hl =? 0 then
     sm <- get_local software_mode;;
     (if negb (sm =? 0) then write R_LATB6 0 else nco_stop);;
     write R_LATC5 0;;
     set_local (set_halted 1);;
     set_local (set_running 0)
   else ret tt);;
  delay_ms 50.

(** The step branch of the loop body, up to its [continue]. *)
Definition step_branch (fuel : nat) : M unit :=
  rn <- get_local running;;
  hl <- get_local halted;;
  (if negb (rn =? 0) || (hl =? 0) then
     sm <- get_local software_mode;;
     (if sm =? 0 then nco_disconnect else ret tt);;
     write R_LATB6 0;;
     set_local (set_running 0);;
     set_local (set_halted 1)
   else ret tt);;
  write R_LATC5 1;;
  b <- button_pressed;;
  (if negb (b =? 0) then
     output_step_pulse;;
     wait_button_release fuel
   else ret tt);;
  delay_ms 10.

(** "Resume from halt/step mode". *)
Definition resume : M unit :=
  a <- adc_read;;
  set_local (set_last_adc a);;
  set_local (set_freq_entry (freq_table a));;
  fe <- get_local freq_entry;;
  set_local (set_software_mode (if IS_SOFTWARE_MODE fe then 1 else 0));;
  sm <- get_local software_mode;;
  (if negb (sm =? 0) then
     set_local (set_half_period (GET_FREQ_VALUE fe))
   else
     nco_connect;;
     nco_set_increment (GET_FREQ_VALUE fe));;
  write R_LATC5 1;;
  set_local (set_running 1);;
  set_local (set_halted 0).

(** The wait of the high phase: the first [for] loop, from index [i]. *)
Fixpoint high_phase (fuel : nat) (delay_10us i : Z) : M unit :=
  if i <? delay_10us then
    match fuel with
    | O => out_of_fuel
    | S f =>
        delay_us 10;;
        if Z.land i 0x3FF =? 0 then
          m <- read_mode;;
          if negb (m =? 0) then
            write R_LATB6 0 (* break *)
          else high_phase f delay_10us (u32 (i + 1))
        else high_phase f delay_10us (u32 (i + 1))
    end
  else ret tt.

(** The re-lookup of the low phase, after the hysteresis test passed.
    It returns [None] where the source breaks out of the loop, and the
    new [delay_10us] otherwise. *)
Definition low_phase_relookup (adc_val : Z) : M (option Z) :=
  set_local (set_last_adc adc_val);;
  set_local (set_freq_entry (freq_table adc_val));;
  fe <- get_local freq_entry;;
  if negb (IS_SOFTWARE_MODE fe) then
    set_local (set_software_mode 0);;
    nco_connect;;
    nco_set_increment (GET_FREQ_VALUE fe);;
    ret None
  else
    set_local (set_half_period (GET_FREQ_VALUE fe));;
    hp <- get_local half_period;;
    ret (Some (hp / 240)).

(** The wait of the low phase: the second [for] loop, from index [i]. *)
Fixpoint low_phase (fuel : nat) (delay_10us i : Z) : M unit :=
  if i <? delay_10us then
    match fuel with
    | O => out_of_fuel
    | S f =>
        delay_us 10;;
        if Z.land i 0x3FF =? 0 then
          m <- read_mode;;
          if negb (m =? 0) then ret tt (* break *)
          else
            adc_val <- adc_read;;
            last <- get_local last_adc;;
            if adc_moved adc_val last then
              r <- low_phase_relookup adc_val;;
              match r with
              | None => ret tt (* break *)
              | Some d => low_phase f d (u32 (i + 1))
              end
            else low_phase f delay_10us (u32 (i + 1))
        else low_phase f delay_10us (u32 (i + 1))
    end
  else ret tt.

(** One period of the software generator. *)
Definition software_cycle (fuel : nat) : M unit :=
  write R_LATB6 1;;
  hp <- get_local half_period;;
  let delay_10us := hp / 240 in
  high_phase fuel delay_10us 0;;
  write R_LATB6 0;;
  low_phase fuel delay_10us 0.

(** "NCO mode: just poll ADC occasionally". *)
Definition nco_poll : M unit :=
  adc_val <- adc_read;;
  last <- get_local last_adc;;
  (if adc_moved adc_val last then
     set_local (set_last_adc adc_val);;
     set_local (set_freq_entry (freq_table adc_val));;
     fe <- get_local freq_entry;;
     if IS_SOFTWARE_MODE fe then
       set_local (set_software_mode 1);;
       nco_disconnect;;
       set_local (set_half_period (GET_FREQ_VALUE fe))
     else
       nco_set_increment (GET_FREQ_VALUE fe)
   else ret tt);;
  delay_ms 20.

(** What follows the resume block: one software period, or one poll
    of the ADC while the NCO runs. *)
Definition generator_pass (fuel : nat) : M unit :=
  sm <- get_local software_mode;;
  if negb (sm =? 0) then software_cycle fuel else nco_poll.

(** The variable-frequency part of the loop body. *)
Definition run_branch (fuel : nat) : M unit :=
  hl <- get_local halted;;
  (if negb (hl =? 0) then resume else ret tt);;
  generator_pass fuel.

(** One pass through the body of [while (1)]. *)
Definition main_iteration (fuel : nat) : M unit :=
  mode <- read_mode;;
  if negb (Z.land mode 2 =? 0) then halt_branch
  else if negb (Z.land mode 1 =? 0) then step_branch fuel
  else run_branch fuel.

(** [main] up to the loop: latches cleared, LED blink, NCO set up, and
    the generator chosen from the first sample. *)
Definition main_init : M unit :=
  write R_LATB6 0;;
  write R_LATC5 0;;
  write R_LATC5 1;;
  delay_ms 100;;
  write R_LATC5 0;;
  delay_ms 100;;
  write R_LATC5 1;;
  nco_init;;
  a <- adc_read;;
  set_local (set_last_adc a);;
  set_local (set_freq_entry (freq_table a));;
  fe <- get_local freq_entry;;
  set_local (set_software_mode (if IS_SOFTWARE_MODE fe then 1 else 0));;
  set_local (set_half_period 0);;
  sm <- get_local software_mode;;
  (if negb (sm =? 0) then
     nco_disconnect;;
     set_local (set_half_period (GET_FREQ_VALUE fe))
   else
     nco_set_increment (GET_FREQ_VALUE fe));;
  set_local (set_running 1);;
  set_local (set_halted 0).

(** [n] passes through the loop body. *)
Fixpoint main_loop (fuel : nat) (n : nat) : M unit :=
  match n with
  | O => ret tt
  | S k => main_iteration fuel;; main_loop fuel k
  end.

(** The whole of [main], its endless loop cut after [n] passes. *)
Definition main (fuel n : nat) : M unit :=
  main_init;;
  main_loop fuel n.

End Firmware.

(* ------------------------------------------------------------------ *)
(** ** Vocabulary for statements about runs *)

(** A result with [t] put in front of its event list. *)
Definition prepend {A} (t : list event) (x : outcome A * state * list event)
  : outcome A * state * list event :=
  (outcome_of x, state_of x, t ++ events_of x).

Definition is_write (e : event) : bool :=
  match e with EvWrite _ _ => true | _ => false end.

(** A stretch of events that touches no register. *)
Definition quiet (tr : list event) : Prop := forallb (fun e => negb (is_write e)) tr = true.

(** [always J h tr]: [J] holds of the registers at every instant of the
    run [tr] started from [h], the first and the last included. *)
Fixpoint always (J : regs -> Prop) (h : regs) (tr : list event) : Prop :=
  match tr with
  | [] => J h
  | e :: tr' => J h /\ always J (apply_event h e) tr'
  end.

(** The register files a run goes through, the starting one first. *)
Fixpoint snapshots (h : regs) (tr : list event) : list regs :=
  h :: match tr with
       | [] => []
       | e :: tr' => snapshots (apply_event h e) tr'
       end.

(** The latch is written high: the start of a pulse or of a high phase. *)
Definition is_latch_rise (e : event) : bool :=
  match e with
  | EvWrite R_LATB6 v => negb (v =? 0)
  | _ => false
  end.

Definition count_pulses (tr : list event) : nat := length (filter is_latch_rise tr).

Definition is_pps_write (e : event) : bool :=
  match e with EvWrite R_RB6PPS _ => true | _ => false end.

(** The routing register is only ever written with the latch selection
    (0x00) or the NCO selection (0x1D). *)
Definition pps_write_ok (e : event) : bool :=
  match e with
  | EvWrite R_RB6PPS v => (v =? 0x00) || (v =? 0x1D)
  | _ => true
  end.

Definition pps_ok (tr : list event) : Prop := forallb pps_write_ok tr = true.

(** The write by which [nco_disconnect] detaches the pin. *)
Definition is_detach (e : event) : bool :=
  match e with
  | EvWrite R_RB6PPS v => v =? 0x00
  | _ => false
  end.

Definition reads_port (p : port) (e : event) : bool :=
  match e, p with
  | EvRead HALT_SEL _, HALT_SEL => true
  | EvRead STEP_SEL _, STEP_SEL => true
  | EvRead STEP_BTN _, STEP_BTN => true
  | EvRead ADRESH _, ADRESH => true
  | _, _ => false
  end.

(** A stretch of events whose only register writes put the latch low. *)
Definition is_calm (e : event) : bool :=
  match e with
  | EvWrite R_LATB6 v => v =? 0
  | EvWrite _ _ => false
  | _ => true
  end.

Definition calm (tr : list event) : Prop := forallb is_calm tr = true.

(** A stretch of events whose only register writes are to the latch. *)
Definition is_latch_only (e : event) : bool :=
  match e with
  | EvWrite R_LATB6 _ => true
  | EvWrite _ _ => false
  | _ => true
  end.

Definition latch_only (tr : list event) : Prop := forallb is_latch_only tr = true.

(** The register writes of the driver calls, as event lists. *)
Definition connect_events : list event :=
  [EvWrite R_RB6PPS 0x1D; EvWrite R_NCO1CON 0x80].

Definition set_increment_events (inc : Z) : list event :=
  [EvWrite R_NCO1CON 0x00;
   EvWrite R_NCO1INCL (Z.land inc 0xFF);
   EvWrite R_NCO1INCH (Z.land (Z.shiftr inc 8) 0xFF);
   EvWrite R_NCO1INCU (Z.land (Z.shiftr inc 16) 0x0F);
   EvWrite R_NCO1CON 0x80].

Definition disconnect_events : list event :=
  [EvWrite R_NCO1CON 0x00; EvWrite R_RB6PPS 0x00; EvWrite R_LATB6 0].

Definition stop_events : list event :=
  [EvWrite R_NCO1CON 0x00; EvWrite R_LATB6 0].

Definition pulse_events : list event :=
  [EvWrite R_LATB6 1; EvDelay 10000; EvWrite R_LATB6 0].

(** The register writes of [resume] for a table entry [fe]. *)
Definition resume_writes (fe : Z) : list event :=
  (if IS_SOFTWARE_MODE fe then []
   else connect_events ++ set_increment_events (GET_FREQ_VALUE fe))
  ++ [EvWrite R_LATC5 1].

(** The state [resume] leaves behind when the sample read is [a]. *)
Definition resumed (freq_table : Z -> Z) (a : Z) (s : state) : state :=
  let fe := freq_table a in
  mkState (replay (hw s) (resume_writes fe))
          (mkLocals a fe (if IS_SOFTWARE_MODE fe then 1 else 0)
                    (if IS_SOFTWARE_MODE fe then GET_FREQ_VALUE fe else half_period (lv s))
                    1 0)
          (now s).

(** Entering step mode: whether the entry code runs, what it writes, and
    the variables afterwards. *)
Definition step_entering (s : state) : bool :=
  negb (running (lv s) =? 0) || (halted (lv s) =? 0).

Definition step_entry_writes (s : state) : list event :=
  if step_entering s then
    (if software_mode (lv s) =? 0 then disconnect_events else []) ++ [EvWrite R_LATB6 0]
  else [].

Definition step_entry_locals (s : state) : locals :=
  if step_entering s then set_halted 1 (set_running 0 (lv s)) else lv s.

(** The mode word computed from the two selector pins at time [t]. *)
Definition mode_at (E : env) (t : Z) : Z :=
  Z.lor (if halt_sel E t then 0 else 2) (if step_sel E t then 0 else 1).

Definition mode_reads (E : env) (t : Z) : list event :=
  [EvRead HALT_SEL (port_value E HALT_SEL t); EvRead STEP_SEL (port_value E STEP_SEL t)].

(** The facts that hold every time control is at the top of [while (1)]. *)
Record Inv (s : state) : Prop := mkInv {
  inv_latch : LATB6 (hw s) = 0;
  inv_flags : (running (lv s) = 1 /\ halted (lv s) = 0) \/
              (running (lv s) = 0 /\ halted (lv s) = 1);
  inv_sw : software_mode (lv s) = 0 \/ software_mode (lv s) = 1;
  inv_pps : RB6PPS (hw s) = 0x00 \/ RB6PPS (hw s) = 0x1D;
  inv_nco_off : software_mode (lv s) = 1 \/ halted (lv s) = 1 -> NCO1CON (hw s) = 0x00;
  inv_nco_on : software_mode (lv s) = 0 -> halted (lv s) = 0 ->
               RB6PPS (hw s) = 0x1D /\ NCO1CON (hw s) = 0x80
}.

(** The two generators are never asserting at once. *)
Definition exclusive (h : regs) : Prop := nco_enabled h && latch_high h = false.

(** A run from [s] is sound when the registers it ends with are those
    obtained by replaying its events, the two generators are never
    asserting at once at any instant of it, and, if it returns, the
    loop-head facts hold again. *)
Definition well_run (s : state) (r : outcome unit * state * list event) : Prop :=
  hw (state_of r) = replay (hw s) (events_of r) /\
  always exclusive (hw s) (events_of r) /\
  (outcome_of r = Ret tt -> Inv (state_of r)).


(* ------------------------------------------------------------------ *)
(** ** Sample inputs used to exercise the statements *)

(** A small table in the format of [freq_table.h]: software entries
    (bit 31 set) for indices below 46, NCO entries above. *)
Definition sample_table (i : Z) : Z :=
  if i <? 46 then Z.lor (2 ^ 31) (240 * (3 + i)) else (i - 45) * 400.

Definition idle_env (adc : Z) : env :=
  mkEnv (fun _ => true) (fun _ => true) (fun _ => true) (fun _ => adc).

Definition power_on : state :=
  mkState (mkRegs 0 0 0 0 0 0 0) (mkLocals 0 0 0 0 0 0) 0.

Definition sw_running (adc : Z) : state :=
  mkState (mkRegs 0x00 0x00 1 0 0 0 1)
          (mkLocals adc (sample_table adc) 1 (GET_FREQ_VALUE (sample_table adc)) 1 0) 0.

Definition hw_running (adc : Z) : state :=
  mkState (mkRegs 0x80 0x1D (Z.land (GET_FREQ_VALUE (sample_table adc)) 0xFF)
                  (Z.land (Z.shiftr (GET_FREQ_VALUE (sample_table adc)) 8) 0xFF)
                  (Z.land (Z.shiftr (GET_FREQ_VALUE (sample_table adc)) 16) 0x0F) 0 1)
          (mkLocals adc (sample_table adc) 0 0 1 0) 0.

(** Halted after running on the NCO: [nco_stop] has been called. *)
Definition halted_from_hw (adc : Z) : state :=
  mkState (mkRegs 0x00 0x1D 0x20 0x03 0 0 0)
          (mkLocals adc (sample_table adc) 0 0 0 1) 0.

(** In step mode after running on the NCO: [nco_disconnect] has been called. *)
Definition stepping : state :=
  mkState (mkRegs 0x00 0x00 0x20 0x03 0 0 1)
          (mkLocals 100 (sample_table 100) 0 0 0 1) 0.

(** Step mode selected; the button is pressed from 9 ms to 25 ms only. *)
Definition short_press_env : env :=
  mkEnv (fun _ => true) (fun _ => false)
        (fun t => negb ((9000 <=? t) && (t <? 25000))) (fun _ => 100).


(* ------------------------------------------------------------------ *)
(** ** Further vocabulary *)

(** The 20-bit increment the NCO reads from its three registers. *)
Definition nco_increment (h : regs) : Z :=
  NCO1INCL h + 256 * NCO1INCH h + 65536 * NCO1INCU h.

Definition is_inc_write (e : event) : bool :=
  match e with
  | EvWrite R_NCO1INCL _ | EvWrite R_NCO1INCH _ | EvWrite R_NCO1INCU _ => true
  | _ => false
  end.

(** [inc_guarded h tr]: in the run [tr] started from [h], every write to
    an increment register happens while [NCO1CON] is 0x00. *)
Fixpoint inc_guarded (h : regs) (tr : list event) : Prop :=
  match tr with
  | [] => True
  | e :: tr' =>
      (is_inc_write e = true -> NCO1CON h = 0x00) /\ inc_guarded (apply_event h e) tr'
  end.

(** The waiting a run asks for: the sum of the arguments of its delay
    calls.  The time the instructions themselves take is not counted, so
    a run lasts at least this long. *)
Fixpoint elapsed (tr : list event) : Z :=
  match tr with
  | [] => 0
  | EvDelay us :: tr' => us + elapsed tr'
  | _ :: tr' => elapsed tr'
  end.

(** The variables and the NCO agree with the table entry of the sample
    last acted upon. *)
Record Cfg (freq_table : Z -> Z) (s : state) : Prop := mkCfg {
  cfg_index : 0 <= last_adc (lv s) < 256;
  cfg_entry : freq_entry (lv s) = freq_table (last_adc (lv s));
  cfg_mode : software_mode (lv s) = if IS_SOFTWARE_MODE (freq_entry (lv s)) then 1 else 0;
  cfg_half : software_mode (lv s) = 1 ->
             half_period (lv s) = GET_FREQ_VALUE (freq_entry (lv s));
  cfg_inc : software_mode (lv s) = 0 -> halted (lv s) = 0 ->
            nco_increment (hw s) = GET_FREQ_VALUE (freq_entry (lv s)) mod 2 ^ 20
}.

(** The variables alone agree with the table entry of [last_adc]. *)
Definition locals_agree (freq_table : Z -> Z) (l : locals) : Prop :=
  0 <= last_adc l < 256 /\
  freq_entry l = freq_table (last_adc l) /\
  software_mode l = (if IS_SOFTWARE_MODE (freq_entry l) then 1 else 0) /\
  (software_mode l = 1 -> half_period l = GET_FREQ_VALUE (freq_entry l)).

(* ------------------------------------------------------------------ *)
(** ** The button debounce circuit ([clc_debounce.c]) *)

Inductive clc : Type := CLC1 | CLC2 | CLC3.

(** The registers of one configurable logic cell: [CLCxCON], [CLCxPOL],
    [CLCxSEL0..3] and [CLCxGLS0..3]. *)
Inductive clc_field : Type :=
  | CON | POL | SEL (k : nat) | GLS (k : nat).

(** The registers written by [clc_debounce_init]. *)
Inductive dreg : Type :=
  | CLCIN0PPS | T2CON | PR2 | TMR2
  | CLCx (c : clc) (f : clc_field).

Definition clc_eqb (a b : clc) : bool :=
  match a, b with
  | CLC1, CLC1 | CLC2, CLC2 | CLC3, CLC3 => true
  | _, _ => false
  end.

Definition clc_field_eqb (a b : clc_field) : bool :=
  match a, b with
  | CON, CON | POL, POL => true
  | SEL j, SEL k | GLS j, GLS k => Nat.eqb j k
  | _, _ => false
  end.

Definition dreg_eqb (a b : dreg) : bool :=
  match a, b with
  | CLCIN0PPS, CLCIN0PPS | T2CON, T2CON | PR2, PR2 | TMR2, TMR2 => true
  | CLCx c f, CLCx c' f' => clc_eqb c c' && clc_field_eqb f f'
  | _, _ => false
  end.

(** The register file of the debounce hardware, and a run of writes. *)
Definition dfile : Type := dreg -> Z.

Definition dwrite (r : dreg) (v : Z) (f : dfile) : dfile :=
  fun r' => if dreg_eqb r' r then v else f r'.

Definition run_writes (ws : list (dreg * Z)) (f : dfile) : dfile :=
  fold_left (fun g w => dwrite (fst w) (snd w) g) ws f.

(** "CLC data input source values for PIC16F18344". *)
Definition CLC_IN_CLCIN0PPS : Z := 0x00.
Definition CLC_IN_CLC1_OUT : Z := 0x04.
Definition CLC_IN_CLC2_OUT : Z := 0x05.
Definition CLC_IN_CLC3_OUT : Z := 0x06.
Definition CLC_IN_TMR2_MATCH : Z := 0x1A.

(** [clc_debounce_init]: its register writes, in program order. *)
Definition clc_debounce_init : list (dreg * Z) :=
  [ (CLCIN0PPS, 0x14);
    (T2CON, 0x00);
    (PR2, 140);
    (TMR2, 0x00);
    (T2CON, 0x07);
    (CLCx CLC3 CON, 0x00);
    (CLCx CLC3 POL, 0x00);
    (CLCx CLC3 (SEL 0), CLC_IN_TMR2_MATCH);
    (CLCx CLC3 (SEL 1), CLC_IN_CLCIN0PPS);
    (CLCx CLC3 (SEL 2), CLC_IN_CLCIN0PPS);
    (CLCx CLC3 (SEL 3), CLC_IN_CLCIN0PPS);
    (CLCx CLC3 (GLS 0), 0x02);
    (CLCx CLC3 (GLS 1), 0x08);
    (CLCx CLC3 (GLS 2), 0x00);
    (CLCx CLC3 (GLS 3), 0x00);
    (CLCx CLC3 CON, 0x85);
    (CLCx CLC2 CON, 0x00);
    (CLCx CLC2 POL, 0x81);
    (CLCx CLC2 (SEL 0), CLC_IN_CLCIN0PPS);
    (CLCx CLC2 (SEL 1), CLC_IN_CLCIN0PPS);
    (CLCx CLC2 (SEL 2), CLC_IN_CLC3_OUT);
    (CLCx CLC2 (SEL 3), CLC_IN_CLC1_OUT);
    (CLCx CLC2 (GLS 0), 0x00);
    (CLCx CLC2 (GLS 1), 0x14);
    (CLCx CLC2 (GLS 2), 0x44);
    (CLCx CLC2 (GLS 3), 0x50);
    (CLCx CLC2 CON, 0x82);
    (CLCx CLC1 CON, 0x00);
    (CLCx CLC1 POL, 0x00);
    (CLCx CLC1 (SEL 0), CLC_IN_TMR2_MATCH);
    (CLCx CLC1 (SEL 1), CLC_IN_CLC2_OUT);
    (CLCx CLC1 (SEL 2), CLC_IN_CLCIN0PPS);
    (CLCx CLC1 (SEL 3), CLC_IN_CLCIN0PPS);
    (CLCx CLC1 (GLS 0), 0x02);
    (CLCx CLC1 (GLS 1), 0x08);
    (CLCx CLC1 (GLS 2), 0x00);
    (CLCx CLC1 (GLS 3), 0x00);
    (CLCx CLC1 CON, 0x85) ].

(** *** What the registers mean

    The reading of the register bits is the one the comments of
    [clc_debounce.c] give.  [T2CON]: bit 2 is [TMR2ON], bits 1:0 the
    prescaler, bits 6:3 the postscaler.  [CLCxCON]: bit 7 enables the
    cell, bits 2:0 select its function (0b010 the 4-input AND, 0b101 the
    2-input D flip-flop with R).  [CLCxSELk] selects the source of data
    input k+1.  [CLCxGLSk] builds gate k+1 as the OR of the selected
    inputs: bit 2j takes data input j+1 inverted, bit 2j+1 takes it
    true.  [CLCxPOL]: bit k inverts gate k+1, bit 7 inverts the output. *)

Definition tmr2_on (f : dfile) : bool := Z.testbit (f T2CON) 2.

Definition tmr2_prescale (f : dfile) : Z :=
  match Z.land (f T2CON) 3 with
  | 0 => 1
  | 1 => 4
  | 2 => 16
  | _ => 64
  end.

Definition tmr2_postscale (f : dfile) : Z := Z.land (Z.shiftr (f T2CON) 3) 15 + 1.

(** Instruction cycles (Fosc/4) from one TMR2 match to the next. *)
Definition tmr2_period (f : dfile) : Z := (f PR2 + 1) * tmr2_prescale f * tmr2_postscale f.

Definition clc_enabled (f : dfile) (c : clc) : bool := Z.testbit (f (CLCx c CON)) 7.

Definition clc_mode (f : dfile) (c : clc) : Z := Z.land (f (CLCx c CON)) 7.

(** A write that changes how cell [c] is wired: any of its registers but
    [CLCxCON]. *)
Definition is_wiring_write (c : clc) (w : dreg * Z) : bool :=
  match fst w with
  | CLCx c' CON => false
  | CLCx c' _ => clc_eqb c' c
  | _ => false
  end.

Definition is_timer_setup_write (w : dreg * Z) : bool :=
  match fst w with
  | PR2 | TMR2 => true
  | _ => false
  end.

(** [guarded_writes busy touches f ws]: in the run [ws] from [f], every
    write selected by [touches] happens while [busy] is false. *)
Fixpoint guarded_writes (busy : dfile -> bool) (touches : dreg * Z -> bool)
         (f : dfile) (ws : list (dreg * Z)) : bool :=
  match ws with
  | [] => true
  | w :: ws' =>
      (negb (touches w) || negb (busy f))
      && guarded_writes busy touches (dwrite (fst w) (snd w) f) ws'
  end.

(** The signals a data input can select. *)
Record signals : Type := mkSignals {
  sig_raw : bool;     (* CLCIN0: the switch pin *)
  sig_clc1 : bool;    (* output of CLC1 *)
  sig_clc2 : bool;    (* output of CLC2 *)
  sig_clc3 : bool;    (* output of CLC3 *)
  sig_tmr2 : bool     (* TMR2/PR2 match *)
}.

Definition data_input (f : dfile) (sg : signals) (c : clc) (k : nat) : bool :=
  let v := f (CLCx c (SEL k)) in
  if v =? CLC_IN_CLCIN0PPS then sig_raw sg
  else if v =? CLC_IN_CLC1_OUT then sig_clc1 sg
  else if v =? CLC_IN_CLC2_OUT then sig_clc2 sg
  else if v =? CLC_IN_CLC3_OUT then sig_clc3 sg
  else if v =? CLC_IN_TMR2_MATCH then sig_tmr2 sg
  else false.

(** Gate [k] (0-based) of cell [c]. *)
Definition gate (f : dfile) (sg : signals) (c : clc) (k : nat) : bool :=
  let gls := f (CLCx c (GLS k)) in
  let term (j : nat) :=
    (Z.testbit gls (Z.of_nat (2 * j)) && negb (data_input f sg c j))
    || (Z.testbit gls (Z.of_nat (2 * j + 1)) && data_input f sg c j) in
  xorb (Z.testbit (f (CLCx c POL)) (Z.of_nat k))
       (term 0%nat || term 1%nat || term 2%nat || term 3%nat).

Definition out_inverted (f : dfile) (c : clc) : bool := Z.testbit (f (CLCx c POL)) 7.

(** The 4-input AND function (mode 0b010). *)
Definition and4_out (f : dfile) (sg : signals) (c : clc) : bool :=
  xorb (out_inverted f c)
       (gate f sg c 0 && gate f sg c 1 && gate f sg c 2 && gate f sg c 3).

(** The 2-input D flip-flop with R (mode 0b101): gate 1 is the clock,
    gates 2 and 4 are ORed into D, gate 3 is the reset. *)
Definition dff_clk (f : dfile) (sg : signals) (c : clc) : bool := gate f sg c 0.
Definition dff_d (f : dfile) (sg : signals) (c : clc) : bool := gate f sg c 1 || gate f sg c 3.
Definition dff_r (f : dfile) (sg : signals) (c : clc) : bool := gate f sg c 2.

(** The state a flip-flop cell takes at a rising clock edge. *)
Definition dff_next (f : dfile) (sg : signals) (c : clc) (q : bool) : bool :=
  if dff_r f sg c then false
  else if dff_clk f sg c then dff_d f sg c
  else q.

(** One TMR2 match seen by the circuit: [q1] and [q3] are the states of
    the flip-flops CLC1 and CLC3, [raw] the switch level; CLC2 is
    combinational.  Both flip-flops take their new state from the
    signals as they stand before the edge. *)
Definition clc_tick (f : dfile) (raw : bool) (q : bool * bool) : bool * bool :=
  let q1 := xorb (out_inverted f CLC1) (fst q) in
  let q3 := xorb (out_inverted f CLC3) (snd q) in
  let sg0 := mkSignals raw q1 false q3 true in
  let sg := mkSignals raw q1 (and4_out f sg0 CLC2) q3 true in
  (dff_next f sg CLC1 (fst q), dff_next f sg CLC3 (snd q)).

(** The circuit run over a list of switch samples, one per TMR2 match;
    the result lists the debounced output ([CLC1OUT]) after each. *)
Fixpoint clc_run (f : dfile) (samples : list bool) (q : bool * bool) : list bool :=
  match samples with
  | [] => []
  | raw :: rest =>
      let q' := clc_tick f raw q in
      xorb (out_inverted f CLC1) (fst q') :: clc_run f rest q'
  end.

Definition majority (a b c : bool) : bool := (a && b) || (a && c) || (b && c).

(** No two consecutive samples differ from [v]. *)
Fixpoint no_double (v : bool) (prev : bool) (samples : list bool) : bool :=
  match samples with
  | [] => true
  | x :: rest => (eqb x v || eqb prev v) && no_double v x rest
  end.

(** [check_spacing limit c tr]: going through [tr] with [c] waits made
    since the halt selector was last read, never more than [limit] waits
    are made without the halt selector being read in between.  The
    result is the count of waits at the end of [tr], [None] if the limit
    is exceeded. *)
Fixpoint check_spacing (limit c : Z) (tr : list event) : option Z :=
  match tr with
  | [] => Some c
  | EvDelay _ :: tr' =>
      if c + 1 <=? limit then check_spacing limit (c + 1) tr' else None
  | EvRead HALT_SEL _ :: tr' => check_spacing limit 0 tr'
  | _ :: tr' => check_spacing limit c tr'
  end.

(** [since_check i c]: at loop index [i] of a wait loop, [c] is the
    number of waits made since the selectors were last read there. *)
Definition since_check (i c : Z) : Prop :=
  0 <= c <= 1023 /\ (i mod 1024 <> 0 -> c = (i - 1) mod 1024).

(* ================================================================== *)
(** * Properties *)

(** ** Running a program symbolically *)

#[local] Arguments port_value : simpl never.
#[local] Arguments IS_SOFTWARE_MODE : simpl never.
#[local] Arguments GET_FREQ_VALUE : simpl never.
#[local] Arguments adc_moved : simpl never.
#[local] Arguments u32 : simpl never.
#[local] Arguments Z.testbit : simpl nomatch.
#[local] Arguments Z.land : simpl nomatch.
#[local] Arguments Z.lor : simpl nomatch.
#[local] Arguments Z.shiftr : simpl never.
#[local] Arguments Z.eqb : simpl nomatch.
#[local] Arguments Z.ltb : simpl nomatch.
#[local] Arguments Z.leb : simpl nomatch.
#[local] Arguments Z.abs : simpl nomatch.
#[local] Arguments Z.div : simpl nomatch.
#[local] Arguments Z.modulo : simpl nomatch.

Ltac run_defs :=
  unfold main_loop, main_iteration, run_branch, generator_pass, nco_poll, software_cycle, low_phase_relookup,
    resume, step_branch, halt_branch, read_mode, wait_button_release,
    button_pressed, output_step_pulse, nco_connect, nco_disconnect, nco_stop,
    nco_set_increment, nco_init, main_init, adc_read, read_port, delay_ms, delay_us, write,
    get_local, set_local, ret, out_of_fuel, bind.

(** The same for straight-line code, by call-by-value unfolding of the
    monad and of the record projections only. *)
Ltac run_cbv :=
  cbv beta iota zeta delta
    [main_init nco_init nco_disconnect nco_connect nco_stop nco_set_increment adc_read
     read_port write delay_ms delay_us get_local set_local ret bind
     outcome_of state_of events_of fst snd hw lv now write_reg
     last_adc freq_entry software_mode half_period running halted
     set_last_adc set_freq_entry set_software_mode set_half_period set_running set_halted
     NCO1CON RB6PPS NCO1INCL NCO1INCH NCO1INCU LATB6 LATC5 negb app Z.eqb].

Lemma bind_run {A B} (m : M A) (f : A -> M B) (s : state) :
  bind m f s =
  match outcome_of (m s) with
  | Ret a => prepend (events_of (m s)) (f a (state_of (m s)))
  | OutOfFuel => (OutOfFuel, state_of (m s), events_of (m s))
  end.
Proof.
  unfold bind, prepend, outcome_of, state_of, events_of.
  destruct (m s) as [[[a|] s1] t1]; cbn; [|reflexivity].
  destruct (f a s1) as [[r s2] t2]; reflexivity.
Qed.

Lemma prepend_nil {A} (x : outcome A * state * list event) : prepend [] x = x.
Proof. destruct x as [[r s] t]; reflexivity. Qed.

Lemma prepend_prepend {A} t1 t2 (x : outcome A * state * list event) :
  prepend t1 (prepend t2 x) = prepend (t1 ++ t2) x.
Proof. unfold prepend, outcome_of, state_of, events_of; cbn. now rewrite app_assoc. Qed.

Lemma replay_app h t1 t2 : replay h (t1 ++ t2) = replay (replay h t1) t2.
Proof. unfold replay. apply fold_left_app. Qed.

Lemma quiet_app t1 t2 : quiet (t1 ++ t2) <-> quiet t1 /\ quiet t2.
Proof. unfold quiet. rewrite forallb_app, andb_true_iff. tauto. Qed.

Lemma replay_quiet h t : quiet t -> replay h t = h.
Proof.
  revert h; induction t as [|e t IH]; intros h Hq; [reflexivity|].
  unfold quiet in Hq; cbn in Hq. apply andb_true_iff in Hq as [He Hq].
  destruct e; cbn in He; try discriminate; cbn; now apply IH.
Qed.

Lemma always_here J h t : always J h t -> J h.
Proof. destruct t; cbn; tauto. Qed.

Lemma always_app J h t1 t2 :
  always J h (t1 ++ t2) <-> always J h t1 /\ always J (replay h t1) t2.
Proof.
  revert h; induction t1 as [|e t1 IH]; intros h; cbn.
  - split; [|tauto]. intros H; split; [now apply always_here in H | exact H].
  - rewrite IH. unfold replay; cbn. tauto.
Qed.

Lemma always_last J h t : always J h t -> J (replay h t).
Proof.
  revert h; induction t as [|e t IH]; intros h; cbn; [tauto|].
  intros [_ H]. now apply IH.
Qed.

Lemma always_quiet J h t : quiet t -> J h -> always J h t.
Proof.
  revert h; induction t as [|e t IH]; intros h Hq HJ; cbn; [exact HJ|].
  unfold quiet in Hq; cbn in Hq. apply andb_true_iff in Hq as [He Hq].
  split; [exact HJ|]. destruct e; cbn in He; try discriminate; cbn; now apply IH.
Qed.


Lemma count_pulses_app t1 t2 :
  count_pulses (t1 ++ t2) = (count_pulses t1 + count_pulses t2)%nat.
Proof. unfold count_pulses. now rewrite filter_app, length_app. Qed.

Lemma count_pulses_quiet t : quiet t -> count_pulses t = 0%nat.
Proof.
  induction t as [|e t IH]; intros Hq; [reflexivity|].
  unfold quiet in Hq; cbn in Hq. apply andb_true_iff in Hq as [He Hq].
  destruct e; cbn in He; try discriminate; unfold count_pulses; cbn; now apply IH.
Qed.

Lemma port_value_halt E t : port_value E HALT_SEL t = if halt_sel E t then 1 else 0.
Proof. reflexivity. Qed.

Lemma port_value_step E t : port_value E STEP_SEL t = if step_sel E t then 1 else 0.
Proof. reflexivity. Qed.

Lemma port_value_btn E t : port_value E STEP_BTN t = if step_btn E t then 1 else 0.
Proof. reflexivity. Qed.

Lemma mode_at_zero E t : mode_at E t = 0 -> halt_sel E t = true /\ step_sel E t = true.
Proof. unfold mode_at. destruct (halt_sel E t), (step_sel E t); cbn; intros; try discriminate; auto. Qed.

Lemma adc_moved_spec (a l : Z) : adc_moved a l = true <-> Z.abs (a - l) > 1.
Proof.
  unfold adc_moved. rewrite andb_true_iff, orb_true_iff, negb_true_iff.
  rewrite Z.eqb_neq, Z.gtb_ltb, !Z.ltb_lt. lia.
Qed.

Lemma adc_moved_false (a l : Z) : adc_moved a l = false <-> Z.abs (a - l) <= 1.
Proof.
  destruct (adc_moved a l) eqn:H.
  - apply adc_moved_spec in H. split; [discriminate | lia].
  - split; [intros _|reflexivity].
    destruct (Z_le_gt_dec (Z.abs (a - l)) 1) as [|Hgt]; [assumption|].
    apply adc_moved_spec in Hgt. congruence.
Qed.

(* ------------------------------------------------------------------ *)
(** ** The driver calls *)

Lemma nco_stop_run (s : state) :
  nco_stop s =
  (Ret tt,
   mkState (mkRegs 0x00 (RB6PPS (hw s)) (NCO1INCL (hw s)) (NCO1INCH (hw s))
                   (NCO1INCU (hw s)) 0 (LATC5 (hw s))) (lv s) (now s),
   stop_events).
Proof. reflexivity. Qed.

Lemma nco_disconnect_run (s : state) :
  nco_disconnect s =
  (Ret tt,
   mkState (mkRegs 0x00 0x00 (NCO1INCL (hw s)) (NCO1INCH (hw s))
                   (NCO1INCU (hw s)) 0 (LATC5 (hw s))) (lv s) (now s),
   disconnect_events).
Proof. reflexivity. Qed.

Lemma nco_connect_run (s : state) :
  nco_connect s =
  (Ret tt,
   mkState (mkRegs 0x80 0x1D (NCO1INCL (hw s)) (NCO1INCH (hw s))
                   (NCO1INCU (hw s)) (LATB6 (hw s)) (LATC5 (hw s))) (lv s) (now s),
   connect_events).
Proof. reflexivity. Qed.

Lemma nco_set_increment_run (inc : Z) (s : state) :
  nco_set_increment inc s =
  (Ret tt,
   mkState (mkRegs 0x80 (RB6PPS (hw s)) (Z.land inc 0xFF) (Z.land (Z.shiftr inc 8) 0xFF)
                   (Z.land (Z.shiftr inc 16) 0x0F) (LATB6 (hw s)) (LATC5 (hw s)))
           (lv s) (now s),
   set_increment_events inc).
Proof. reflexivity. Qed.

(** C4 as stated fails: on a register file in which the NCO is enabled
    and routed to the pin, [nco_disconnect] leaves the peripheral
    disabled (enable bit of [NCO1CON] cleared), so its counting does not
    go on. *)
Lemma nco_disconnect_disables_peripheral :
  nco_enabled (hw (hw_running 100)) = true /\
  nco_enabled (hw (state_of (nco_disconnect (hw_running 100)))) = false.
Proof. split; reflexivity. Qed.

(** C4, amended: [nco_disconnect] clears [NCO1CON] (the peripheral is
    disabled), sets [RB6PPS] to 0 (the pin is detached from the NCO and
    follows the latch) and drives the latch low, in that order; the pin
    then reads low, and the increment registers and the LED are left as
    they were. *)
Theorem nco_disconnect_effect (s : state) :
  let r := nco_disconnect s in
  outcome_of r = Ret tt /\
  events_of r = [EvWrite R_NCO1CON 0x00; EvWrite R_RB6PPS 0x00; EvWrite R_LATB6 0] /\
  state_of r =
    mkState (mkRegs 0x00 0x00 (NCO1INCL (hw s)) (NCO1INCH (hw s)) (NCO1INCU (hw s))
                    0 (LATC5 (hw s))) (lv s) (now s) /\
  nco_enabled (hw (state_of r)) = false /\
  pin_level (hw (state_of r)) = PinLow.
Proof. cbn. repeat split; reflexivity. Qed.

(* ------------------------------------------------------------------ *)
(** ** Hysteresis *)

(** C2: a new sample triggers the re-lookup and the reconfiguration
    exactly when it differs from [last_adc] by more than 1.  In the NCO
    poll a sample within 1 of [last_adc] leaves registers and variables
    untouched, any other is recorded, looked up and applied; at a check
    point of the low-phase wait a sample within 1 lets the wait go on
    with everything unchanged, any other is recorded, looked up and
    applied (new half-period, or hand-over to the NCO). *)
Theorem hysteresis_rule (freq_table : Z -> Z) (E : env) (s : state) :
  let l := last_adc (lv s) in
  (forall a, adc_moved a l = negb (Z.abs (a - l) <=? 1)) /\
  (let a := port_value E ADRESH (now s) in
   let fe := freq_table a in
   nco_poll freq_table E s =
   if Z.abs (a - l) <=? 1 then
     (Ret tt, mkState (hw s) (lv s) (now s + 20000), [EvRead ADRESH a; EvDelay 20000])
   else if IS_SOFTWARE_MODE fe then
     (Ret tt,
      mkState (replay (hw s) disconnect_events)
              (mkLocals a fe 1 (GET_FREQ_VALUE fe) (running (lv s)) (halted (lv s)))
              (now s + 20000),
      EvRead ADRESH a :: disconnect_events ++ [EvDelay 20000])
   else
     (Ret tt,
      mkState (replay (hw s) (set_increment_events (GET_FREQ_VALUE fe)))
              (mkLocals a fe (software_mode (lv s)) (half_period (lv s))
                        (running (lv s)) (halted (lv s)))
              (now s + 20000),
      EvRead ADRESH a :: set_increment_events (GET_FREQ_VALUE fe) ++ [EvDelay 20000])) /\
  (forall (fuel : nat) (delay_10us i : Z),
     i < delay_10us -> Z.land i 0x3FF = 0 -> mode_at E (now s + 10) = 0 ->
     let t := now s + 10 in
     let a := port_value E ADRESH t in
     let fe := freq_table a in
     low_phase freq_table E (S fuel) delay_10us i s =
     prepend (EvDelay 10 :: mode_reads E t ++ [EvRead ADRESH a])
       (if Z.abs (a - l) <=? 1 then
          low_phase freq_table E fuel delay_10us (u32 (i + 1)) (mkState (hw s) (lv s) t)
        else if IS_SOFTWARE_MODE fe then
          low_phase freq_table E fuel (GET_FREQ_VALUE fe / 240) (u32 (i + 1))
            (mkState (hw s)
                     (mkLocals a fe (software_mode (lv s)) (GET_FREQ_VALUE fe)
                               (running (lv s)) (halted (lv s))) t)
        else
          (Ret tt,
           mkState (replay (hw s) (connect_events ++ set_increment_events (GET_FREQ_VALUE fe)))
                   (mkLocals a fe 0 (half_period (lv s)) (running (lv s)) (halted (lv s))) t,
           connect_events ++ set_increment_events (GET_FREQ_VALUE fe)))).
Proof.
  intros l. split; [|split].
  - intros a. destruct (Z.abs (a - l) <=? 1) eqn:Hd.
    + apply Z.leb_le in Hd. now apply adc_moved_false.
    + apply Z.leb_gt in Hd. apply adc_moved_spec. lia.
  - intros a fe. run_defs. cbn. fold a. fold l.
    destruct (Z.abs (a - l) <=? 1) eqn:Hd.
    + assert (Hm : adc_moved a l = false) by (apply adc_moved_false; lia).
      rewrite Hm. reflexivity.
    + apply Z.leb_gt in Hd. assert (Hm : adc_moved a l = true) by (apply adc_moved_spec; lia).
      rewrite Hm. cbn. fold fe. destruct (IS_SOFTWARE_MODE fe); reflexivity.
  - intros fuel d i Hi Hchk Hmode t a fe.
    destruct (mode_at_zero _ _ Hmode) as [Hh Hs]. fold t in Hh, Hs.
    apply Z.ltb_lt in Hi.
    cbn [low_phase]. rewrite Hi.
    run_defs. cbn. rewrite Hchk. cbn. fold t.
    unfold mode_reads. rewrite port_value_halt, port_value_step, Hh, Hs. cbn.
    fold a. fold l.
    destruct (Z.abs (a - l) <=? 1) eqn:Hd.
    + assert (Hm : adc_moved a l = false) by (apply adc_moved_false; lia).
      rewrite Hm.
      destruct (low_phase freq_table E fuel d (u32 (i + 1)) _) as [[r s2] t2]. reflexivity.
    + apply Z.leb_gt in Hd. assert (Hm : adc_moved a l = true) by (apply adc_moved_spec; lia).
      rewrite Hm. cbn. fold fe. destruct (IS_SOFTWARE_MODE fe); cbn; [|reflexivity].
      unfold set_half_period, set_freq_entry, set_last_adc; cbn.
      destruct (low_phase freq_table E fuel _ (u32 (i + 1)) _) as [[r s2] t2]. reflexivity.
Qed.

Lemma hysteresis_rule_witness :
  nco_poll sample_table (idle_env 101) (hw_running 100) =
    (Ret tt, mkState (hw (hw_running 100)) (lv (hw_running 100)) 20000,
     [EvRead ADRESH 101; EvDelay 20000]) /\
  (0 < 13 /\ Z.land 0 0x3FF = 0 /\ mode_at (idle_env 11) (0 + 10) = 0) /\
  low_phase sample_table (idle_env 11) 1 13 0 (sw_running 10) =
    prepend [EvDelay 10; EvRead HALT_SEL 1; EvRead STEP_SEL 1; EvRead ADRESH 11]
      (low_phase sample_table (idle_env 11) 0 13 1
         (mkState (hw (sw_running 10)) (lv (sw_running 10)) 10)).
Proof.
  split; [|split].
  - exact (proj1 (proj2 (hysteresis_rule sample_table (idle_env 101) (hw_running 100)))).
  - repeat split; reflexivity.
  - apply (proj2 (proj2 (hysteresis_rule sample_table (idle_env 11) (sw_running 10)))
             0%nat 13 0); [lia | reflexivity | reflexivity].
Defined.

(* ------------------------------------------------------------------ *)
(** ** Dispatch on the selectors *)

Lemma main_iteration_dispatch (freq_table : Z -> Z) (E : env) (fuel : nat) (s : state) :
  main_iteration freq_table E fuel s =
  prepend (mode_reads E (now s))
    (if negb (halt_sel E (now s)) then halt_branch s
     else if negb (step_sel E (now s)) then step_branch E fuel s
     else run_branch freq_table E fuel s).
Proof.
  unfold main_iteration. rewrite bind_run.
  unfold read_mode, read_port, bind, ret, mode_reads. cbn.
  rewrite port_value_halt, port_value_step.
  destruct (halt_sel E (now s)), (step_sel E (now s)); reflexivity.
Qed.

Lemma halt_branch_run (s : state) :
  halt_branch s =
  if halted (lv s) =? 0 then
    (Ret tt,
     mkState (replay (hw s) ((if software_mode (lv s) =? 0 then stop_events
                              else [EvWrite R_LATB6 0]) ++ [EvWrite R_LATC5 0]))
             (set_running 0 (set_halted 1 (lv s))) (now s + 50000),
     (if software_mode (lv s) =? 0 then stop_events else [EvWrite R_LATB6 0])
       ++ [EvWrite R_LATC5 0; EvDelay 50000])
  else (Ret tt, mkState (hw s) (lv s) (now s + 50000), [EvDelay 50000]).
Proof.
  run_defs. cbn.
  destruct (halted (lv s) =? 0); cbn; [|reflexivity].
  destruct (software_mode (lv s) =? 0); reflexivity.
Qed.

(** C8: the halt selector is tested first.  Whenever it is asserted (it
    reads low), whatever the step selector reads, the pass through the
    loop is the halt branch: it returns after the 50 ms wait with
    [halted] set, never reads the step button, emits no pulse and never
    turns the indicator on.  The step branch is taken only when halt is
    not asserted, and the running branch only when neither is. *)
Theorem halt_priority (freq_table : Z -> Z) (E : env) (fuel : nat) (s : state) :
  let t := now s in
  let r := main_iteration freq_table E fuel s in
  r = prepend (mode_reads E t)
        (if negb (halt_sel E t) then halt_branch s
         else if negb (step_sel E t) then step_branch E fuel s
         else run_branch freq_table E fuel s) /\
  (halt_sel E t = false ->
     r = prepend (mode_reads E t) (halt_branch s) /\
     outcome_of r = Ret tt /\
     halted (lv (state_of r)) <> 0 /\
     now (state_of r) = t + 50000 /\
     existsb (reads_port STEP_BTN) (events_of r) = false /\
     count_pulses (events_of r) = 0%nat /\
     existsb (fun e => match e with
                       | EvWrite R_LATC5 v => negb (v =? 0)
                       | _ => false
                       end) (events_of r) = false).
Proof.
  intros t r. split; [apply main_iteration_dispatch|].
  intros Hh. subst r t. rewrite main_iteration_dispatch, Hh. cbn [negb].
  split; [reflexivity|].
  rewrite halt_branch_run. unfold mode_reads.
  destruct (halted (lv s) =? 0) eqn:Hhl.
  - destruct (software_mode (lv s) =? 0); cbn; repeat split; discriminate.
  - apply Z.eqb_neq in Hhl. cbn. repeat split; assumption.
Qed.

Lemma halt_priority_witness :
  halt_sel (mkEnv (fun _ => false) (fun _ => false) (fun _ => false) (fun _ => 7))
           (now (sw_running 10)) = false /\
  outcome_of (main_iteration sample_table
                (mkEnv (fun _ => false) (fun _ => false) (fun _ => false) (fun _ => 7))
                5 (sw_running 10)) = Ret tt /\
  halted (lv (state_of (main_iteration sample_table
                (mkEnv (fun _ => false) (fun _ => false) (fun _ => false) (fun _ => 7))
                5 (sw_running 10)))) <> 0.
Proof.
  split; [reflexivity|].
  pose proof (proj2 (halt_priority sample_table
                (mkEnv (fun _ => false) (fun _ => false) (fun _ => false) (fun _ => 7))
                5 (sw_running 10)) eq_refl) as H.
  split; [exact (proj1 (proj2 H)) | exact (proj1 (proj2 (proj2 H)))].
Defined.

(* ------------------------------------------------------------------ *)
(** ** The three loops, one turn at a time *)

Lemma outcome_prepend {A} t (x : outcome A * state * list event) :
  outcome_of (prepend t x) = outcome_of x.
Proof. reflexivity. Qed.

Lemma state_prepend {A} t (x : outcome A * state * list event) :
  state_of (prepend t x) = state_of x.
Proof. reflexivity. Qed.

Lemma events_prepend {A} t (x : outcome A * state * list event) :
  events_of (prepend t x) = t ++ events_of x.
Proof. reflexivity. Qed.

Lemma read_mode_run (E : env) (s : state) :
  read_mode E s = (Ret (mode_at E (now s)), s, mode_reads E (now s)).
Proof.
  unfold read_mode, read_port, bind, ret, mode_reads, mode_at. cbn.
  rewrite port_value_halt, port_value_step.
  destruct (halt_sel E (now s)), (step_sel E (now s)); reflexivity.
Qed.

Lemma poll_release_unfold (E : env) (fuel : nat) (s : state) :
  poll_release E fuel s =
  if step_btn E (now s) then (Ret tt, s, [EvRead STEP_BTN 1])
  else match fuel with
       | O => (OutOfFuel, s, [EvRead STEP_BTN 0])
       | S f => prepend [EvRead STEP_BTN 0; EvDelay 1]
                  (poll_release E f (mkState (hw s) (lv s) (now s + 1)))
       end.
Proof.
  destruct fuel as [|f]; cbn [poll_release]; rewrite bind_run;
    unfold read_port; cbn; rewrite port_value_btn;
    destruct (step_btn E (now s)); cbn; try reflexivity.
  destruct (poll_release E f _) as [[r s2] t2]; reflexivity.
Qed.

Lemma high_phase_unfold (E : env) (fuel : nat) (d i : Z) (s : state) :
  high_phase E fuel d i s =
  if i <? d then
    match fuel with
    | O => (OutOfFuel, s, [])
    | S f =>
        let t := now s + 10 in
        if Z.land i 0x3FF =? 0 then
          if mode_at E t =? 0 then
            prepend (EvDelay 10 :: mode_reads E t)
              (high_phase E f d (u32 (i + 1)) (mkState (hw s) (lv s) t))
          else
            (Ret tt, mkState (write_reg R_LATB6 0 (hw s)) (lv s) t,
             EvDelay 10 :: mode_reads E t ++ [EvWrite R_LATB6 0])
        else
          prepend [EvDelay 10] (high_phase E f d (u32 (i + 1)) (mkState (hw s) (lv s) t))
    end
  else (Ret tt, s, []).
Proof.
  destruct fuel as [|f]; cbn [high_phase]; destruct (i <? d); try reflexivity.
  rewrite bind_run. cbn.
  destruct (Z.land i 1023 =? 0).
  - rewrite bind_run, read_mode_run. cbn.
    destruct (mode_at E (now s + 10) =? 0); cbn; [|reflexivity].
    destruct (high_phase E f d _ _) as [[r s2] t2]; reflexivity.
  - destruct (high_phase E f d _ _) as [[r s2] t2]; reflexivity.
Qed.

Lemma low_phase_unfold (freq_table : Z -> Z) (E : env) (fuel : nat) (d i : Z) (s : state) :
  low_phase freq_table E fuel d i s =
  if i <? d then
    match fuel with
    | O => (OutOfFuel, s, [])
    | S f =>
        let t := now s + 10 in
        let s1 := mkState (hw s) (lv s) t in
        if Z.land i 0x3FF =? 0 then
          if mode_at E t =? 0 then
            let a := port_value E ADRESH t in
            let fe := freq_table a in
            prepend (EvDelay 10 :: mode_reads E t ++ [EvRead ADRESH a])
              (if adc_moved a (last_adc (lv s)) then
                 if IS_SOFTWARE_MODE fe then
                   low_phase freq_table E f (GET_FREQ_VALUE fe / 240) (u32 (i + 1))
                     (mkState (hw s)
                        (mkLocals a fe (software_mode (lv s)) (GET_FREQ_VALUE fe)
                                  (running (lv s)) (halted (lv s))) t)
                 else
                   (Ret tt,
                    mkState (replay (hw s)
                               (connect_events ++ set_increment_events (GET_FREQ_VALUE fe)))
                            (mkLocals a fe 0 (half_period (lv s))
                                      (running (lv s)) (halted (lv s))) t,
                    connect_events ++ set_increment_events (GET_FREQ_VALUE fe))
               else low_phase freq_table E f d (u32 (i + 1)) s1)
          else (Ret tt, s1, EvDelay 10 :: mode_reads E t)
        else prepend [EvDelay 10] (low_phase freq_table E f d (u32 (i + 1)) s1)
    end
  else (Ret tt, s, []).
Proof.
  destruct fuel as [|f]; cbn [low_phase]; destruct (i <? d); try reflexivity.
  rewrite bind_run. cbn.
  destruct (Z.land i 1023 =? 0).
  - rewrite bind_run, read_mode_run. cbn.
    destruct (mode_at E (now s + 10) =? 0); cbn; [|reflexivity].
    run_defs. cbn.
    destruct (adc_moved _ _); cbn.
    + destruct (IS_SOFTWARE_MODE _); cbn; [|reflexivity].
      unfold set_half_period, set_freq_entry, set_last_adc; cbn.
      destruct (low_phase freq_table E f _ _ _) as [[r s2] t2]; reflexivity.
    + destruct (low_phase freq_table E f d _ _) as [[r s2] t2]; reflexivity.
  - destruct (low_phase freq_table E f d _ _) as [[r s2] t2]; reflexivity.
Qed.

Lemma quiet_cons_read p v t : quiet (EvRead p v :: t) <-> quiet t.
Proof. unfold quiet; cbn. tauto. Qed.

Lemma quiet_cons_delay us t : quiet (EvDelay us :: t) <-> quiet t.
Proof. unfold quiet; cbn. tauto. Qed.

Lemma quiet_mode_reads E t : quiet (mode_reads E t).
Proof. reflexivity. Qed.

Ltac quiet_solve := rewrite ?quiet_app; repeat split; (assumption || reflexivity).

(** The release poll touches no register and no variable, and when it
    returns the last thing it saw is the button released. *)
Lemma poll_release_spec (E : env) (fuel : nat) (s : state) :
  let r := poll_release E fuel s in
  quiet (events_of r) /\ hw (state_of r) = hw s /\ lv (state_of r) = lv s /\
  (outcome_of r = Ret tt -> exists q, events_of r = q ++ [EvRead STEP_BTN 1]).
Proof.
  revert s; induction fuel as [|f IH]; intros s; cbn zeta;
    rewrite poll_release_unfold; destruct (step_btn E (now s)).
  - repeat split. now exists [].
  - repeat split. discriminate.
  - repeat split. now exists [].
  - specialize (IH (mkState (hw s) (lv s) (now s + 1))). cbn zeta in IH.
    destruct IH as (Hq & Hh & Hl & Hr).
    rewrite outcome_prepend, state_prepend, events_prepend.
    repeat split; try assumption.
    intros Ho. destruct (Hr Ho) as [q Hq']. rewrite Hq'.
    now exists ([EvRead STEP_BTN 0; EvDelay 1] ++ q).
Qed.



(** The high-phase wait changes no variable; it touches no register,
    except that when it is cut short its last act is to write the latch
    low. *)
Lemma high_phase_spec (E : env) (fuel : nat) (d i : Z) (s : state) :
  let r := high_phase E fuel d i s in
  lv (state_of r) = lv s /\
  ((quiet (events_of r) /\ hw (state_of r) = hw s) \/
   (exists q, quiet q /\ events_of r = q ++ [EvWrite R_LATB6 0] /\
              hw (state_of r) = write_reg R_LATB6 0 (hw s) /\
              outcome_of r = Ret tt)).
Proof.
  revert i s; induction fuel as [|f IH]; intros i s; cbn zeta;
    rewrite high_phase_unfold; destruct (i <? d); try (split; [reflexivity|left; split; reflexivity]).
  cbn zeta.
  destruct (Z.land i 1023 =? 0); [destruct (mode_at E (now s + 10) =? 0)|].
  - specialize (IH (u32 (i + 1)) (mkState (hw s) (lv s) (now s + 10))). cbn zeta in IH.
    rewrite outcome_prepend, state_prepend, events_prepend.
    destruct IH as [Hl [[Hq Hh]|(q & Hq & He & Hh & Ho)]]; (split; [exact Hl|]).
    + left. split; [|exact Hh]. quiet_solve.
    + right. exists ((EvDelay 10 :: mode_reads E (now s + 10)) ++ q).
      repeat split; try assumption; try quiet_solve.
      rewrite He. now rewrite <- app_assoc.
  - split; [reflexivity|]. right. exists (EvDelay 10 :: mode_reads E (now s + 10)).
    repeat split.
  - specialize (IH (u32 (i + 1)) (mkState (hw s) (lv s) (now s + 10))). cbn zeta in IH.
    rewrite outcome_prepend, state_prepend, events_prepend.
    destruct IH as [Hl [[Hq Hh]|(q & Hq & He & Hh & Ho)]]; (split; [exact Hl|]).
    + left. split; [|exact Hh]. exact Hq.
    + right. exists ([EvDelay 10] ++ q).
      repeat split; try assumption; try quiet_solve. rewrite He. now rewrite <- app_assoc.
Qed.

(** The low-phase wait never changes [running] or [halted].  Either it
    touches no register and leaves [software_mode] alone, or it ends,
    returning, with the hand-over to the NCO: [nco_connect] then
    [nco_set_increment] with the value of the entry just looked up, which
    is an NCO entry, and [software_mode] cleared. *)
Lemma low_phase_spec (freq_table : Z -> Z) (E : env) (fuel : nat) (d i : Z) (s : state) :
  let r := low_phase freq_table E fuel d i s in
  running (lv (state_of r)) = running (lv s) /\
  halted (lv (state_of r)) = halted (lv s) /\
  ((quiet (events_of r) /\ hw (state_of r) = hw s /\
    software_mode (lv (state_of r)) = software_mode (lv s)) \/
   (exists q, let v := GET_FREQ_VALUE (freq_entry (lv (state_of r))) in
      quiet q /\
      events_of r = q ++ connect_events ++ set_increment_events v /\
      hw (state_of r) = replay (hw s) (connect_events ++ set_increment_events v) /\
      software_mode (lv (state_of r)) = 0 /\
      IS_SOFTWARE_MODE (freq_entry (lv (state_of r))) = false /\
      freq_entry (lv (state_of r)) = freq_table (last_adc (lv (state_of r))) /\
      outcome_of r = Ret tt)).
Proof.
  revert d i s; induction fuel as [|f IH]; intros d i s; cbn zeta;
    rewrite low_phase_unfold; destruct (i <? d);
    try (split; [reflexivity|split; [reflexivity|left; repeat split; reflexivity]]).
  cbn zeta.
  destruct (Z.land i 1023 =? 0); [destruct (mode_at E (now s + 10) =? 0)|].
  - set (a := port_value E ADRESH (now s + 10)).
    rewrite outcome_prepend, state_prepend, events_prepend.
    destruct (adc_moved a (last_adc (lv s))); [destruct (IS_SOFTWARE_MODE (freq_table a)) eqn:Hsw|].
    + match goal with |- context [low_phase _ _ f ?d' ?i' ?s'] =>
        specialize (IH d' i' s') end.
      cbn zeta in IH. cbn [lv hw running halted software_mode] in IH.
      destruct IH as (Hr & Hh & [(Hq & Hhw & Hsm)|(q & Hq & He & Hhw & Hsm & Hns & Hfe & Ho)]);
        (split; [exact Hr|split; [exact Hh|]]).
      * left. repeat split; try assumption; quiet_solve.
      * right. exists ((EvDelay 10 :: mode_reads E (now s + 10) ++ [EvRead ADRESH a]) ++ q).
        cbn zeta. repeat split; try assumption; try quiet_solve.
        rewrite He. now rewrite <- app_assoc.
    + split; [reflexivity|split; [reflexivity|]]. right.
      exists (EvDelay 10 :: mode_reads E (now s + 10) ++ [EvRead ADRESH a]).
      cbn zeta. cbn [state_of events_of outcome_of fst snd lv freq_entry last_adc software_mode hw].
      repeat split; assumption.
    + specialize (IH d (u32 (i + 1)) (mkState (hw s) (lv s) (now s + 10))).
      cbn zeta in IH. cbn [lv hw running halted software_mode] in IH.
      destruct IH as (Hr & Hh & [(Hq & Hhw & Hsm)|(q & Hq & He & Hhw & Hsm & Hns & Hfe & Ho)]);
        (split; [exact Hr|split; [exact Hh|]]).
      * left. repeat split; try assumption; quiet_solve.
      * right. exists ((EvDelay 10 :: mode_reads E (now s + 10) ++ [EvRead ADRESH a]) ++ q).
        cbn zeta. repeat split; try assumption; try quiet_solve.
        rewrite He. now rewrite <- app_assoc.
  - split; [reflexivity|split; [reflexivity|]]. left. repeat split.
  - specialize (IH d (u32 (i + 1)) (mkState (hw s) (lv s) (now s + 10))).
    cbn zeta in IH. cbn [lv hw running halted software_mode] in IH.
    rewrite outcome_prepend, state_prepend, events_prepend.
    destruct IH as (Hr & Hh & [(Hq & Hhw & Hsm)|(q & Hq & He & Hhw & Hsm & Hns & Hfe & Ho)]);
      (split; [exact Hr|split; [exact Hh|]]).
    + left. repeat split; assumption.
    + right. exists ([EvDelay 10] ++ q).
      cbn zeta. repeat split; try assumption; try quiet_solve.
      rewrite He. now rewrite <- app_assoc.
Qed.

(* ------------------------------------------------------------------ *)
(** ** The waits return *)

Lemma GET_FREQ_VALUE_bound (e : Z) : 0 <= GET_FREQ_VALUE e < 2 ^ 24.
Proof.
  unfold GET_FREQ_VALUE. change 0xFFFFFF with (Z.ones 24).
  rewrite Z.land_ones by lia. apply Z.mod_pos_bound. lia.
Qed.

Lemma delay_count_bound (e : Z) : 0 <= GET_FREQ_VALUE e / 240 < 69906.
Proof.
  pose proof (GET_FREQ_VALUE_bound e). split.
  - apply Z.div_pos; lia.
  - apply Z.div_lt_upper_bound; lia.
Qed.

Lemma u32_succ (i d : Z) : 0 <= i -> i < d -> d < 2 ^ 32 -> u32 (i + 1) = i + 1.
Proof. intros. unfold u32. apply Z.mod_small. lia. Qed.



(* ------------------------------------------------------------------ *)
(** ** One period of the software generator *)

Lemma calm_app t1 t2 : calm (t1 ++ t2) <-> calm t1 /\ calm t2.
Proof. unfold calm. rewrite forallb_app, andb_true_iff. tauto. Qed.

Lemma quiet_calm t : quiet t -> calm t.
Proof.
  unfold quiet, calm. induction t as [|e t IH]; cbn; [auto|].
  rewrite !andb_true_iff. intros [He Ht]. split; [|auto].
  destruct e; cbn in *; auto; discriminate.
Qed.

Lemma replay_calm h t : LATB6 h = 0 -> calm t -> replay h t = h.
Proof.
  revert h; induction t as [|e t IH]; intros h Hl Hc; [reflexivity|].
  unfold calm in Hc; cbn in Hc. apply andb_true_iff in Hc as [He Hc].
  destruct e as [r v| |]; cbn in He; cbn; try (now apply IH).
  destruct r; try discriminate. apply Z.eqb_eq in He; subst v.
  replace (write_reg R_LATB6 0 h) with h by (destruct h; cbn in *; subst; reflexivity).
  now apply IH.
Qed.

Lemma always_calm (J : regs -> Prop) h t : LATB6 h = 0 -> calm t -> J h -> always J h t.
Proof.
  revert h; induction t as [|e t IH]; intros h Hl Hc HJ; cbn; [exact HJ|].
  split; [exact HJ|].
  assert (Hc' := Hc). unfold calm in Hc; cbn in Hc. apply andb_true_iff in Hc as [He Hc].
  assert (Hh : apply_event h e = h).
  { change (replay h [e] = h). apply replay_calm; [exact Hl|]. unfold calm; cbn. now rewrite He. }
  rewrite Hh. now apply IH.
Qed.

Lemma software_cycle_unfold (freq_table : Z -> Z) (E : env) (fuel : nat) (s : state) :
  software_cycle freq_table E fuel s =
  let d := half_period (lv s) / 240 in
  let r1 := high_phase E fuel d 0 (mkState (write_reg R_LATB6 1 (hw s)) (lv s) (now s)) in
  prepend [EvWrite R_LATB6 1]
    (match outcome_of r1 with
     | Ret _ =>
         prepend (events_of r1 ++ [EvWrite R_LATB6 0])
           (low_phase freq_table E fuel d 0
              (mkState (write_reg R_LATB6 0 (hw (state_of r1)))
                       (lv (state_of r1)) (now (state_of r1))))
     | OutOfFuel => (OutOfFuel, state_of r1, events_of r1)
     end).
Proof.
  unfold software_cycle. rewrite bind_run. cbn.
  rewrite bind_run. cbn.
  destruct (high_phase E fuel _ 0 _) as [[[[]|] s1] t1]; cbn; [|reflexivity].
  destruct (low_phase freq_table E fuel _ 0 _) as [[r2 s2] t2]; cbn.
  unfold prepend; cbn. now rewrite <- app_assoc.
Qed.


(** The events of one software period: the latch goes high, the high
    wait touches nothing, the latch goes low, and from then on nothing but
    further latch-low writes happens until, possibly, a final hand-over
    to the NCO. *)
Lemma software_cycle_shape (freq_table : Z -> Z) (E : env) (fuel : nat) (s : state) :
  let r := software_cycle freq_table E fuel s in
  running (lv (state_of r)) = running (lv s) /\
  halted (lv (state_of r)) = halted (lv s) /\
  exists q1, quiet q1 /\
    ((outcome_of r = OutOfFuel /\
      events_of r = EvWrite R_LATB6 1 :: q1 /\
      hw (state_of r) = write_reg R_LATB6 1 (hw s) /\
      lv (state_of r) = lv s) \/
     (exists c, calm c /\
        ((events_of r = EvWrite R_LATB6 1 :: q1 ++ EvWrite R_LATB6 0 :: c /\
          hw (state_of r) = write_reg R_LATB6 0 (hw s) /\
          software_mode (lv (state_of r)) = software_mode (lv s)) \/
         (let v := GET_FREQ_VALUE (freq_entry (lv (state_of r))) in
          events_of r = EvWrite R_LATB6 1 :: q1 ++ EvWrite R_LATB6 0 :: c ++
                        connect_events ++ set_increment_events v /\
          hw (state_of r) = replay (write_reg R_LATB6 0 (hw s))
                                   (connect_events ++ set_increment_events v) /\
          software_mode (lv (state_of r)) = 0 /\
          IS_SOFTWARE_MODE (freq_entry (lv (state_of r))) = false /\
          freq_entry (lv (state_of r)) = freq_table (last_adc (lv (state_of r))) /\
          outcome_of r = Ret tt)))).
Proof.
  cbn zeta. rewrite software_cycle_unfold. cbn zeta.
  set (d := half_period (lv s) / 240).
  pose proof (high_phase_spec E fuel d 0
                (mkState (write_reg R_LATB6 1 (hw s)) (lv s) (now s))) as Hhi.
  cbn zeta in Hhi.
  destruct (high_phase E fuel d 0 _) as [[o1 [h1 l1 n1]] t1].
  cbn [state_of events_of outcome_of fst snd lv hw] in Hhi.
  destruct Hhi as [Hlv Hhi]. subst l1.
  destruct o1 as [[]|].
  - cbn [outcome_of state_of events_of fst snd hw lv now].
    pose proof (low_phase_spec freq_table E fuel d 0
                  (mkState (write_reg R_LATB6 0 h1) (lv s) n1)) as Hlo.
    cbn zeta in Hlo.
    destruct (low_phase freq_table E fuel d 0 _) as [[o2 [h2 l2 n2]] t2].
    unfold prepend.
    cbn [state_of events_of outcome_of fst snd lv hw] in *.
    destruct Hlo as (Hr & Hh & Hlo).
    split; [exact Hr|split; [exact Hh|]].
    assert (Hh1 : write_reg R_LATB6 0 h1 = write_reg R_LATB6 0 (hw s)).
    { destruct Hhi as [[_ ->]|(q & _ & _ & -> & _)]; reflexivity. }
    rewrite Hh1 in Hlo.
    assert (Ht1 : exists q1 c1, quiet q1 /\ calm c1 /\
              t1 ++ [EvWrite R_LATB6 0] = q1 ++ EvWrite R_LATB6 0 :: c1).
    { destruct Hhi as [[Hq _]|(q & Hq & -> & _ & _)].
      - exists t1, []. repeat split; assumption.
      - exists q, [EvWrite R_LATB6 0]. repeat split; try assumption.
        now rewrite <- app_assoc. }
    destruct Ht1 as (q1 & c1 & Hq1 & Hc1 & Ht1).
    exists q1. split; [exact Hq1|]. right.
    destruct Hlo as [(Hq2 & Hhw & Hsm)|(q2 & Hq2 & He2 & Hhw & Hsm & Hns & Hfe & Ho2)].
    + exists (c1 ++ t2). split; [apply calm_app; split; [exact Hc1|now apply quiet_calm]|].
      left. repeat split; try assumption.
      rewrite Ht1. cbn. now rewrite <- app_assoc.
    + exists (c1 ++ q2). split; [apply calm_app; split; [exact Hc1|now apply quiet_calm]|].
      right. cbn zeta. repeat split; try assumption.
      rewrite He2, Ht1. cbn. rewrite <- !app_assoc. reflexivity.
  - unfold prepend. cbn [outcome_of state_of events_of fst snd hw lv now].
    split; [reflexivity|split; [reflexivity|]].
    destruct Hhi as [[Hq1 Hh1]|(q & Hq & He1 & Hh1 & Ho)]; [|discriminate].
    exists t1. split; [exact Hq1|]. left. repeat split. exact Hh1.
Qed.

Lemma count_pulses_calm t : calm t -> count_pulses t = 0%nat.
Proof.
  induction t as [|e t IH]; intros Hc; [reflexivity|].
  unfold calm in Hc; cbn in Hc. apply andb_true_iff in Hc as [He Hc].
  change (e :: t) with ([e] ++ t). rewrite count_pulses_app, (IH Hc).
  destruct e as [r v| |]; try reflexivity.
  destruct r; try discriminate. cbn in He. unfold count_pulses; cbn. now rewrite He.
Qed.


(* ------------------------------------------------------------------ *)
(** ** The branches of the loop body *)

Lemma nco_poll_run (freq_table : Z -> Z) (E : env) (s : state) :
  let a := port_value E ADRESH (now s) in
  let fe := freq_table a in
  nco_poll freq_table E s =
  if adc_moved a (last_adc (lv s)) then
    if IS_SOFTWARE_MODE fe then
      (Ret tt,
       mkState (replay (hw s) disconnect_events)
               (mkLocals a fe 1 (GET_FREQ_VALUE fe) (running (lv s)) (halted (lv s)))
               (now s + 20000),
       EvRead ADRESH a :: disconnect_events ++ [EvDelay 20000])
    else
      (Ret tt,
       mkState (replay (hw s) (set_increment_events (GET_FREQ_VALUE fe)))
               (mkLocals a fe (software_mode (lv s)) (half_period (lv s))
                         (running (lv s)) (halted (lv s)))
               (now s + 20000),
       EvRead ADRESH a :: set_increment_events (GET_FREQ_VALUE fe) ++ [EvDelay 20000])
  else (Ret tt, mkState (hw s) (lv s) (now s + 20000), [EvRead ADRESH a; EvDelay 20000]).
Proof.
  intros a fe. run_defs. cbn. fold a.
  destruct (adc_moved a (last_adc (lv s))); cbn; [|reflexivity].
  fold fe. destruct (IS_SOFTWARE_MODE fe); reflexivity.
Qed.

Lemma resume_run (freq_table : Z -> Z) (E : env) (s : state) :
  let a := port_value E ADRESH (now s) in
  resume freq_table E s =
  (Ret tt, resumed freq_table a s, EvRead ADRESH a :: resume_writes (freq_table a)).
Proof.
  intros a. unfold resumed, resume_writes. run_defs. cbn. fold a.
  destruct (IS_SOFTWARE_MODE (freq_table a)); reflexivity.
Qed.

Lemma step_branch_run (E : env) (fuel : nat) (s : state) :
  let t := now s in
  let entry := step_entry_writes s ++ [EvWrite R_LATC5 1] in
  let h1 := replay (hw s) entry in
  let l1 := step_entry_locals s in
  step_branch E fuel s =
  if step_btn E t then
    (Ret tt, mkState h1 l1 (t + 10000),
     entry ++ [EvRead STEP_BTN 1; EvDelay 10000])
  else if step_btn E (t + 20000) then
    (Ret tt, mkState h1 l1 (t + 20000 + 10000),
     entry ++ [EvRead STEP_BTN 0; EvDelay 20000; EvRead STEP_BTN 1; EvDelay 10000])
  else
    let r := poll_release E fuel
               (mkState (write_reg R_LATB6 0 (write_reg R_LATB6 1 h1)) l1 (t + 20000 + 10000)) in
    prepend (entry ++ [EvRead STEP_BTN 0; EvDelay 20000; EvRead STEP_BTN 0] ++ pulse_events)
      (match outcome_of r with
       | Ret _ => (Ret tt,
                   mkState (hw (state_of r)) (lv (state_of r)) (now (state_of r) + 20000 + 10000),
                   events_of r ++ [EvDelay 20000; EvDelay 10000])
       | OutOfFuel => (OutOfFuel, state_of r, events_of r)
       end).
Proof.
  intros t entry h1 l1. subst t entry h1 l1.
  unfold step_entry_writes, step_entry_locals, step_entering.
  unfold step_branch. run_defs. cbn.
  destruct (negb (running (lv s) =? 0) || (halted (lv s) =? 0));
    [destruct (software_mode (lv s) =? 0)|]; cbn;
    rewrite ?port_value_btn;
    (destruct (step_btn E (now s)); cbn; [reflexivity|]);
    rewrite ?port_value_btn;
    (destruct (step_btn E (now s + 20000)); cbn; [reflexivity|]);
    match goal with |- context [poll_release E fuel ?s'] =>
      destruct (poll_release E fuel s') as [[[[]|] s2] t2] end;
    unfold prepend; cbn; rewrite <- ?app_assoc; reflexivity.
Qed.

Lemma generator_pass_unfold (freq_table : Z -> Z) (E : env) (fuel : nat) (s : state) :
  generator_pass freq_table E fuel s =
  if software_mode (lv s) =? 0 then nco_poll freq_table E s
  else software_cycle freq_table E fuel s.
Proof.
  unfold generator_pass. rewrite bind_run. cbn.
  destruct (software_mode (lv s) =? 0); cbn; apply prepend_nil.
Qed.

Lemma run_branch_unfold (freq_table : Z -> Z) (E : env) (fuel : nat) (s : state) :
  let a := port_value E ADRESH (now s) in
  run_branch freq_table E fuel s =
  if halted (lv s) =? 0 then generator_pass freq_table E fuel s
  else prepend (EvRead ADRESH a :: resume_writes (freq_table a))
         (generator_pass freq_table E fuel (resumed freq_table a s)).
Proof.
  intros a. unfold run_branch, get_local. rewrite bind_run.
  cbn [outcome_of state_of events_of fst snd]. rewrite prepend_nil.
  destruct (halted (lv s) =? 0); cbn [negb]; rewrite bind_run.
  - unfold ret. cbn [outcome_of state_of events_of fst snd]. apply prepend_nil.
  - rewrite resume_run. reflexivity.
Qed.

(* ------------------------------------------------------------------ *)
(** ** The loop-head facts are kept, and the generators never overlap *)

Lemma exclusive_latch_low h : LATB6 h = 0 -> exclusive h.
Proof. unfold exclusive, latch_high. intros ->. apply andb_false_r. Qed.

Lemma exclusive_nco_off h : NCO1CON h = 0 -> exclusive h.
Proof. unfold exclusive, nco_enabled. intros ->. reflexivity. Qed.

Lemma well_run_prepend s s1 t r :
  hw s1 = replay (hw s) t -> always exclusive (hw s) t ->
  well_run s1 r -> well_run s (prepend t r).
Proof.
  intros Hh Ht (Hf & Ha & Hi). unfold well_run.
  rewrite state_prepend, events_prepend, outcome_prepend.
  split; [|split].
  - now rewrite replay_app, <- Hh.
  - apply always_app. split; [exact Ht|]. now rewrite <- Hh.
  - exact Hi.
Qed.

Ltac open_state s H :=
  destruct s as [[con pps il ih iu lat led] [la fe sm hp rn hl] t0];
  destruct H as [Hlat Hfl Hsw Hpps Hoff Hon]; cbn in *.

Ltac inv_close :=
  intros; cbn in *;
  try (apply exclusive_latch_low; reflexivity);
  try (apply exclusive_nco_off; reflexivity);
  try discriminate; try lia; try tauto;
  intuition (try discriminate; try lia; auto).

Ltac well_run_tac := unfold well_run; cbn; repeat split; inv_close.

Lemma halt_branch_well (s : state) : Inv s -> well_run s (halt_branch s).
Proof.
  intros H. rewrite halt_branch_run. open_state s H. subst lat.
  destruct Hfl as [[-> ->]|[-> ->]]; cbn.
  - destruct Hsw as [->| ->]; cbn; [|rewrite Hoff by auto]; well_run_tac.
  - well_run_tac.
Qed.

Lemma replay_cons h e t : replay h (e :: t) = replay (apply_event h e) t.
Proof. reflexivity. Qed.

Lemma always_cons J h e t : always J h (e :: t) <-> J h /\ always J (apply_event h e) t.
Proof. reflexivity. Qed.

Lemma well_run_quiet (s : state) (r : outcome unit * state * list event) :
  quiet (events_of r) -> hw (state_of r) = hw s -> exclusive (hw s) ->
  (outcome_of r = Ret tt -> Inv (state_of r)) -> well_run s r.
Proof.
  intros Hq Hh Hx Hi. unfold well_run. split; [|split; [|exact Hi]].
  - now rewrite replay_quiet.
  - now apply always_quiet.
Qed.

Lemma step_branch_well (E : env) (fuel : nat) (s : state) :
  Inv s -> well_run s (step_branch E fuel s).
Proof.
  intros H. rewrite step_branch_run. cbn zeta.
  unfold step_entry_writes, step_entry_locals, step_entering.
  open_state s H. subst lat.
  assert (Hcon : sm = 1 \/ hl = 1 -> con = 0) by exact Hoff.
  destruct Hfl as [[-> ->]|[-> ->]];
    [destruct Hsw as [->| ->]; [|rewrite Hcon by auto]|rewrite Hcon by auto]; cbn;
    (destruct (step_btn E t0); [well_run_tac|]);
    (destruct (step_btn E (t0 + 20000)); [well_run_tac|]);
    match goal with |- context [poll_release E fuel ?s'] =>
      pose proof (poll_release_spec E fuel s') as Hp; cbn zeta in Hp;
      destruct (poll_release E fuel s') as [[o2 [h2 l2 n2]] t2];
      cbn [state_of events_of outcome_of fst snd hw lv now] in Hp;
      destruct Hp as (Hq & Hh2 & Hl2 & _); subst h2 l2;
      apply well_run_prepend with (s1 := s');
      [ reflexivity
      | cbn; repeat split; inv_close
      | apply well_run_quiet;
        [ destruct o2 as [[]|]; cbn; [|exact Hq]; apply quiet_app; split; [exact Hq|reflexivity]
        | destruct o2 as [[]|]; reflexivity
        | apply exclusive_latch_low; reflexivity
        | destruct o2 as [[]|]; cbn; [intros _|discriminate]; constructor; inv_close ] ]
    end.
Qed.

Lemma resumed_inv (freq_table : Z -> Z) (a : Z) (s : state) :
  Inv s -> halted (lv s) <> 0 ->
  Inv (resumed freq_table a s) /\ halted (lv (resumed freq_table a s)) = 0 /\
  always exclusive (hw s) (resume_writes (freq_table a)).
Proof.
  intros H Hh. unfold resumed, resume_writes. open_state s H. subst lat.
  destruct Hfl as [[-> ->]|[-> ->]]; [contradiction|]. rewrite Hoff by auto.
  destruct (IS_SOFTWARE_MODE (freq_table a)); cbn;
    (split; [constructor; inv_close|split; [reflexivity|repeat split; inv_close]]).
Qed.

Lemma nco_poll_well (freq_table : Z -> Z) (E : env) (s : state) :
  Inv s -> halted (lv s) = 0 -> software_mode (lv s) = 0 ->
  well_run s (nco_poll freq_table E s).
Proof.
  intros H Hh Hs. rewrite nco_poll_run. cbn zeta.
  open_state s H. subst lat hl sm. destruct (Hon eq_refl eq_refl) as [-> ->].
  destruct Hfl as [[-> _]|[_ Hc]]; [|discriminate].
  destruct (adc_moved _ _); [destruct (IS_SOFTWARE_MODE _)|]; well_run_tac.
Qed.

Lemma software_cycle_well (freq_table : Z -> Z) (E : env) (fuel : nat) (s : state) :
  Inv s -> halted (lv s) = 0 -> software_mode (lv s) = 1 ->
  well_run s (software_cycle freq_table E fuel s).
Proof.
  intros H Hh Hs.
  pose proof (software_cycle_shape freq_table E fuel s) as Hshape. cbn zeta in Hshape.
  destruct (software_cycle freq_table E fuel s) as [[o [h' l' n']] tr].
  cbn [state_of events_of outcome_of fst snd hw lv] in Hshape.
  destruct Hshape as (Hr & Hhl & q1 & Hq1 & Hcases).
  open_state s H. subst lat hl sm. rewrite Hoff in * by auto. clear Hoff Hon.
  destruct Hfl as [[-> _]|[_ Hc]]; [|discriminate].
  set (h0 := mkRegs 0 pps il ih iu 0 led) in *.
  assert (Hx1 : always exclusive h0 (EvWrite R_LATB6 1 :: q1)).
  { apply always_cons. split; [now apply exclusive_latch_low|].
    apply always_quiet; [exact Hq1|]. now apply exclusive_nco_off. }
  assert (Hr1 : replay h0 (EvWrite R_LATB6 1 :: q1) = write_reg R_LATB6 1 h0).
  { rewrite replay_cons. now apply replay_quiet. }
  unfold well_run. cbn [state_of events_of outcome_of fst snd hw lv].
  destruct Hcases as [(Ho & He & Hhw & _)|(c & Hc & [(He & Hhw & Hsm)|Hhand])].
  - subst o tr h'. split; [now rewrite Hr1|split; [exact Hx1|discriminate]].
  - subst tr h'.
    change (EvWrite R_LATB6 1 :: q1 ++ EvWrite R_LATB6 0 :: c)
      with ((EvWrite R_LATB6 1 :: q1) ++ EvWrite R_LATB6 0 :: c).
    split; [|split].
    + rewrite replay_app, Hr1, replay_cons. symmetry. now apply replay_calm.
    + apply always_app. split; [exact Hx1|]. rewrite Hr1.
      apply always_cons. split; [now apply exclusive_nco_off|].
      apply always_calm; [reflexivity|exact Hc|now apply exclusive_latch_low].
    + intros _. destruct l' as [la' fe' sm' hp' rn' hl']. cbn in *. subst.
      constructor; inv_close.
  - cbn zeta in Hhand. destruct Hhand as (He & Hhw & Hsm & Hns & Hfe & Ho).
    subst tr h'.
    change (EvWrite R_LATB6 1 :: q1 ++ EvWrite R_LATB6 0 :: c ++ ?x)
      with ((EvWrite R_LATB6 1 :: q1) ++ (EvWrite R_LATB6 0 :: c) ++ x).
    assert (Hr0 : replay (write_reg R_LATB6 1 h0) (EvWrite R_LATB6 0 :: c)
                  = write_reg R_LATB6 0 h0).
    { rewrite replay_cons. now apply replay_calm. }
    split; [|split].
    + now rewrite !replay_app, Hr1, Hr0.
    + apply always_app. split; [exact Hx1|]. rewrite Hr1.
      apply always_app. split.
      * apply always_cons. split; [now apply exclusive_nco_off|].
        apply always_calm; [reflexivity|exact Hc|now apply exclusive_latch_low].
      * rewrite Hr0. cbn. repeat split; now apply exclusive_latch_low.
    + intros _. destruct l' as [la' fe' sm' hp' rn' hl']. cbn in *. subst.
      constructor; inv_close.
Qed.

Lemma generator_pass_well (freq_table : Z -> Z) (E : env) (fuel : nat) (s : state) :
  Inv s -> halted (lv s) = 0 -> well_run s (generator_pass freq_table E fuel s).
Proof.
  intros H Hh. rewrite generator_pass_unfold.
  destruct (inv_sw s H) as [Hs|Hs]; rewrite Hs; cbn.
  - now apply nco_poll_well.
  - now apply software_cycle_well.
Qed.

Lemma run_branch_well (freq_table : Z -> Z) (E : env) (fuel : nat) (s : state) :
  Inv s -> well_run s (run_branch freq_table E fuel s).
Proof.
  intros H. rewrite run_branch_unfold. cbn zeta.
  destruct (halted (lv s) =? 0) eqn:Hh.
  - apply Z.eqb_eq in Hh. now apply generator_pass_well.
  - apply Z.eqb_neq in Hh.
    destruct (resumed_inv freq_table (port_value E ADRESH (now s)) s H Hh) as (Hi & Hh' & Hx).
    eapply well_run_prepend; [| |apply generator_pass_well; eassumption].
    + reflexivity.
    + apply always_cons. split; [|exact Hx]. now apply always_here in Hx.
Qed.

(** Every pass through the loop body that starts with the loop-head
    facts is a sound run. *)
Lemma main_iteration_well (freq_table : Z -> Z) (E : env) (fuel : nat) (s : state) :
  Inv s -> well_run s (main_iteration freq_table E fuel s).
Proof.
  intros H. rewrite main_iteration_dispatch.
  apply well_run_prepend with (s1 := s).
  - reflexivity.
  - apply always_quiet; [reflexivity|]. apply exclusive_latch_low, (inv_latch s H).
  - destruct (negb (halt_sel E (now s))); [now apply halt_branch_well|].
    destruct (negb (step_sel E (now s))); [now apply step_branch_well|].
    now apply run_branch_well.
Qed.

Lemma main_loop_unfold (freq_table : Z -> Z) (E : env) (fuel k : nat) (s : state) :
  main_loop freq_table E fuel (S k) s =
  let r := main_iteration freq_table E fuel s in
  match outcome_of r with
  | Ret _ => prepend (events_of r) (main_loop freq_table E fuel k (state_of r))
  | OutOfFuel => (OutOfFuel, state_of r, events_of r)
  end.
Proof. cbn [main_loop]. now rewrite bind_run. Qed.

Lemma main_loop_well (freq_table : Z -> Z) (E : env) (fuel n : nat) (s : state) :
  Inv s -> well_run s (main_loop freq_table E fuel n s).
Proof.
  revert s; induction n as [|k IH]; intros s H.
  - unfold well_run; cbn.
    split; [reflexivity|split; [apply exclusive_latch_low, (inv_latch s H)|intros _; exact H]].
  - rewrite main_loop_unfold. cbn zeta.
    pose proof (main_iteration_well freq_table E fuel s H) as (Hf & Hx & Hi).
    destruct (outcome_of (main_iteration freq_table E fuel s)) as [[]|].
    + apply well_run_prepend with (s1 := state_of (main_iteration freq_table E fuel s)); auto.
    + unfold well_run; cbn. split; [exact Hf|split; [exact Hx|discriminate]].
Qed.

(** The start-up code of [main] returns and establishes the loop-head
    facts, whatever the registers held at power-on. *)
Lemma main_init_inv (freq_table : Z -> Z) (E : env) (s0 : state) :
  outcome_of (main_init freq_table E s0) = Ret tt /\
  Inv (state_of (main_init freq_table E s0)).
Proof.
  run_defs. cbn.
  destruct (IS_SOFTWARE_MODE _); cbn; (split; [reflexivity|constructor; inv_close]).
Qed.

(* ------------------------------------------------------------------ *)
(** ** Hand-over between the two generators *)

Lemma running_iteration (freq_table : Z -> Z) (E : env) (fuel : nat) (s : state) :
  halted (lv s) = 0 -> mode_at E (now s) = 0 ->
  main_iteration freq_table E fuel s =
  prepend (mode_reads E (now s)) (generator_pass freq_table E fuel s).
Proof.
  intros Hh Hm. destruct (mode_at_zero _ _ Hm) as [H1 H2].
  rewrite main_iteration_dispatch, H1, H2. cbn [negb].
  rewrite run_branch_unfold. cbn zeta. now rewrite Hh.
Qed.

Lemma pin_low_when_parked h :
  LATB6 h = 0 -> NCO1CON h = 0 -> RB6PPS h = 0x00 \/ RB6PPS h = 0x1D ->
  pin_level h = PinLow.
Proof.
  intros Hl Hc Hp. unfold pin_level, nco_enabled. rewrite Hl, Hc.
  destruct Hp as [-> | ->]; reflexivity.
Qed.

Lemma connect_set_increment_latch_low h v :
  LATB6 h = 0 -> pin_level h = PinLow ->
  always (fun x => LATB6 x = 0 /\ (pin_level x = PinLow \/ pin_level x = PinNCO)) h
         (connect_events ++ set_increment_events v).
Proof.
  intros Hl Hp. destruct h as [con pps il ih iu lat led]. cbn in Hl. subst lat.
  cbn [app connect_events set_increment_events always apply_event write_reg
       NCO1CON RB6PPS NCO1INCL NCO1INCH NCO1INCU LATB6 LATC5].
  split; [split; [reflexivity|now left]|].
  unfold pin_level, nco_enabled. cbn.
  repeat split; auto.
  destruct (Z.testbit con 7); auto.
Qed.

Lemma connect_set_increment_pin_trace h v :
  LATB6 h = 0 -> NCO1CON h = 0 -> RB6PPS h = 0x00 \/ RB6PPS h = 0x1D ->
  map pin_level (snapshots h (connect_events ++ set_increment_events v)) =
  [PinLow; PinLow; PinNCO; PinLow; PinLow; PinLow; PinLow; PinNCO].
Proof.
  intros Hl Hc Hp. destruct h as [con pps il ih iu lat led]. cbn in Hl, Hc, Hp. subst lat con.
  destruct Hp as [-> | ->]; reflexivity.
Qed.

(** Software to hardware: the pass ends with [nco_connect] followed by
    [nco_set_increment]; just before, the latch and the pin are low, and
    the latch stays low to the end. *)
Lemma sw_to_hw_handoff (freq_table : Z -> Z) (E : env) (fuel : nat) (s : state) :
  Inv s -> halted (lv s) = 0 -> mode_at E (now s) = 0 ->
  software_mode (lv s) = 1 ->
  let r := main_iteration freq_table E fuel s in
  software_mode (lv (state_of r)) = 0 ->
  exists pre,
    let v := GET_FREQ_VALUE (freq_entry (lv (state_of r))) in
    events_of r = pre ++ connect_events ++ set_increment_events v /\
    LATB6 (replay (hw s) pre) = 0 /\
    pin_level (replay (hw s) pre) = PinLow /\
    always (fun h => LATB6 h = 0 /\ (pin_level h = PinLow \/ pin_level h = PinNCO))
           (replay (hw s) pre) (connect_events ++ set_increment_events v) /\
    map pin_level (snapshots (replay (hw s) pre)
                             (connect_events ++ set_increment_events v)) =
      [PinLow; PinLow; PinNCO; PinLow; PinLow; PinLow; PinLow; PinNCO] /\
    outcome_of r = Ret tt /\
    freq_entry (lv (state_of r)) = freq_table (last_adc (lv (state_of r))) /\
    IS_SOFTWARE_MODE (freq_entry (lv (state_of r))) = false /\
    hw (state_of r) = replay (hw s) (events_of r) /\
    pin_level (hw (state_of r)) = PinNCO.
Proof.
  intros H Hh Hm Hs r Hs'. subst r.
  rewrite running_iteration in * by assumption.
  rewrite generator_pass_unfold, Hs in *. cbn [Z.eqb] in *.
  rewrite state_prepend, events_prepend, outcome_prepend in *.
  pose proof (software_cycle_shape freq_table E fuel s) as Hshape. cbn zeta in Hshape.
  destruct (software_cycle freq_table E fuel s) as [[o [h' l' n']] tr].
  cbn [state_of events_of outcome_of fst snd hw lv] in *.
  destruct Hshape as (_ & _ & q1 & Hq1 & Hcases).
  destruct Hcases as [(_ & _ & _ & Hl)|(c & Hc & [(_ & _ & Hsm)|Hhand])];
    [subst l'; congruence|congruence|].
  cbn zeta in Hhand. destruct Hhand as (He & Hhw & _ & Hns & Hfe & Ho).
  exists (mode_reads E (now s) ++ EvWrite R_LATB6 1 :: q1 ++ EvWrite R_LATB6 0 :: c).
  cbn zeta.
  assert (Hpre : replay (hw s)
            (mode_reads E (now s) ++ EvWrite R_LATB6 1 :: q1 ++ EvWrite R_LATB6 0 :: c)
          = write_reg R_LATB6 0 (hw s)).
  { rewrite replay_app, (replay_quiet _ (mode_reads E (now s))) by reflexivity.
    change (EvWrite R_LATB6 1 :: q1 ++ EvWrite R_LATB6 0 :: c)
      with ((EvWrite R_LATB6 1 :: q1) ++ EvWrite R_LATB6 0 :: c).
    rewrite replay_app, !replay_cons, (replay_quiet _ q1) by assumption.
    now apply replay_calm. }
  rewrite Hpre.
  assert (Hev : mode_reads E (now s) ++ tr =
                (mode_reads E (now s) ++ EvWrite R_LATB6 1 :: q1 ++ EvWrite R_LATB6 0 :: c)
                ++ connect_events ++ set_increment_events (GET_FREQ_VALUE (freq_entry l'))).
  { rewrite He. rewrite <- app_assoc. cbn. rewrite <- app_assoc. reflexivity. }
  split; [exact Hev|]. split; [reflexivity|].
  assert (Hlow : pin_level (write_reg R_LATB6 0 (hw s)) = PinLow).
  { apply pin_low_when_parked; cbn;
      [reflexivity|apply (inv_nco_off s H); auto|apply (inv_pps s H)]. }
  split; [exact Hlow|].
  split; [now apply connect_set_increment_latch_low|].
  split; [apply connect_set_increment_pin_trace; cbn;
          [reflexivity|apply (inv_nco_off s H); auto|apply (inv_pps s H)]|].
  split; [exact Ho|]. split; [exact Hfe|]. split; [exact Hns|].
  split; [rewrite Hev, replay_app, Hpre; exact Hhw|].
  rewrite Hhw. reflexivity.
Qed.

(** Hardware to software: the pass consists of the ADC read,
    [nco_disconnect] and the poll delay; from the first write of
    [nco_disconnect] on the pin is low, and the latch is never written
    high in this pass. *)
Lemma hw_to_sw_handoff (freq_table : Z -> Z) (E : env) (fuel : nat) (s : state) :
  Inv s -> halted (lv s) = 0 -> mode_at E (now s) = 0 ->
  software_mode (lv s) = 0 ->
  let r := main_iteration freq_table E fuel s in
  software_mode (lv (state_of r)) = 1 ->
  let a := port_value E ADRESH (now s) in
  events_of r = mode_reads E (now s) ++ EvRead ADRESH a :: disconnect_events ++ [EvDelay 20000] /\
  pin_level (hw s) = PinNCO /\
  always (fun h => pin_level h = PinLow) (apply_event (hw s) (EvWrite R_NCO1CON 0x00))
         [EvWrite R_RB6PPS 0x00; EvWrite R_LATB6 0; EvDelay 20000] /\
  count_pulses (events_of r) = 0%nat /\
  outcome_of r = Ret tt /\
  hw (state_of r) = replay (hw s) disconnect_events /\
  nco_enabled (hw (state_of r)) = false /\
  half_period (lv (state_of r)) = GET_FREQ_VALUE (freq_table a) /\
  IS_SOFTWARE_MODE (freq_table a) = true.
Proof.
  intros H Hh Hm Hs r Hs' a. subst r.
  rewrite running_iteration in * by assumption.
  rewrite generator_pass_unfold, Hs in *. cbn [Z.eqb] in *.
  rewrite state_prepend, events_prepend, outcome_prepend in *.
  rewrite nco_poll_run in *. cbn zeta in *. fold a in Hs' |- *.
  destruct (inv_nco_on s H Hs Hh) as [Hp Hc].
  pose proof (inv_latch s H) as Hl.
  destruct s as [[con pps il ih iu lat led] l t0]. cbn in Hp, Hc, Hl, Hs. subst con pps lat.
  destruct (adc_moved a _); [destruct (IS_SOFTWARE_MODE (freq_table a))|];
    cbn in Hs'; try congruence.
  cbn. repeat split.
Qed.

(** C1, amended: from any state satisfying the loop-head facts, at no instant of
    any number of passes through the loop are the NCO enabled and the
    latch high together.  In the Running state, a pass that changes
    [software_mode] from 1 to 0 ends with [nco_connect] followed by
    [nco_set_increment] of the freshly looked-up NCO entry; at the
    instant before [nco_connect] the latch and the pin are low, and during
    the two calls the latch stays low and the pin is low except where the
    NCO, alone, is enabled on it (after the enabling write of each call).  A pass that changes [software_mode] from 0 to 1 consists
    of the ADC read, [nco_disconnect] and the poll delay; from the first
    write of [nco_disconnect] on the pin reads low, the NCO ends up
    disabled and detached, and the latch is not written high in that
    pass, so the software phase starts only afterwards. *)
Theorem handoff_safe (freq_table : Z -> Z) (E : env) (fuel n : nat) (s : state) :
  Inv s ->
  always exclusive (hw s) (events_of (main_loop freq_table E fuel n s)) /\
  (halted (lv s) = 0 -> mode_at E (now s) = 0 ->
   let r := main_iteration freq_table E fuel s in
   (software_mode (lv s) = 1 -> software_mode (lv (state_of r)) = 0 ->
    exists pre,
      let v := GET_FREQ_VALUE (freq_entry (lv (state_of r))) in
      events_of r = pre ++ connect_events ++ set_increment_events v /\
      LATB6 (replay (hw s) pre) = 0 /\
      pin_level (replay (hw s) pre) = PinLow /\
      always (fun h => LATB6 h = 0 /\ (pin_level h = PinLow \/ pin_level h = PinNCO))
             (replay (hw s) pre) (connect_events ++ set_increment_events v) /\
      map pin_level (snapshots (replay (hw s) pre)
                               (connect_events ++ set_increment_events v)) =
        [PinLow; PinLow; PinNCO; PinLow; PinLow; PinLow; PinLow; PinNCO] /\
      outcome_of r = Ret tt /\
      freq_entry (lv (state_of r)) = freq_table (last_adc (lv (state_of r))) /\
      IS_SOFTWARE_MODE (freq_entry (lv (state_of r))) = false /\
      hw (state_of r) = replay (hw s) (events_of r) /\
      pin_level (hw (state_of r)) = PinNCO) /\
   (software_mode (lv s) = 0 -> software_mode (lv (state_of r)) = 1 ->
    let a := port_value E ADRESH (now s) in
    events_of r =
      mode_reads E (now s) ++ EvRead ADRESH a :: disconnect_events ++ [EvDelay 20000] /\
    pin_level (hw s) = PinNCO /\
    always (fun h => pin_level h = PinLow) (apply_event (hw s) (EvWrite R_NCO1CON 0x00))
           [EvWrite R_RB6PPS 0x00; EvWrite R_LATB6 0; EvDelay 20000] /\
    count_pulses (events_of r) = 0%nat /\
    outcome_of r = Ret tt /\
    hw (state_of r) = replay (hw s) disconnect_events /\
    nco_enabled (hw (state_of r)) = false /\
    half_period (lv (state_of r)) = GET_FREQ_VALUE (freq_table a) /\
    IS_SOFTWARE_MODE (freq_table a) = true)).
Proof.
  intros H. split.
  - apply (main_loop_well freq_table E fuel n s H).
  - intros Hh Hm r. split.
    + intros Hs Hs'. exact (sw_to_hw_handoff freq_table E fuel s H Hh Hm Hs Hs').
    + intros Hs Hs'. exact (hw_to_sw_handoff freq_table E fuel s H Hh Hm Hs Hs').
Qed.

Lemma sw_running_inv (adc : Z) : Inv (sw_running adc).
Proof. constructor; cbn; auto; intros; try discriminate; auto. Qed.

Lemma hw_running_inv (adc : Z) : Inv (hw_running adc).
Proof. constructor; cbn; auto; intros [?|?]; discriminate. Qed.

Lemma handoff_safe_witness :
  Inv (sw_running 10) /\
  always exclusive (hw (sw_running 10))
    (events_of (main_loop sample_table (idle_env 200) 100 3 (sw_running 10))) /\
  (halted (lv (sw_running 10)) = 0 /\ mode_at (idle_env 200) (now (sw_running 10)) = 0 /\
   software_mode (lv (sw_running 10)) = 1 /\
   software_mode (lv (state_of (main_iteration sample_table (idle_env 200) 100
                                   (sw_running 10)))) = 0) /\
  outcome_of (main_iteration sample_table (idle_env 200) 100 (sw_running 10)) = Ret tt.
Proof.
  pose proof (handoff_safe sample_table (idle_env 200) 100 3 (sw_running 10)
                (sw_running_inv 10)) as [Hx Hhand].
  split; [apply sw_running_inv|]. split; [exact Hx|].
  split; [repeat split; reflexivity|].
  destruct (proj1 (Hhand eq_refl eq_refl) eq_refl eq_refl) as (pre & _ & _ & _ & _ & _ & Ho & _).
  exact Ho.
Defined.

(** C1 as stated fails: the pin does not read low at every instant of a
    hand-over.  Running in software mode on entry 10, the ADC reads 200,
    an NCO entry; at the first check point of the low phase the pass
    ends with [nco_connect] and [nco_set_increment 62000].  Right after
    [nco_connect] the NCO is enabled and routed to the pin while the
    increment registers still hold the old value 1: the pin is driven by
    the NCO, not held low, until [nco_set_increment] disables it again. *)
Lemma handoff_pin_not_low :
  software_mode (lv (sw_running 10)) = 1 /\
  software_mode (lv (state_of (main_iteration sample_table (idle_env 200) 100
                                 (sw_running 10)))) = 0 /\
  exists pre,
    events_of (main_iteration sample_table (idle_env 200) 100 (sw_running 10)) =
      pre ++ connect_events ++ set_increment_events 62000 /\
    pin_level (replay (hw (sw_running 10)) pre) = PinLow /\
    pin_level (replay (hw (sw_running 10)) (pre ++ connect_events)) = PinNCO /\
    nco_enabled (replay (hw (sw_running 10)) (pre ++ connect_events)) = true /\
    LATB6 (replay (hw (sw_running 10)) (pre ++ connect_events)) = 0 /\
    nco_increment (replay (hw (sw_running 10)) (pre ++ connect_events)) = 1.
Proof.
  split; [reflexivity|]. split; [vm_compute; reflexivity|].
  exists (firstn 23 (events_of (main_iteration sample_table (idle_env 200) 100
                                  (sw_running 10)))).
  vm_compute. repeat split.
Qed.

(* ------------------------------------------------------------------ *)
(** ** Halt *)

(** While [halted] is set and the halt selector reads asserted at the
    start of each pass, the loop only reads the selectors and waits. *)
Lemma halted_loop (freq_table : Z -> Z) (E : env) (fuel n : nat) (s : state) :
  halted (lv s) <> 0 ->
  (forall k, (k < n)%nat -> halt_sel E (now s + 50000 * Z.of_nat k) = false) ->
  let r := main_loop freq_table E fuel n s in
  outcome_of r = Ret tt /\ quiet (events_of r) /\
  state_of r = mkState (hw s) (lv s) (now s + 50000 * Z.of_nat n).
Proof.
  revert s; induction n as [|n IH]; intros s Hh Hsel; cbn zeta.
  - cbn. repeat split. destruct s; cbn. f_equal. lia.
  - rewrite main_loop_unfold. cbn zeta.
    assert (H0 : halt_sel E (now s) = false).
    { rewrite <- (Hsel 0%nat) by lia. f_equal. lia. }
    rewrite main_iteration_dispatch, H0. cbn [negb].
    rewrite halt_branch_run.
    apply Z.eqb_neq in Hh. rewrite Hh. apply Z.eqb_neq in Hh.
    rewrite !outcome_prepend, !state_prepend, !events_prepend.
    cbn [outcome_of state_of events_of fst snd].
    specialize (IH (mkState (hw s) (lv s) (now s + 50000)) Hh).
    cbn zeta in IH. cbn [hw lv now] in IH.
    destruct IH as (Ho & Hq & Hs).
    { intros k Hk. rewrite <- (Hsel (S k)) by lia. f_equal. lia. }
    rewrite outcome_prepend, state_prepend, events_prepend.
    split; [exact Ho|]. split; [quiet_solve|].
    rewrite Hs. f_equal. lia.
Qed.

(** C3: a pass through the loop with the halt selector asserted, from any
    state satisfying the loop-head facts (running on either generator, or
    stepping), returns with [halted] set, the NCO disabled, the latch low
    and the pin reading low; and as long as the selector reads asserted
    at the start of each following pass, those passes write no register
    at all, so the pin stays low and neither generator is re-enabled. *)
Theorem halt_forces_pin_low (freq_table : Z -> Z) (E : env) (fuel : nat) (s : state) :
  Inv s -> halt_sel E (now s) = false ->
  let r := main_iteration freq_table E fuel s in
  let s1 := state_of r in
  outcome_of r = Ret tt /\
  halted (lv s1) = 1 /\ running (lv s1) = 0 /\
  LATB6 (hw s1) = 0 /\ nco_enabled (hw s1) = false /\ pin_level (hw s1) = PinLow /\
  now s1 = now s + 50000 /\
  forall n : nat,
    (forall k, (k < n)%nat -> halt_sel E (now s1 + 50000 * Z.of_nat k) = false) ->
    let r' := main_loop freq_table E fuel n s1 in
    outcome_of r' = Ret tt /\
    quiet (events_of r') /\
    hw (state_of r') = hw s1 /\ lv (state_of r') = lv s1 /\
    always (fun h => pin_level h = PinLow /\ nco_enabled h = false) (hw s1) (events_of r').
Proof.
  intros H Hsel r s1.
  assert (Hfirst : outcome_of r = Ret tt /\
            halted (lv s1) = 1 /\ running (lv s1) = 0 /\
            LATB6 (hw s1) = 0 /\ NCO1CON (hw s1) = 0 /\
            (RB6PPS (hw s1) = 0 \/ RB6PPS (hw s1) = 0x1D) /\
            now s1 = now s + 50000).
  { subst s1 r. rewrite main_iteration_dispatch, Hsel. cbn [negb].
    rewrite halt_branch_run. open_state s H. subst lat.
    destruct Hfl as [[-> ->]|[-> ->]]; cbn.
    - destruct Hsw as [->| ->]; cbn; [|rewrite Hoff by auto]; repeat split; auto.
    - rewrite Hoff by auto. repeat split; auto. }
  destruct Hfirst as (Ho & Hh & Hr & Hl & Hc & Hp & Ht).
  assert (Hlow : pin_level (hw s1) = PinLow) by now apply pin_low_when_parked.
  assert (Hoff : nco_enabled (hw s1) = false) by (unfold nco_enabled; now rewrite Hc).
  repeat (split; [assumption|]).
  intros n Hn r'.
  assert (Hh' : halted (lv s1) <> 0) by lia.
  destruct (halted_loop freq_table E fuel n s1 Hh' Hn) as (Ho' & Hq' & Hs').
  fold r' in Ho', Hq', Hs'.
  split; [exact Ho'|]. split; [exact Hq'|]. rewrite Hs'. cbn [hw lv].
  split; [reflexivity|]. split; [reflexivity|].
  apply always_quiet; [exact Hq'|]. now split.
Qed.

Lemma halt_forces_pin_low_witness :
  Inv (hw_running 100) /\
  halt_sel (mkEnv (fun _ => false) (fun _ => true) (fun _ => true) (fun _ => 100))
           (now (hw_running 100)) = false /\
  pin_level (hw (hw_running 100)) = PinNCO /\
  pin_level (hw (state_of (main_iteration sample_table
      (mkEnv (fun _ => false) (fun _ => true) (fun _ => true) (fun _ => 100)) 10
      (hw_running 100)))) = PinLow.
Proof.
  split; [apply hw_running_inv|]. split; [reflexivity|]. split; [reflexivity|].
  exact (proj1 (proj2 (proj2 (proj2 (proj2 (proj2
    (halt_forces_pin_low sample_table
       (mkEnv (fun _ => false) (fun _ => true) (fun _ => true) (fun _ => 100)) 10
       (hw_running 100) (hw_running_inv 100) eq_refl))))))).
Defined.

(* ------------------------------------------------------------------ *)
(** ** Interrupting a phase of the software generator *)




Lemma software_cycle_one_rise (freq_table : Z -> Z) (E : env) (fuel : nat) (s : state) :
  let r := software_cycle freq_table E fuel s in
  count_pulses (events_of r) = 1%nat /\
  exists rest, events_of r = EvWrite R_LATB6 1 :: rest.
Proof.
  cbn zeta.
  destruct (software_cycle_shape freq_table E fuel s) as (_ & _ & q1 & Hq1 & Hcases).
  destruct Hcases as [(_ & He & _)|(c & Hc & [(He & _)|Hhand])].
  - rewrite He. split; [|now eexists].
    change (EvWrite R_LATB6 1 :: q1) with ([EvWrite R_LATB6 1] ++ q1).
    now rewrite count_pulses_app, (count_pulses_quiet q1).
  - rewrite He. split; [|now eexists].
    change (EvWrite R_LATB6 1 :: q1 ++ EvWrite R_LATB6 0 :: c)
      with ([EvWrite R_LATB6 1] ++ q1 ++ [EvWrite R_LATB6 0] ++ c).
    now rewrite !count_pulses_app, (count_pulses_quiet q1), (count_pulses_calm c).
  - cbn zeta in Hhand. destruct Hhand as (He & _). rewrite He. split; [|now eexists].
    change (EvWrite R_LATB6 1 :: q1 ++ EvWrite R_LATB6 0 :: c ++ ?x)
      with ([EvWrite R_LATB6 1] ++ q1 ++ [EvWrite R_LATB6 0] ++ c ++ x).
    now rewrite !count_pulses_app, (count_pulses_quiet q1), (count_pulses_calm c).
Qed.



(* ------------------------------------------------------------------ *)
(** ** The pin routing register *)

Lemma pps_ok_app t1 t2 : pps_ok (t1 ++ t2) <-> pps_ok t1 /\ pps_ok t2.
Proof. unfold pps_ok. rewrite forallb_app, andb_true_iff. tauto. Qed.

Lemma calm_pps_ok t : calm t -> pps_ok t.
Proof.
  unfold calm, pps_ok. induction t as [|e t IH]; cbn; [auto|].
  rewrite !andb_true_iff. intros [He Ht]. split; [|auto].
  destruct e as [r v| |]; cbn in *; auto. destruct r; cbn in *; auto; discriminate.
Qed.

Lemma quiet_pps_ok t : quiet t -> pps_ok t.
Proof. intros H. now apply calm_pps_ok, quiet_calm. Qed.

Lemma quiet_no_pps_write t : quiet t -> existsb is_pps_write t = false.
Proof.
  unfold quiet. induction t as [|e t IH]; cbn; [auto|].
  rewrite andb_true_iff. intros [He Ht]. rewrite (IH Ht).
  destruct e; cbn in *; auto; discriminate.
Qed.

Lemma no_pps_write_frame h t :
  existsb is_pps_write t = false -> always (fun x => RB6PPS x = RB6PPS h) h t.
Proof.
  assert (G : forall h', RB6PPS h' = RB6PPS h -> existsb is_pps_write t = false ->
                         always (fun x => RB6PPS x = RB6PPS h) h' t).
  { induction t as [|e t IH]; intros h' Hh' Hn; cbn; [exact Hh'|].
    cbn in Hn. apply orb_false_iff in Hn as [He Hn].
    split; [exact Hh'|]. apply IH; [|exact Hn].
    destruct e as [r v| |]; cbn; auto. destruct r; cbn in *; auto; discriminate. }
  now apply G.
Qed.

Lemma routed_until_detach h t :
  pps_ok t -> existsb is_detach t = false -> RB6PPS h = 0x1D ->
  always (fun x => RB6PPS x = 0x1D) h t.
Proof.
  revert h; induction t as [|e t IH]; intros h Hok Hn Hh; cbn; [exact Hh|].
  unfold pps_ok in Hok. cbn in Hok, Hn.
  apply andb_true_iff in Hok as [He Hok]. apply orb_false_iff in Hn as [Hd Hn].
  split; [exact Hh|]. apply IH; try assumption.
  destruct e as [r v| |]; cbn; auto. destruct r; cbn in *; auto.
  rewrite Hd in He. cbn in He. now apply Z.eqb_eq in He.
Qed.

Ltac pps_solve := rewrite ?pps_ok_app; repeat split; (assumption || reflexivity).

Lemma generator_pass_pps_ok (freq_table : Z -> Z) (E : env) (fuel : nat) (s : state) :
  pps_ok (events_of (generator_pass freq_table E fuel s)).
Proof.
  rewrite generator_pass_unfold. destruct (software_mode (lv s) =? 0).
  - rewrite nco_poll_run. cbn zeta.
    destruct (adc_moved _ _); [destruct (IS_SOFTWARE_MODE _)|]; reflexivity.
  - destruct (software_cycle_shape freq_table E fuel s) as (_ & _ & q1 & Hq1 & Hcases).
    apply quiet_pps_ok in Hq1.
    destruct Hcases as [(_ & He & _)|(c & Hc & [(He & _)|Hhand])].
    + rewrite He. change (EvWrite R_LATB6 1 :: q1) with ([EvWrite R_LATB6 1] ++ q1). pps_solve.
    + rewrite He. apply calm_pps_ok in Hc.
      change (EvWrite R_LATB6 1 :: q1 ++ EvWrite R_LATB6 0 :: c)
        with ([EvWrite R_LATB6 1] ++ q1 ++ [EvWrite R_LATB6 0] ++ c). pps_solve.
    + cbn zeta in Hhand. destruct Hhand as (He & _). rewrite He. apply calm_pps_ok in Hc.
      change (EvWrite R_LATB6 1 :: q1 ++ EvWrite R_LATB6 0 :: c ++ ?x)
        with ([EvWrite R_LATB6 1] ++ q1 ++ [EvWrite R_LATB6 0] ++ c ++ x). pps_solve.
Qed.

Lemma step_branch_events (E : env) (fuel : nat) (s : state) :
  exists q, quiet q /\
    (events_of (step_branch E fuel s) = step_entry_writes s ++ EvWrite R_LATC5 1 :: q \/
     events_of (step_branch E fuel s) =
       step_entry_writes s ++ [EvWrite R_LATC5 1; EvRead STEP_BTN 0; EvDelay 20000;
                               EvRead STEP_BTN 0] ++ pulse_events ++ q).
Proof.
  rewrite step_branch_run. cbn zeta.
  destruct (step_btn E (now s)); [|destruct (step_btn E (now s + 20000))].
  - eexists. split; [|left; cbn; rewrite <- app_assoc; reflexivity]. reflexivity.
  - eexists. split; [|left; cbn; rewrite <- app_assoc; reflexivity]. reflexivity.
  - match goal with |- context [poll_release E fuel ?s'] =>
      destruct (poll_release_spec E fuel s') as (Hq & _);
      destruct (poll_release E fuel s') as [[o2 s2] t2] end.
    cbn [state_of events_of outcome_of fst snd] in *.
    rewrite events_prepend.
    destruct o2 as [[]|]; cbn [events_of snd].
    + exists (t2 ++ [EvDelay 20000; EvDelay 10000]). split; [quiet_solve|].
      right. rewrite <- !app_assoc. reflexivity.
    + exists t2. split; [exact Hq|]. right. rewrite <- !app_assoc. reflexivity.
Qed.

Lemma main_iteration_pps_ok (freq_table : Z -> Z) (E : env) (fuel : nat) (s : state) :
  pps_ok (events_of (main_iteration freq_table E fuel s)).
Proof.
  rewrite main_iteration_dispatch, events_prepend.
  apply pps_ok_app. split; [reflexivity|].
  destruct (negb (halt_sel E (now s))); [|destruct (negb (step_sel E (now s)))].
  - rewrite halt_branch_run.
    destruct (halted (lv s) =? 0); [destruct (software_mode (lv s) =? 0)|]; reflexivity.
  - destruct (step_branch_events E fuel s) as (q & Hq & [He|He]); rewrite He;
      apply quiet_pps_ok in Hq;
      (assert (Hent : pps_ok (step_entry_writes s));
       [unfold step_entry_writes;
        destruct (step_entering s); [destruct (software_mode (lv s) =? 0)|]; reflexivity|]).
    + change (EvWrite R_LATC5 1 :: q) with ([EvWrite R_LATC5 1] ++ q). pps_solve.
    + pps_solve.
  - rewrite run_branch_unfold. cbn zeta.
    destruct (halted (lv s) =? 0); [apply generator_pass_pps_ok|].
    rewrite events_prepend.
    change (EvRead ADRESH ?a :: ?x) with ([EvRead ADRESH a] ++ x).
    rewrite !pps_ok_app. repeat split; [|apply generator_pass_pps_ok].
    unfold resume_writes. destruct (IS_SOFTWARE_MODE _); reflexivity.
Qed.

Lemma main_loop_pps_ok (freq_table : Z -> Z) (E : env) (fuel n : nat) (s : state) :
  pps_ok (events_of (main_loop freq_table E fuel n s)).
Proof.
  revert s; induction n as [|n IH]; intros s; [reflexivity|].
  rewrite main_loop_unfold. cbn zeta.
  pose proof (main_iteration_pps_ok freq_table E fuel s) as H1.
  destruct (outcome_of (main_iteration freq_table E fuel s)) as [[]|]; [|exact H1].
  rewrite events_prepend. apply pps_ok_app. split; [exact H1|apply IH].
Qed.

Lemma halted_step_pass (freq_table : Z -> Z) (E : env) (fuel : nat) (s : state) :
  running (lv s) = 0 -> halted (lv s) <> 0 ->
  halt_sel E (now s) = true -> step_sel E (now s) = false ->
  step_entering s = false /\
  exists q, quiet q /\
    (events_of (main_iteration freq_table E fuel s) =
       mode_reads E (now s) ++ EvWrite R_LATC5 1 :: q \/
     events_of (main_iteration freq_table E fuel s) =
       mode_reads E (now s) ++
       [EvWrite R_LATC5 1; EvRead STEP_BTN 0; EvDelay 20000; EvRead STEP_BTN 0]
       ++ pulse_events ++ q).
Proof.
  intros Hr Hh Hhalt Hstep.
  assert (Hent : step_entering s = false).
  { unfold step_entering. rewrite Hr. apply Z.eqb_neq in Hh. now rewrite Hh. }
  split; [exact Hent|].
  rewrite main_iteration_dispatch, Hhalt, Hstep, events_prepend. cbn [negb].
  destruct (step_branch_events E fuel s) as (q & Hq & He).
  unfold step_entry_writes in He. rewrite Hent in He. cbn [app] in He.
  exists q. split; [exact Hq|].
  destruct He as [-> | ->]; [left|right]; reflexivity.
Qed.

(** C9: [nco_stop] writes [NCO1CON] (0x00) and the latch (0) and nothing
    else, so [RB6PPS] keeps its value: after halting from hardware mode
    it still selects the NCO.  A pass through the loop taken from the
    Halted state into the step branch skips the entry code (its guard
    [running || !halted] is false), writes neither [RB6PPS] nor
    [NCO1CON], and so keeps the routing at every instant, the latch
    writes of a step pulse included; with the NCO still selected and
    disabled the pin reads low throughout that pass.  In general, over
    any number of passes started with [RB6PPS = 0x1D], the routing stays
    0x1D at every instant unless the detaching write of [nco_disconnect]
    occurs. *)
Theorem routing_kept_after_stop (freq_table : Z -> Z) (E : env) (fuel : nat) (s : state) :
  (let r := nco_stop s in
   outcome_of r = Ret tt /\
   events_of r = [EvWrite R_NCO1CON 0x00; EvWrite R_LATB6 0] /\
   state_of r =
     mkState (mkRegs 0x00 (RB6PPS (hw s)) (NCO1INCL (hw s)) (NCO1INCH (hw s))
                     (NCO1INCU (hw s)) 0 (LATC5 (hw s))) (lv s) (now s)) /\
  (running (lv s) = 0 -> halted (lv s) <> 0 ->
   halt_sel E (now s) = true -> step_sel E (now s) = false ->
   let r := main_iteration freq_table E fuel s in
   negb (running (lv s) =? 0) || (halted (lv s) =? 0) = false /\
   existsb is_pps_write (events_of r) = false /\
   always (fun h => RB6PPS h = RB6PPS (hw s)) (hw s) (events_of r) /\
   (RB6PPS (hw s) = 0x1D -> NCO1CON (hw s) = 0x00 ->
    always (fun h => pin_level h = PinLow) (hw s) (events_of r))) /\
  (forall n : nat,
     RB6PPS (hw s) = 0x1D ->
     let r := main_loop freq_table E fuel n s in
     existsb is_detach (events_of r) = false ->
     always (fun h => RB6PPS h = 0x1D) (hw s) (events_of r)).
Proof.
  split; [|split].
  - cbn. repeat split.
  - intros Hr Hh Hhalt Hstep r.
    destruct (halted_step_pass freq_table E fuel s Hr Hh Hhalt Hstep) as (Hent & q & Hq & He).
    fold r in He. split; [exact Hent|].
    assert (Hn : existsb is_pps_write (events_of r) = false).
    { destruct He as [-> | ->]; rewrite !existsb_app; cbn; now rewrite quiet_no_pps_write. }
    split; [exact Hn|]. split; [now apply no_pps_write_frame|].
    intros Hp Hc.
    destruct s as [[con pps il ih iu lat led] l t0]. cbn in Hp, Hc. subst con pps.
    destruct He as [-> | ->]; cbn [hw];
      (apply always_app; split; [now apply always_quiet|]);
      rewrite replay_quiet by reflexivity.
    + apply always_cons. split; [reflexivity|]. now apply always_quiet.
    + cbn [app pulse_events always apply_event write_reg].
      repeat (split; [reflexivity|]). now apply always_quiet.
  - intros n Hp r Hd.
    apply routed_until_detach; [apply main_loop_pps_ok|exact Hd|exact Hp].
Qed.

Lemma routing_kept_after_stop_witness :
  (running (lv (halted_from_hw 100)) = 0 /\ halted (lv (halted_from_hw 100)) <> 0 /\
   halt_sel (mkEnv (fun _ => true) (fun _ => false) (fun t => 30500 <? t) (fun _ => 100))
            (now (halted_from_hw 100)) = true /\
   step_sel (mkEnv (fun _ => true) (fun _ => false) (fun t => 30500 <? t) (fun _ => 100))
            (now (halted_from_hw 100)) = false) /\
  count_pulses (events_of (main_iteration sample_table
      (mkEnv (fun _ => true) (fun _ => false) (fun t => 30500 <? t) (fun _ => 100)) 1000
      (halted_from_hw 100))) = 1%nat /\
  always (fun h => pin_level h = PinLow) (hw (halted_from_hw 100))
    (events_of (main_iteration sample_table
      (mkEnv (fun _ => true) (fun _ => false) (fun t => 30500 <? t) (fun _ => 100)) 1000
      (halted_from_hw 100))).
Proof.
  assert (Hh : halted (lv (halted_from_hw 100)) <> 0) by (cbn; lia).
  split; [split; [reflexivity|split; [exact Hh|split; reflexivity]]|].
  split; [vm_compute; reflexivity|].
  exact (proj2 (proj2 (proj2 (proj1 (proj2
    (routing_kept_after_stop sample_table
       (mkEnv (fun _ => true) (fun _ => false) (fun t => 30500 <? t) (fun _ => 100)) 1000
       (halted_from_hw 100))) eq_refl Hh eq_refl eq_refl))) eq_refl eq_refl).
Defined.

(* ------------------------------------------------------------------ *)
(** ** Resuming from halt or step mode *)

Lemma latch_only_app t1 t2 : latch_only (t1 ++ t2) <-> latch_only t1 /\ latch_only t2.
Proof. unfold latch_only. rewrite forallb_app, andb_true_iff. tauto. Qed.

Lemma calm_latch_only t : calm t -> latch_only t.
Proof.
  unfold calm, latch_only. induction t as [|e t IH]; cbn; [auto|].
  rewrite !andb_true_iff. intros [He Ht]. split; [|auto].
  destruct e as [r v| |]; cbn in *; auto. destruct r; cbn in *; auto.
Qed.

Lemma latch_only_unrouted h t :
  RB6PPS h = 0x1D -> NCO1CON h = 0x00 -> latch_only t ->
  always (fun x => pin_level x = PinLow) h t.
Proof.
  revert h; induction t as [|e t IH]; intros h Hp Hc Hl; cbn.
  - unfold pin_level, nco_enabled. now rewrite Hp, Hc.
  - unfold latch_only in Hl. cbn in Hl. apply andb_true_iff in Hl as [He Hl].
    split; [unfold pin_level, nco_enabled; now rewrite Hp, Hc|].
    apply IH; try assumption;
      destruct e as [r v| |]; cbn; auto; destruct r; cbn in *; auto; discriminate.
Qed.

(** The resume block writes [RB6PPS] only for an NCO entry ("RB6 already
    disconnected from NCO", says the source for a software entry).  So a
    software period run while the routing still selects the NCO, as it
    does after a halt from hardware mode, toggles the latch without the
    pin following: unless the period ends with a hand-over to the NCO,
    the pin reads low at every instant of it. *)
Lemma software_period_unrouted (freq_table : Z -> Z) (E : env) (fuel : nat) (s : state) :
  RB6PPS (hw s) = 0x1D -> NCO1CON (hw s) = 0x00 -> software_mode (lv s) = 1 ->
  let r := software_cycle freq_table E fuel s in
  software_mode (lv (state_of r)) = 1 ->
  count_pulses (events_of r) = 1%nat /\
  always (fun h => pin_level h = PinLow) (hw s) (events_of r).
Proof.
  intros Hp Hc Hs r Hs'.
  split; [exact (proj1 (software_cycle_one_rise freq_table E fuel s))|].
  destruct (software_cycle_shape freq_table E fuel s) as (_ & _ & q1 & Hq1 & Hcases).
  fold r in Hcases. apply quiet_calm, calm_latch_only in Hq1.
  apply latch_only_unrouted; try assumption.
  destruct Hcases as [(_ & -> & _)|(c & Hc' & [(-> & _)|Hhand])].
  - apply (latch_only_app [EvWrite R_LATB6 1]). now split.
  - apply calm_latch_only in Hc'.
    apply (latch_only_app [EvWrite R_LATB6 1]). split; [reflexivity|].
    apply latch_only_app. split; [exact Hq1|].
    apply (latch_only_app [EvWrite R_LATB6 0]). now split.
  - cbn zeta in Hhand. destruct Hhand as (_ & _ & Hz & _). congruence.
Qed.

(** C5: a pass through the loop with [halted] set and neither selector
    asserted reads the ADC, records the sample in [last_adc], looks it up
    afresh in [freq_table], sets [running] and clears [halted], turns the
    indicator on and then runs the generator for the entry's mode in the
    same pass.  For an NCO entry the writes are those of [nco_connect]
    followed by those of [nco_set_increment] with the entry's value, and
    the pass goes on with the NCO poll, the NCO enabled and routed to the
    pin.  For a software entry no routing or NCO register is written,
    [half_period] is the entry's value and the pass goes on with a
    software period, which begins by writing the latch high.  A sample
    of 128 is looked up as index 128. *)
Theorem resume_starts_generator (freq_table : Z -> Z) (E : env) (fuel : nat) (s : state) :
  halted (lv s) <> 0 -> mode_at E (now s) = 0 ->
  let a := port_value E ADRESH (now s) in
  let fe := freq_table a in
  let s1 := resumed freq_table a s in
  main_iteration freq_table E fuel s =
    prepend (mode_reads E (now s) ++ EvRead ADRESH a :: resume_writes fe)
            (generator_pass freq_table E fuel s1) /\
  last_adc (lv s1) = a /\ freq_entry (lv s1) = fe /\
  running (lv s1) = 1 /\ halted (lv s1) = 0 /\ LATC5 (hw s1) = 1 /\ now s1 = now s /\
  (IS_SOFTWARE_MODE fe = false ->
     resume_writes fe =
       connect_events ++ set_increment_events (GET_FREQ_VALUE fe) ++ [EvWrite R_LATC5 1] /\
     software_mode (lv s1) = 0 /\
     RB6PPS (hw s1) = 0x1D /\ NCO1CON (hw s1) = 0x80 /\
     NCO1INCL (hw s1) = Z.land (GET_FREQ_VALUE fe) 0xFF /\
     NCO1INCH (hw s1) = Z.land (Z.shiftr (GET_FREQ_VALUE fe) 8) 0xFF /\
     NCO1INCU (hw s1) = Z.land (Z.shiftr (GET_FREQ_VALUE fe) 16) 0x0F /\
     pin_level (hw s1) = PinNCO /\
     generator_pass freq_table E fuel s1 = nco_poll freq_table E s1) /\
  (IS_SOFTWARE_MODE fe = true ->
     resume_writes fe = [EvWrite R_LATC5 1] /\
     hw s1 = write_reg R_LATC5 1 (hw s) /\
     software_mode (lv s1) = 1 /\
     half_period (lv s1) = GET_FREQ_VALUE fe /\
     generator_pass freq_table E fuel s1 = software_cycle freq_table E fuel s1 /\
     exists rest, events_of (software_cycle freq_table E fuel s1) = EvWrite R_LATB6 1 :: rest) /\
  (adresh E (now s) = 128 -> a = 128).
Proof.
  intros Hh Hm a fe s1.
  destruct (mode_at_zero _ _ Hm) as [H1 H2].
  split.
  { rewrite main_iteration_dispatch, H1, H2. cbn [negb].
    rewrite run_branch_unfold. cbn zeta. apply Z.eqb_neq in Hh. rewrite Hh.
    fold a. fold fe. fold s1. rewrite prepend_prepend. reflexivity. }
  assert (Ha : adresh E (now s) = 128 -> a = 128).
  { intros H128. subst a. unfold port_value. now rewrite H128. }
  pose proof (generator_pass_unfold freq_table E fuel s1) as Hgen.
  pose proof (software_cycle_one_rise freq_table E fuel s1) as [_ Hrise].
  subst s1. unfold resumed, resume_writes in *. fold fe in Hgen, Hrise |- *.
  destruct (IS_SOFTWARE_MODE fe); cbn in Hgen |- *.
  - repeat split; try discriminate; auto.
  - repeat split; try discriminate; auto.
Qed.

Lemma resume_starts_generator_witness :
  (halted (lv (halted_from_hw 100)) <> 0 /\
   mode_at (idle_env 128) (now (halted_from_hw 100)) = 0) /\
  main_iteration sample_table (idle_env 128) 10 (halted_from_hw 100) =
    prepend ([EvRead HALT_SEL 1; EvRead STEP_SEL 1; EvRead ADRESH 128]
             ++ connect_events ++ set_increment_events 33200 ++ [EvWrite R_LATC5 1])
            (nco_poll sample_table (idle_env 128) (resumed sample_table 128 (halted_from_hw 100))).
Proof.
  assert (Hh : halted (lv (halted_from_hw 100)) <> 0) by (cbn; lia).
  split; [split; [exact Hh|reflexivity]|].
  exact (proj1 (resume_starts_generator sample_table (idle_env 128) 10 (halted_from_hw 100)
                  Hh eq_refl)).
Defined.

(* ------------------------------------------------------------------ *)
(** ** Step mode *)


Lemma stepping_iteration (freq_table : Z -> Z) (E : env) (fuel : nat) (s : state) :
  halt_sel E (now s) = true -> step_sel E (now s) = false ->
  main_iteration freq_table E fuel s = prepend (mode_reads E (now s)) (step_branch E fuel s).
Proof. intros H1 H2. now rewrite main_iteration_dispatch, H1, H2. Qed.






(* ------------------------------------------------------------------ *)
(** ** Decoding table entries *)

(** The smallest NCO increment stands for 24 MHz / 2^21, about 11.444
    Hz, and the largest one of the data model, 87381, for just under 1
    MHz. *)
Lemma decoded_frequency_nco_ends :
  (decoded_frequency 1 == 24000000 # 2097152)%Q /\
  (decoded_frequency 87381 < 1000000)%Q /\
  (1000000 < decoded_frequency 87382)%Q.
Proof. repeat split. Qed.

(** A software entry of half-period 1,047,989 cycles (about 11.4505 Hz,
    still under 12 Hz) stands for a higher frequency than the NCO entry
    of increment 1: whether a table is non-decreasing across the change
    of mode depends on the very entries chosen there. *)
Lemma decoded_frequency_mode_boundary :
  IS_SOFTWARE_MODE (Z.lor (2 ^ 31) 1047989) = true /\
  IS_SOFTWARE_MODE 1 = false /\
  (decoded_frequency 1 < decoded_frequency (Z.lor (2 ^ 31) 1047989))%Q /\
  (decoded_frequency (Z.lor (2 ^ 31) 1047989) < 12)%Q.
Proof. repeat split. Qed.

(* ================================================================== *)
(** * Further properties of the firmware *)

(** ** The increment registers *)

Lemma split_20_bits (x : Z) :
  Z.land x 0xFF + 256 * Z.land (Z.shiftr x 8) 0xFF + 65536 * Z.land (Z.shiftr x 16) 0x0F
  = x mod 2 ^ 20 /\
  0 <= Z.land x 0xFF < 256 /\
  0 <= Z.land (Z.shiftr x 8) 0xFF < 256 /\
  0 <= Z.land (Z.shiftr x 16) 0x0F < 16.
Proof.
  change 0xFF with (Z.ones 8). change 0x0F with (Z.ones 4).
  rewrite !Z.land_ones, !Z.shiftr_div_pow2 by lia.
  change (2 ^ 8) with 256. change (2 ^ 16) with 65536. change (2 ^ 4) with 16.
  pose proof (Z.mod_pos_bound x 256 ltac:(lia)).
  pose proof (Z.mod_pos_bound (x / 256) 256 ltac:(lia)).
  pose proof (Z.mod_pos_bound (x / 65536) 16 ltac:(lia)).
  repeat split; try lia.
  apply (Z.mod_unique x (2 ^ 20) (x / 65536 / 16)); [left; lia|].
  pose proof (Z.div_mod x 256 ltac:(lia)).
  pose proof (Z.div_mod (x / 256) 256 ltac:(lia)).
  pose proof (Z.div_mod (x / 65536) 16 ltac:(lia)).
  assert (Hdd : x / 256 / 256 = x / 65536) by (rewrite Z.div_div by lia; reflexivity).
  rewrite Hdd in *. lia.
Qed.

(** X1: [nco_set_increment] splits its argument over the three increment
    registers so that the NCO reads back the argument modulo 2^20: a
    value below 2^20 is read back exactly, the bits from 20 up are
    dropped (0x100000 is written as increment 0).  Each register gets a
    value in its range, the NCO ends up enabled, and the routing, the
    latch and the indicator are not touched. *)
Theorem nco_set_increment_round_trip (inc : Z) (s : state) :
  let h := hw (state_of (nco_set_increment inc s)) in
  nco_increment h = inc mod 2 ^ 20 /\
  (0 <= inc < 2 ^ 20 -> nco_increment h = inc) /\
  0 <= NCO1INCL h < 256 /\ 0 <= NCO1INCH h < 256 /\ 0 <= NCO1INCU h < 16 /\
  NCO1CON h = 0x80 /\
  RB6PPS h = RB6PPS (hw s) /\ LATB6 h = LATB6 (hw s) /\ LATC5 h = LATC5 (hw s).
Proof.
  rewrite nco_set_increment_run. cbn [state_of fst snd hw]. unfold nco_increment.
  cbn [NCO1INCL NCO1INCH NCO1INCU NCO1CON RB6PPS LATB6 LATC5].
  destruct (split_20_bits inc) as (Hsum & Hl & Hh & Hu).
  repeat split; try lia.
  intros Hr. rewrite Hsum. apply Z.mod_small. lia.
Qed.

Lemma nco_set_increment_round_trip_witness :
  0 <= 87381 < 2 ^ 20 /\
  nco_increment (hw (state_of (nco_set_increment 87381 power_on))) = 87381 /\
  nco_increment (hw (state_of (nco_set_increment 0x100000 power_on))) = 0.
Proof.
  split; [lia|]. split.
  - apply (proj1 (proj2 (nco_set_increment_round_trip 87381 power_on))). lia.
  - exact (proj1 (nco_set_increment_round_trip 0x100000 power_on)).
Defined.

Lemma inc_guarded_app h t1 t2 :
  inc_guarded h (t1 ++ t2) <-> inc_guarded h t1 /\ inc_guarded (replay h t1) t2.
Proof.
  revert h; induction t1 as [|e t1 IH]; intros h; cbn [app inc_guarded].
  - cbn. tauto.
  - rewrite IH, replay_cons. tauto.
Qed.

Lemma calm_inc_guarded h t : calm t -> inc_guarded h t.
Proof.
  revert h; induction t as [|e t IH]; intros h Hc; cbn; [exact I|].
  unfold calm in Hc; cbn in Hc. apply andb_true_iff in Hc as [He Hc].
  split; [|now apply IH].
  destruct e as [r v| |]; cbn; try discriminate. destruct r; cbn in *; discriminate.
Qed.

Lemma inc_free_guarded h t : existsb is_inc_write t = false -> inc_guarded h t.
Proof.
  revert h; induction t as [|e t IH]; intros h Hn; cbn; [exact I|].
  cbn in Hn. apply orb_false_iff in Hn as [He Hn].
  split; [rewrite He; discriminate|now apply IH].
Qed.

Lemma quiet_no_inc_write t : quiet t -> existsb is_inc_write t = false.
Proof.
  unfold quiet. induction t as [|e t IH]; cbn; [auto|].
  rewrite andb_true_iff. intros [He Ht]. rewrite (IH Ht).
  destruct e; cbn in *; auto; discriminate.
Qed.

Lemma set_increment_guarded h v : inc_guarded h (set_increment_events v).
Proof. cbn. repeat split; intros; (discriminate || reflexivity). Qed.

Ltac ig_piece :=
  first [ apply calm_inc_guarded; assumption
        | apply calm_inc_guarded, quiet_calm; assumption
        | apply set_increment_guarded
        | cbn; repeat split; intros; (discriminate || reflexivity) ].

Ltac ig_solve :=
  repeat match goal with
         | |- inc_guarded _ (_ ++ _) => apply (proj2 (inc_guarded_app _ _ _)); split
         end;
  ig_piece.

Lemma generator_pass_inc_guarded (freq_table : Z -> Z) (E : env) (fuel : nat) (s : state) h :
  inc_guarded h (events_of (generator_pass freq_table E fuel s)).
Proof.
  rewrite generator_pass_unfold. destruct (software_mode (lv s) =? 0).
  - rewrite nco_poll_run. cbn zeta.
    destruct (adc_moved _ _); [destruct (IS_SOFTWARE_MODE _)|]; cbn [events_of snd].
    + ig_piece.
    + change (EvRead ADRESH ?a :: ?x ++ ?y) with ([EvRead ADRESH a] ++ x ++ y). ig_solve.
    + ig_piece.
  - destruct (software_cycle_shape freq_table E fuel s) as (_ & _ & q1 & Hq1 & Hcases).
    destruct Hcases as [(_ & He & _)|(c & Hc & [(He & _)|Hhand])].
    + rewrite He. change (EvWrite R_LATB6 1 :: q1) with ([EvWrite R_LATB6 1] ++ q1). ig_solve.
    + rewrite He.
      change (EvWrite R_LATB6 1 :: q1 ++ EvWrite R_LATB6 0 :: c)
        with ([EvWrite R_LATB6 1] ++ q1 ++ [EvWrite R_LATB6 0] ++ c). ig_solve.
    + cbn zeta in Hhand. destruct Hhand as (He & _). rewrite He.
      change (EvWrite R_LATB6 1 :: q1 ++ EvWrite R_LATB6 0 :: c ++ connect_events ++ ?x)
        with ([EvWrite R_LATB6 1] ++ q1 ++ [EvWrite R_LATB6 0] ++ c ++ connect_events ++ x).
      ig_solve.
Qed.

Lemma main_iteration_inc_guarded (freq_table : Z -> Z) (E : env) (fuel : nat) (s : state) h :
  inc_guarded h (events_of (main_iteration freq_table E fuel s)).
Proof.
  rewrite main_iteration_dispatch, events_prepend.
  apply inc_guarded_app. split; [ig_piece|]. generalize (replay h (mode_reads E (now s))).
  clear h. intros h.
  destruct (negb (halt_sel E (now s))); [|destruct (negb (step_sel E (now s)))].
  - rewrite halt_branch_run.
    destruct (halted (lv s) =? 0); [destruct (software_mode (lv s) =? 0)|]; ig_piece.
  - apply inc_free_guarded.
    destruct (step_branch_events E fuel s) as (q & Hq & [He|He]); rewrite He;
      unfold step_entry_writes;
      (destruct (step_entering s); [destruct (software_mode (lv s) =? 0)|]);
      rewrite ?existsb_app; cbn; rewrite ?existsb_app; cbn;
      now rewrite (quiet_no_inc_write q Hq).
  - rewrite run_branch_unfold. cbn zeta.
    destruct (halted (lv s) =? 0); [apply generator_pass_inc_guarded|].
    rewrite events_prepend.
    change (EvRead ADRESH ?a :: ?x) with ([EvRead ADRESH a] ++ x).
    apply inc_guarded_app. split; [|apply generator_pass_inc_guarded].
    apply inc_guarded_app. split; [ig_piece|].
    unfold resume_writes. destruct (IS_SOFTWARE_MODE _); cbn [app]; [ig_piece|].
    rewrite <- app_assoc. ig_solve.
Qed.

Lemma main_loop_inc_guarded (freq_table : Z -> Z) (E : env) (fuel n : nat) (s : state) h :
  inc_guarded h (events_of (main_loop freq_table E fuel n s)).
Proof.
  revert s h; induction n as [|n IH]; intros s h; [exact I|].
  rewrite main_loop_unfold. cbn zeta.
  pose proof (main_iteration_inc_guarded freq_table E fuel s h) as H1.
  destruct (outcome_of (main_iteration freq_table E fuel s)) as [[]|]; [|exact H1].
  rewrite events_prepend. apply inc_guarded_app. split; [exact H1|apply IH].
Qed.

Lemma main_unfold (freq_table : Z -> Z) (E : env) (fuel n : nat) (s0 : state) :
  main freq_table E fuel n s0 =
  prepend (events_of (main_init freq_table E s0))
    (main_loop freq_table E fuel n (state_of (main_init freq_table E s0))).
Proof.
  unfold main. rewrite bind_run.
  now rewrite (proj1 (main_init_inv freq_table E s0)).
Qed.

Lemma main_init_events (freq_table : Z -> Z) (E : env) (s0 : state) :
  let a := port_value E ADRESH (now s0 + 200000) in
  events_of (main_init freq_table E s0) =
  [EvWrite R_LATB6 0; EvWrite R_LATC5 0; EvWrite R_LATC5 1; EvDelay 100000;
   EvWrite R_LATC5 0; EvDelay 100000; EvWrite R_LATC5 1;
   EvWrite R_RB6PPS 0x1D; EvWrite R_NCO1CON 0x00; EvWrite R_NCO1INCU 0x00;
   EvWrite R_NCO1INCH 0x00; EvWrite R_NCO1INCL 0x01; EvWrite R_NCO1CON 0x80;
   EvRead ADRESH a]
  ++ (if IS_SOFTWARE_MODE (freq_table a) then disconnect_events
      else set_increment_events (GET_FREQ_VALUE (freq_table a))) /\
  hw (state_of (main_init freq_table E s0)) =
    replay (hw s0) (events_of (main_init freq_table E s0)).
Proof.
  destruct s0 as [[con pps il ih iu lat led] l0 t0]. run_cbv.
  change (100 * 1000) with 100000.
  replace (t0 + 100000 + 100000) with (t0 + 200000) by lia.
  destruct (IS_SOFTWARE_MODE _); run_cbv; split; reflexivity.
Qed.

(** X2: from power-on, whatever the registers hold, through the start-up
    code and any number of passes through the loop, an increment
    register is only ever written while [NCO1CON] is 0x00, that is with
    the NCO disabled. *)
Theorem increment_written_only_while_disabled
        (freq_table : Z -> Z) (E : env) (fuel n : nat) (s0 : state) :
  inc_guarded (hw s0) (events_of (main freq_table E fuel n s0)).
Proof.
  rewrite main_unfold, events_prepend. apply inc_guarded_app.
  split; [|apply main_loop_inc_guarded].
  destruct (main_init_events freq_table E s0) as [He _]. rewrite He.
  apply inc_guarded_app. split; [ig_piece|].
  destruct (IS_SOFTWARE_MODE _); ig_piece.
Qed.

(** X3: from power-on, whatever the registers hold, [main] first writes
    the latch low; from then on, through the start-up code and any
    number of passes, the NCO is never enabled while the latch is high,
    the registers at the end are those obtained by replaying the writes,
    and whenever [main] is back at the top of its loop the loop-head
    facts hold: latch low, exactly one of [running] and [halted] set, the
    NCO disabled in software mode and when halted, enabled and routed to
    the pin when running in hardware mode. *)
Theorem main_keeps_loop_head_facts
        (freq_table : Z -> Z) (E : env) (fuel n : nat) (s0 : state) :
  let r := main freq_table E fuel n s0 in
  (exists tr, events_of r = EvWrite R_LATB6 0 :: tr /\
              always exclusive (write_reg R_LATB6 0 (hw s0)) tr) /\
  hw (state_of r) = replay (hw s0) (events_of r) /\
  (outcome_of r = Ret tt -> Inv (state_of r)).
Proof.
  cbn zeta. rewrite main_unfold.
  destruct (main_init_inv freq_table E s0) as [_ Hinv].
  destruct (main_init_events freq_table E s0) as [He Hhw]. cbn zeta in He.
  destruct (main_loop_well freq_table E fuel n _ Hinv) as (Hf & Hx & Hi).
  rewrite state_prepend, events_prepend, outcome_prepend.
  split; [|split; [|exact Hi]].
  - rewrite He in Hhw |- *. rewrite Hhw, replay_app in Hx.
    cbn [app]. eexists. split; [reflexivity|].
    repeat (apply always_cons; split; [apply exclusive_latch_low; reflexivity|]).
    apply always_app. split; [|exact Hx].
    destruct (IS_SOFTWARE_MODE _); cbn [disconnect_events set_increment_events];
      repeat (apply always_cons; split; [apply exclusive_latch_low; reflexivity|]);
      apply exclusive_latch_low; reflexivity.
  - rewrite replay_app, <- Hhw. exact Hf.
Qed.

(* ------------------------------------------------------------------ *)
(** ** The variables and the NCO follow the table *)

Lemma port_value_adc_range (E : env) (t : Z) : 0 <= port_value E ADRESH t < 256.
Proof. unfold port_value. apply Z.mod_pos_bound. lia. Qed.

Lemma Cfg_intro (freq_table : Z -> Z) (s : state) :
  locals_agree freq_table (lv s) ->
  (software_mode (lv s) = 0 -> halted (lv s) = 0 ->
   nco_increment (hw s) = GET_FREQ_VALUE (freq_entry (lv s)) mod 2 ^ 20) ->
  Cfg freq_table s.
Proof. intros (H1 & H2 & H3 & H4) H5. now constructor. Qed.

Lemma Cfg_locals (freq_table : Z -> Z) (s : state) :
  Cfg freq_table s -> locals_agree freq_table (lv s).
Proof. intros [H1 H2 H3 H4 _]. now repeat split. Qed.

Lemma nco_increment_set (h : regs) (v : Z) :
  nco_increment (replay h (set_increment_events v)) = v mod 2 ^ 20.
Proof. cbn. unfold nco_increment; cbn. apply (proj1 (split_20_bits v)). Qed.

Lemma nco_increment_connect_set (h : regs) (v : Z) :
  nco_increment (replay h (connect_events ++ set_increment_events v)) = v mod 2 ^ 20.
Proof. rewrite replay_app. apply nco_increment_set. Qed.

Lemma low_phase_locals (freq_table : Z -> Z) (E : env) (fuel : nat) (d i : Z) (s : state) :
  locals_agree freq_table (lv s) -> software_mode (lv s) = 1 ->
  locals_agree freq_table (lv (state_of (low_phase freq_table E fuel d i s))).
Proof.
  revert d i s; induction fuel as [|f IH]; intros d i s Hl Hs;
    rewrite low_phase_unfold; destruct (i <? d); try exact Hl.
  cbn zeta.
  destruct (Z.land i 1023 =? 0); [destruct (mode_at E (now s + 10) =? 0)|];
    try exact Hl; rewrite ?state_prepend; [|now apply IH].
  set (a := port_value E ADRESH (now s + 10)).
  pose proof (port_value_adc_range E (now s + 10)) as Ha. fold a in Ha.
  destruct (adc_moved a _); [destruct (IS_SOFTWARE_MODE (freq_table a)) eqn:Hsw|];
    [| |now apply IH].
  - apply IH; [|exact Hs]. unfold locals_agree; cbn. rewrite Hsw.
    repeat split; intros; auto; try discriminate; lia.
  - unfold locals_agree; cbn. rewrite Hsw.
    repeat split; intros; auto; try discriminate; lia.
Qed.

Lemma software_cycle_cfg (freq_table : Z -> Z) (E : env) (fuel : nat) (s : state) :
  Cfg freq_table s -> software_mode (lv s) = 1 ->
  Cfg freq_table (state_of (software_cycle freq_table E fuel s)).
Proof.
  intros Hc Hs. apply Cfg_intro.
  - rewrite software_cycle_unfold. cbn zeta. rewrite state_prepend.
    match goal with |- context [high_phase E fuel ?d 0 ?s1] =>
      destruct (high_phase_spec E fuel d 0 s1) as [Hlv _];
      destruct (high_phase E fuel d 0 s1) as [[[[]|] s2] t2] end;
      cbn [outcome_of state_of events_of fst snd lv] in *.
    + rewrite state_prepend. apply low_phase_locals; cbn [lv]; rewrite Hlv;
        [now apply Cfg_locals|exact Hs].
    + rewrite Hlv. now apply Cfg_locals.
  - intros Hs' _.
    destruct (software_cycle_shape freq_table E fuel s) as (_ & _ & q1 & _ & Hcases).
    destruct Hcases as [(_ & _ & _ & Hl)|(c & _ & [(_ & _ & Hsm)|Hhand])];
      [rewrite Hl in Hs'; congruence|congruence|].
    cbn zeta in Hhand. destruct Hhand as (_ & Hhw & _).
    rewrite Hhw. apply nco_increment_connect_set.
Qed.

Ltac cfg_close :=
  cbn [lv hw now last_adc freq_entry software_mode half_period running halted
       set_running set_halted state_of fst snd];
  intros; auto; try discriminate; try congruence; try lia; try contradiction.

Lemma nco_poll_cfg (freq_table : Z -> Z) (E : env) (s : state) :
  Cfg freq_table s -> software_mode (lv s) = 0 ->
  Cfg freq_table (state_of (nco_poll freq_table E s)).
Proof.
  intros Hc Hs. rewrite nco_poll_run. cbn zeta.
  pose proof (port_value_adc_range E (now s)) as Ha.
  destruct Hc as [H1 H2 H3 H4 H5].
  destruct (adc_moved _ _);
    [destruct (IS_SOFTWARE_MODE (freq_table (port_value E ADRESH (now s)))) eqn:Hsw|];
    cbn [state_of fst snd].
  - constructor; cfg_close; rewrite ?Hsw; cfg_close.
  - constructor; cfg_close; rewrite ?Hsw; cfg_close.
    apply nco_increment_set.
  - constructor; cfg_close.
Qed.

Lemma generator_pass_cfg (freq_table : Z -> Z) (E : env) (fuel : nat) (s : state) :
  Cfg freq_table s -> Cfg freq_table (state_of (generator_pass freq_table E fuel s)).
Proof.
  intros Hc. rewrite generator_pass_unfold.
  destruct (software_mode (lv s) =? 0) eqn:Hs.
  - apply Z.eqb_eq in Hs. now apply nco_poll_cfg.
  - apply Z.eqb_neq in Hs. apply software_cycle_cfg; [exact Hc|].
    pose proof (cfg_mode _ _ Hc) as Hm. destruct (IS_SOFTWARE_MODE _); congruence.
Qed.

Lemma resumed_cfg (freq_table : Z -> Z) (a : Z) (s : state) :
  0 <= a < 256 -> Cfg freq_table (resumed freq_table a s).
Proof.
  intros Ha. unfold resumed, resume_writes.
  destruct (IS_SOFTWARE_MODE (freq_table a)) eqn:Hsw;
    constructor; cfg_close; rewrite ?Hsw; cfg_close.
  rewrite !replay_app. cbn. unfold nco_increment; cbn.
  apply (proj1 (split_20_bits _)).
Qed.

Lemma step_branch_locals (E : env) (fuel : nat) (s : state) :
  lv (state_of (step_branch E fuel s)) = step_entry_locals s.
Proof.
  rewrite step_branch_run. cbn zeta.
  destruct (step_btn E (now s)); [reflexivity|].
  destruct (step_btn E (now s + 20000)); [reflexivity|].
  rewrite state_prepend.
  match goal with |- context [poll_release E fuel ?s'] =>
    destruct (poll_release_spec E fuel s') as (_ & _ & Hl & _);
    destruct (poll_release E fuel s') as [[[[]|] s2] t2] end;
    cbn [outcome_of state_of events_of fst snd lv] in *; exact Hl.
Qed.

Lemma main_iteration_cfg (freq_table : Z -> Z) (E : env) (fuel : nat) (s : state) :
  Cfg freq_table s -> Cfg freq_table (state_of (main_iteration freq_table E fuel s)).
Proof.
  intros Hc. rewrite main_iteration_dispatch, state_prepend.
  destruct (negb (halt_sel E (now s))); [|destruct (negb (step_sel E (now s)))].
  - rewrite halt_branch_run. destruct Hc as [H1 H2 H3 H4 H5].
    destruct (halted (lv s) =? 0) eqn:Hh; cbn [state_of fst snd].
    + constructor; cfg_close.
    + apply Z.eqb_neq in Hh. constructor; cfg_close.
  - apply Cfg_intro.
    + rewrite step_branch_locals. unfold step_entry_locals.
      apply Cfg_locals in Hc. destruct (step_entering s); exact Hc.
    + rewrite step_branch_locals. unfold step_entry_locals, step_entering.
      destruct (running (lv s) =? 0) eqn:Hr; destruct (halted (lv s) =? 0) eqn:Hh;
        cbn; try discriminate.
      apply Z.eqb_neq in Hh. intros; contradiction.
  - rewrite run_branch_unfold. cbn zeta.
    destruct (halted (lv s) =? 0); [now apply generator_pass_cfg|].
    rewrite state_prepend. apply generator_pass_cfg, resumed_cfg, port_value_adc_range.
Qed.

Lemma main_loop_cfg (freq_table : Z -> Z) (E : env) (fuel n : nat) (s : state) :
  Cfg freq_table s -> Cfg freq_table (state_of (main_loop freq_table E fuel n s)).
Proof.
  revert s; induction n as [|n IH]; intros s Hc; [exact Hc|].
  rewrite main_loop_unfold. cbn zeta.
  pose proof (main_iteration_cfg freq_table E fuel s Hc) as H1.
  destruct (outcome_of (main_iteration freq_table E fuel s)) as [[]|]; [|exact H1].
  rewrite state_prepend. now apply IH.
Qed.

Lemma main_init_cfg (freq_table : Z -> Z) (E : env) (s0 : state) :
  Cfg freq_table (state_of (main_init freq_table E s0)).
Proof.
  pose proof (port_value_adc_range E (now s0 + 100 * 1000 + 100 * 1000)) as Ha.
  destruct s0 as [[con pps il ih iu lat led] l0 t0]. cbn [now] in Ha. run_cbv.
  destruct (IS_SOFTWARE_MODE _) eqn:Hsw; run_cbv;
    constructor; cbn [lv hw last_adc freq_entry software_mode half_period halted];
    intros; rewrite ?Hsw; auto; try discriminate.
  unfold nco_increment; cbn [NCO1INCL NCO1INCH NCO1INCU]. apply (proj1 (split_20_bits _)).
Qed.

(** X4: at every point [main] can stop at (back at the top of its loop,
    or stuck in one of its waits), after the start-up code and any
    number of passes: [last_adc] is a valid table index, [freq_entry] is
    the table entry at [last_adc], [software_mode] is that entry's mode
    bit, in software mode [half_period] is the entry's value, and when
    running in hardware mode the increment in the NCO registers is the
    entry's value (modulo 2^20). *)
Theorem main_keeps_configuration
        (freq_table : Z -> Z) (E : env) (fuel n : nat) (s0 : state) :
  Cfg freq_table (state_of (main freq_table E fuel n s0)).
Proof.
  rewrite main_unfold, state_prepend.
  apply main_loop_cfg, main_init_cfg.
Qed.

(* ------------------------------------------------------------------ *)
(** ** The software period when nothing changes *)

Lemma elapsed_app t1 t2 : elapsed (t1 ++ t2) = elapsed t1 + elapsed t2.
Proof.
  induction t1 as [|e t1 IH]; [reflexivity|].
  destruct e; cbn [app elapsed]; rewrite IH; lia.
Qed.

Lemma high_phase_steady (E : env) (fuel : nat) (d i : Z) (s : state) :
  0 <= i <= d -> d < 2 ^ 32 ->
  (forall t, now s < t -> mode_at E t = 0) ->
  (Z.to_nat (d - i) <= fuel)%nat ->
  let r := high_phase E fuel d i s in
  outcome_of r = Ret tt /\
  state_of r = mkState (hw s) (lv s) (now s + 10 * (d - i)) /\
  quiet (events_of r) /\ elapsed (events_of r) = 10 * (d - i).
Proof.
  revert i s; induction fuel as [|f IH]; intros i s Hi Hd Hm Hf; cbn zeta;
    rewrite high_phase_unfold; destruct (i <? d) eqn:Hlt;
    [apply Z.ltb_lt in Hlt
    |apply Z.ltb_ge in Hlt; replace (d - i) with 0 by lia;
     destruct s; cbn; rewrite Z.add_0_r; repeat split
    |apply Z.ltb_lt in Hlt
    |apply Z.ltb_ge in Hlt; replace (d - i) with 0 by lia;
     destruct s; cbn; rewrite Z.add_0_r; repeat split];
    [lia|].
  cbn zeta. rewrite (u32_succ i d) by lia.
  assert (Hm0 : mode_at E (now s + 10) = 0) by (apply Hm; lia).
  rewrite Hm0. cbn [Z.eqb].
  specialize (IH (i + 1) (mkState (hw s) (lv s) (now s + 10))).
  cbn zeta in IH. cbn [now hw lv] in IH.
  destruct IH as (Ho & Hs & Hq & He); [lia|lia|intros t Ht; apply Hm; lia|lia|].
  destruct (Z.land i 1023 =? 0);
    rewrite outcome_prepend, state_prepend, events_prepend, Hs, elapsed_app, He;
    (split; [exact Ho|]); (split; [f_equal; lia|]);
    (split; [quiet_solve|unfold mode_reads; cbn [elapsed app]; lia]).
Qed.

Lemma low_phase_steady (freq_table : Z -> Z) (E : env) (fuel : nat) (d i : Z) (s : state) :
  0 <= i <= d -> d < 2 ^ 32 ->
  (forall t, now s < t -> mode_at E t = 0) ->
  (forall t, now s < t -> adc_moved (port_value E ADRESH t) (last_adc (lv s)) = false) ->
  (Z.to_nat (d - i) <= fuel)%nat ->
  let r := low_phase freq_table E fuel d i s in
  outcome_of r = Ret tt /\
  state_of r = mkState (hw s) (lv s) (now s + 10 * (d - i)) /\
  quiet (events_of r) /\ elapsed (events_of r) = 10 * (d - i).
Proof.
  revert i s; induction fuel as [|f IH]; intros i s Hi Hd Hm Ha Hf; cbn zeta;
    rewrite low_phase_unfold; destruct (i <? d) eqn:Hlt;
    [apply Z.ltb_lt in Hlt
    |apply Z.ltb_ge in Hlt; replace (d - i) with 0 by lia;
     destruct s; cbn; rewrite Z.add_0_r; repeat split
    |apply Z.ltb_lt in Hlt
    |apply Z.ltb_ge in Hlt; replace (d - i) with 0 by lia;
     destruct s; cbn; rewrite Z.add_0_r; repeat split];
    [lia|].
  cbn zeta. rewrite (u32_succ i d) by lia.
  assert (Hm0 : mode_at E (now s + 10) = 0) by (apply Hm; lia).
  assert (Ha0 : adc_moved (port_value E ADRESH (now s + 10)) (last_adc (lv s)) = false)
    by (apply Ha; lia).
  rewrite Hm0, Ha0. cbn [Z.eqb].
  specialize (IH (i + 1) (mkState (hw s) (lv s) (now s + 10))).
  cbn zeta in IH. cbn [now hw lv] in IH.
  destruct IH as (Ho & Hs & Hq & He);
    [lia|lia|intros t Ht; apply Hm; lia|intros t Ht; apply Ha; lia|lia|].
  destruct (Z.land i 1023 =? 0);
    rewrite outcome_prepend, state_prepend, events_prepend, Hs, elapsed_app, He;
    (split; [exact Ho|]); (split; [f_equal; lia|]);
    (split; [quiet_solve|unfold mode_reads; cbn [elapsed app]; lia]).
Qed.



(** X6: a software entry whose half-period is below 240 cycles (one
    10 us unit) gives a period with no wait at all: the latch is written
    high and at once low again, no time passes, no input is sampled, and
    no fuel is needed, whatever the selectors and the ADC read. *)
Theorem software_period_degenerate (freq_table : Z -> Z) (E : env) (fuel : nat) (s : state) :
  0 <= half_period (lv s) < 240 ->
  software_cycle freq_table E fuel s =
  (Ret tt, mkState (write_reg R_LATB6 0 (hw s)) (lv s) (now s),
   [EvWrite R_LATB6 1; EvWrite R_LATB6 0]).
Proof.
  intros Hhp. rewrite software_cycle_unfold. cbn zeta.
  rewrite (Z.div_small _ 240 Hhp), high_phase_unfold.
  cbn [Z.ltb Z.compare outcome_of state_of events_of fst snd hw lv now].
  rewrite low_phase_unfold. cbn [Z.ltb Z.compare].
  unfold prepend. cbn [outcome_of state_of events_of fst snd app].
  destruct (hw s); reflexivity.
Qed.

Lemma software_period_degenerate_witness :
  0 <= half_period (lv (mkState (hw power_on) (mkLocals 3 (Z.lor (2 ^ 31) 100) 1 100 1 0) 0)) < 240 /\
  events_of (software_cycle sample_table short_press_env 0
               (mkState (hw power_on) (mkLocals 3 (Z.lor (2 ^ 31) 100) 1 100 1 0) 0)) =
  [EvWrite R_LATB6 1; EvWrite R_LATB6 0].
Proof.
  assert (H : 0 <= half_period (lv (mkState (hw power_on)
                (mkLocals 3 (Z.lor (2 ^ 31) 100) 1 100 1 0) 0)) < 240)
    by (split; vm_compute; [discriminate|reflexivity]).
  split; [exact H|].
  rewrite (software_period_degenerate sample_table short_press_env 0 _ H).
  reflexivity.
Defined.

(* ------------------------------------------------------------------ *)
(** ** How often the software period reads the selectors *)

Lemma land_1023 (i : Z) : 0 <= i -> Z.land i 1023 = i mod 1024.
Proof. intros _. change 1023 with (Z.ones 10). apply Z.land_ones. lia. Qed.

Lemma since_check_at_check (i c : Z) :
  since_check i c -> i mod 1024 = 0 -> c + 1 <= 1024 /\ since_check (i + 1) 0.
Proof.
  unfold since_check. intros [Hc _] Hz. split; [lia|].
  split; [lia|]. intros _. replace (i + 1 - 1) with i by lia. now rewrite Hz.
Qed.

Lemma since_check_between (i c : Z) :
  since_check i c -> i mod 1024 <> 0 -> c + 1 <= 1024 /\ since_check (i + 1) (c + 1).
Proof.
  unfold since_check. intros [Hc Hi] Hz. specialize (Hi Hz).
  replace (i + 1 - 1) with i by lia.
  assert (Hm : (i - 1) mod 1024 = i mod 1024 - 1).
  { clear Hi Hc c. Z.to_euclidean_division_equations. lia. }
  pose proof (Z.mod_pos_bound i 1024 ltac:(lia)).
  split; [lia|]. split; [lia|]. intros _. lia.
Qed.

Lemma check_spacing_mode_reads (E : env) (t c : Z) (tr : list event) :
  check_spacing 1024 c (mode_reads E t ++ tr) = check_spacing 1024 0 tr.
Proof. reflexivity. Qed.

Lemma check_spacing_wait (c : Z) (tr : list event) :
  c + 1 <= 1024 ->
  check_spacing 1024 c (EvDelay 10 :: tr) = check_spacing 1024 (c + 1) tr.
Proof.
  intros Hc. cbn [check_spacing].
  destruct (c + 1 <=? 1024) eqn:Hle; [reflexivity|]. apply Z.leb_gt in Hle. lia.
Qed.

Lemma high_phase_spacing (E : env) (fuel : nat) (d i c : Z) (s : state) :
  0 <= i -> d < 2 ^ 32 -> since_check i c ->
  exists c', 0 <= c' <= 1023 /\
    forall rest,
      check_spacing 1024 c (events_of (high_phase E fuel d i s) ++ rest) =
      check_spacing 1024 c' rest.
Proof.
  revert i c s; induction fuel as [|f IH]; intros i c s Hi Hd Hsc;
    rewrite high_phase_unfold; destruct (i <? d) eqn:Hlt;
    try (exists c; split; [exact (proj1 Hsc)|reflexivity]).
  apply Z.ltb_lt in Hlt. cbn zeta. rewrite (u32_succ i d) by lia.
  rewrite land_1023 by lia.
  destruct (i mod 1024 =? 0) eqn:Hz.
  - apply Z.eqb_eq in Hz. destruct (since_check_at_check i c Hsc Hz) as [Hc1 Hsc1].
    destruct (mode_at E (now s + 10) =? 0).
    + destruct (IH (i + 1) 0 (mkState (hw s) (lv s) (now s + 10)) ltac:(lia) Hd Hsc1)
        as (c' & Hc' & Hrest).
      exists c'. split; [exact Hc'|]. intros rest. rewrite events_prepend.
      cbn [app]. rewrite check_spacing_wait by exact Hc1.
      rewrite <- !app_assoc, check_spacing_mode_reads. apply Hrest.
    + exists 0. split; [lia|]. intros rest. cbn [events_of snd app].
      rewrite check_spacing_wait by exact Hc1.
      rewrite <- !app_assoc, check_spacing_mode_reads. reflexivity.
  - apply Z.eqb_neq in Hz. destruct (since_check_between i c Hsc Hz) as [Hc1 Hsc1].
    destruct (IH (i + 1) (c + 1) (mkState (hw s) (lv s) (now s + 10)) ltac:(lia) Hd Hsc1)
      as (c' & Hc' & Hrest).
    exists c'. split; [exact Hc'|]. intros rest. rewrite events_prepend.
    cbn [app]. rewrite check_spacing_wait by exact Hc1. apply Hrest.
Qed.

Lemma low_phase_spacing (freq_table : Z -> Z) (E : env) (fuel : nat) (d i c : Z) (s : state) :
  0 <= i -> d < 2 ^ 32 -> since_check i c ->
  exists c', 0 <= c' <= 1023 /\
    forall rest,
      check_spacing 1024 c (events_of (low_phase freq_table E fuel d i s) ++ rest) =
      check_spacing 1024 c' rest.
Proof.
  revert d i c s; induction fuel as [|f IH]; intros d i c s Hi Hd Hsc;
    rewrite low_phase_unfold; destruct (i <? d) eqn:Hlt;
    try (exists c; split; [exact (proj1 Hsc)|reflexivity]).
  apply Z.ltb_lt in Hlt. cbn zeta. rewrite (u32_succ i d) by lia.
  rewrite land_1023 by lia.
  destruct (i mod 1024 =? 0) eqn:Hz.
  - apply Z.eqb_eq in Hz. destruct (since_check_at_check i c Hsc Hz) as [Hc1 Hsc1].
    destruct (mode_at E (now s + 10) =? 0).
    + destruct (adc_moved _ _); [destruct (IS_SOFTWARE_MODE _)|].
      * pose proof (delay_count_bound (freq_table (port_value E ADRESH (now s + 10)))) as Hdc.
        match goal with |- context [low_phase _ _ f ?d' ?i' ?s'] =>
          destruct (IH d' i' 0 s' ltac:(lia) ltac:(lia) Hsc1) as (c' & Hc' & Hrest) end.
        exists c'. split; [exact Hc'|]. intros rest. rewrite events_prepend.
        cbn [app]. rewrite check_spacing_wait by exact Hc1.
        rewrite <- !app_assoc, check_spacing_mode_reads. cbn [app check_spacing].
        apply Hrest.
      * exists 0. split; [lia|]. intros rest. rewrite events_prepend.
        cbn [app]. rewrite check_spacing_wait by exact Hc1.
        rewrite <- !app_assoc, check_spacing_mode_reads. reflexivity.
      * destruct (IH d (i + 1) 0 (mkState (hw s) (lv s) (now s + 10)) ltac:(lia) Hd Hsc1)
          as (c' & Hc' & Hrest).
        exists c'. split; [exact Hc'|]. intros rest. rewrite events_prepend.
        cbn [app]. rewrite check_spacing_wait by exact Hc1.
        rewrite <- !app_assoc, check_spacing_mode_reads. cbn [app check_spacing].
        apply Hrest.
    + exists 0. split; [lia|]. intros rest. cbn [events_of snd app].
      rewrite check_spacing_wait by exact Hc1.
      rewrite check_spacing_mode_reads. reflexivity.
  - apply Z.eqb_neq in Hz. destruct (since_check_between i c Hsc Hz) as [Hc1 Hsc1].
    destruct (IH d (i + 1) (c + 1) (mkState (hw s) (lv s) (now s + 10)) ltac:(lia) Hd Hsc1)
      as (c' & Hc' & Hrest).
    exists c'. split; [exact Hc'|]. intros rest. rewrite events_prepend.
    cbn [app]. rewrite check_spacing_wait by exact Hc1. apply Hrest.
Qed.

(** X7: "check for mode change every ~10 ms".  In a software period
    the selectors are read after the first 10 us wait of each of the two
    loops and then after every 1024th wait: at no point of the period
    have more than 1024 waits been made since the halt selector was last
    read (or since the period began), and fewer than 1024 are pending
    when the period ends.  A change of a selector is therefore met by a
    check point after at most 1024 waits of 10 us. *)
Theorem software_period_check_spacing
        (freq_table : Z -> Z) (E : env) (fuel : nat) (s : state) :
  0 <= half_period (lv s) < 2 ^ 32 ->
  exists c, 0 <= c <= 1023 /\
    check_spacing 1024 0 (events_of (software_cycle freq_table E fuel s)) = Some c.
Proof.
  intros Hhp.
  assert (Hd : 0 <= half_period (lv s) / 240 < 2 ^ 32).
  { split; [apply Z.div_pos; lia|apply Z.div_lt_upper_bound; lia]. }
  assert (H0 : since_check 0 0) by (split; [lia|intros H; now contradiction H]).
  rewrite software_cycle_unfold. cbn zeta.
  set (d := half_period (lv s) / 240) in *.
  set (s1 := mkState (write_reg R_LATB6 1 (hw s)) (lv s) (now s)).
  destruct (high_phase_spacing E fuel d 0 0 s1 ltac:(lia) ltac:(lia) H0)
    as (c1 & Hc1 & Hhi).
  rewrite events_prepend. cbn [app check_spacing].
  destruct (outcome_of (high_phase E fuel d 0 s1)).
  - rewrite events_prepend.
    match goal with |- context [low_phase _ _ fuel d 0 ?s'] =>
      destruct (low_phase_spacing freq_table E fuel d 0 c1 s' ltac:(lia) ltac:(lia))
        as (c2 & Hc2 & Hlo) end.
    { split; [exact Hc1|]. intros H; now contradiction H. }
    exists c2. split; [exact Hc2|].
    rewrite <- app_assoc, Hhi. cbn [app check_spacing].
    rewrite <- (app_nil_r (events_of (low_phase _ _ _ _ _ _))), Hlo. reflexivity.
  - exists c1. split; [exact Hc1|]. cbn [events_of snd].
    rewrite <- (app_nil_r (events_of (high_phase _ _ _ _ _))), Hhi. reflexivity.
Qed.

Lemma software_period_check_spacing_witness :
  0 <= half_period (lv (sw_running 10)) < 2 ^ 32 /\
  exists c, 0 <= c <= 1023 /\
    check_spacing 1024 0
      (events_of (software_cycle sample_table (idle_env 10) 20 (sw_running 10))) = Some c.
Proof.
  assert (H : 0 <= half_period (lv (sw_running 10)) < 2 ^ 32)
    by (split; vm_compute; [discriminate|reflexivity]).
  split; [exact H|].
  exact (software_period_check_spacing sample_table (idle_env 10) 20 (sw_running 10) H).
Defined.

(* ------------------------------------------------------------------ *)
(** ** Waiting for the button to be released *)

Lemma poll_release_first (E : env) (k fuel : nat) (s : state) :
  (forall j, (j < k)%nat -> step_btn E (now s + Z.of_nat j) = false) ->
  step_btn E (now s + Z.of_nat k) = true ->
  (k <= fuel)%nat ->
  let r := poll_release E fuel s in
  outcome_of r = Ret tt /\
  state_of r = mkState (hw s) (lv s) (now s + Z.of_nat k) /\
  elapsed (events_of r) = Z.of_nat k.
Proof.
  revert fuel s; induction k as [|k IH]; intros fuel s Hheld Hrel Hk; cbn zeta;
    rewrite poll_release_unfold.
  - replace (now s + Z.of_nat 0) with (now s) in * by lia. rewrite Hrel.
    destruct s; repeat split.
  - pose proof (Hheld 0%nat ltac:(lia)) as H0.
    replace (now s + Z.of_nat 0) with (now s) in H0 by lia. rewrite H0.
    destruct fuel as [|f]; [lia|].
    specialize (IH f (mkState (hw s) (lv s) (now s + 1))). cbn zeta in IH.
    cbn [hw lv now] in IH.
    destruct IH as (Ho & Hs & He).
    + intros j Hj. rewrite <- (Hheld (S j) ltac:(lia)). f_equal. lia.
    + rewrite <- Hrel. f_equal. lia.
    + lia.
    + rewrite outcome_prepend, state_prepend, events_prepend, Hs.
      split; [exact Ho|]. split; [f_equal; lia|].
      rewrite elapsed_app, He. cbn [elapsed]. lia.
Qed.

(** X8: [wait_button_release] returns 20 ms after the first poll at
    which the button reads released, having written no register and
    changed no variable, provided the poll loop is given the turns it
    needs. *)
Theorem wait_button_release_timing (E : env) (k fuel : nat) (s : state) :
  (forall j, (j < k)%nat -> step_btn E (now s + Z.of_nat j) = false) ->
  step_btn E (now s + Z.of_nat k) = true ->
  (k <= fuel)%nat ->
  let r := wait_button_release E fuel s in
  outcome_of r = Ret tt /\
  state_of r = mkState (hw s) (lv s) (now s + Z.of_nat k + 20000) /\
  quiet (events_of r) /\
  elapsed (events_of r) = Z.of_nat k + 20000.
Proof.
  intros Hheld Hrel Hk r.
  destruct (poll_release_first E k fuel s Hheld Hrel Hk) as (Ho & Hs & He).
  destruct (poll_release_spec E fuel s) as (Hq & _).
  subst r. unfold wait_button_release. rewrite bind_run, Ho, Hs.
  unfold delay_ms, delay_us.
  rewrite outcome_prepend, state_prepend, events_prepend.
  cbn [outcome_of state_of events_of fst snd hw lv now].
  split; [reflexivity|]. split; [reflexivity|].
  split; [quiet_solve|]. rewrite elapsed_app, He. reflexivity.
Qed.

Lemma wait_button_release_timing_witness :
  step_btn (mkEnv (fun _ => true) (fun _ => false) (fun t => 5 <=? t) (fun _ => 100))
           (now stepping + Z.of_nat 5) = true /\
  now (state_of (wait_button_release
                   (mkEnv (fun _ => true) (fun _ => false) (fun t => 5 <=? t) (fun _ => 100))
                   8 stepping)) = 20005.
Proof.
  split; [reflexivity|].
  assert (Hheld : forall j, (j < 5)%nat ->
            step_btn (mkEnv (fun _ => true) (fun _ => false) (fun t => 5 <=? t) (fun _ => 100))
                     (now stepping + Z.of_nat j) = false).
  { intros j Hj. do 5 (destruct j as [|j]; [reflexivity|]). lia. }
  destruct (wait_button_release_timing _ 5 8 stepping Hheld eq_refl ltac:(lia))
    as (_ & Hs & _).
  rewrite Hs. reflexivity.
Defined.

(* ------------------------------------------------------------------ *)
(** ** The indicator LED *)

Lemma generator_pass_led (freq_table : Z -> Z) (E : env) (fuel : nat) (s : state) :
  let r := generator_pass freq_table E fuel s in
  LATC5 (hw (state_of r)) = LATC5 (hw s) /\ running (lv (state_of r)) = running (lv s).
Proof.
  cbn zeta. rewrite generator_pass_unfold.
  destruct (software_mode (lv s) =? 0).
  - rewrite nco_poll_run. cbn zeta.
    destruct (adc_moved _ _); [destruct (IS_SOFTWARE_MODE _)|]; split; reflexivity.
  - pose proof (software_cycle_shape freq_table E fuel s) as Hsh. cbn zeta in Hsh.
    destruct Hsh as (Hr & _ & q1 & _ & [(_ & _ & Hh & _)|(c & _ & [(_ & Hh & _)|(_ & Hh & _)])]);
      (split; [|exact Hr]); rewrite Hh; reflexivity.
Qed.

Lemma step_branch_led (E : env) (fuel : nat) (s : state) :
  LATC5 (hw (state_of (step_branch E fuel s))) = 1.
Proof.
  rewrite step_branch_run. cbn zeta.
  rewrite replay_app. cbn [replay fold_left apply_event].
  destruct (step_btn E (now s)); [reflexivity|].
  destruct (step_btn E (now s + 20000)); [reflexivity|].
  rewrite state_prepend.
  match goal with |- context [poll_release E fuel ?s'] =>
    destruct (poll_release_spec E fuel s') as (_ & Hh & _);
    destruct (poll_release E fuel s') as [[[[]|] s2] t2] end;
    cbn [state_of outcome_of fst snd hw] in *; rewrite Hh; reflexivity.
Qed.

Lemma main_iteration_led (freq_table : Z -> Z) (E : env) (fuel : nat) (s : state) :
  (running (lv s) = 1 -> LATC5 (hw s) = 1) ->
  let r := main_iteration freq_table E fuel s in
  running (lv (state_of r)) = 1 -> LATC5 (hw (state_of r)) = 1.
Proof.
  intros Hled. cbn zeta. rewrite main_iteration_dispatch, state_prepend.
  destruct (halt_sel E (now s)); [destruct (step_sel E (now s))|]; cbn [negb].
  - rewrite run_branch_unfold. cbn zeta.
    destruct (halted (lv s) =? 0).
    + destruct (generator_pass_led freq_table E fuel s) as [-> ->]. exact Hled.
    + rewrite state_prepend.
      match goal with |- context [generator_pass _ _ fuel ?s'] =>
        destruct (generator_pass_led freq_table E fuel s') as [-> _] end.
      intros _. unfold resumed, resume_writes. cbn [hw].
      rewrite replay_app. reflexivity.
  - intros _. apply step_branch_led.
  - rewrite halt_branch_run.
    destruct (halted (lv s) =? 0); cbn [state_of fst snd lv hw running set_running];
      [discriminate|exact Hled].
Qed.

(** X9: the LED follows the generator.  After [main] has run for any
    number of loop passes, wherever the run stands, the LED latch is on
    whenever [running] is set; so the LED is off only while the generator
    is stopped. *)
Theorem led_on_while_running (freq_table : Z -> Z) (E : env) (fuel n : nat) (s0 : state) :
  let r := main freq_table E fuel n s0 in
  running (lv (state_of r)) = 1 -> LATC5 (hw (state_of r)) = 1.
Proof.
  cbn zeta. rewrite main_unfold, state_prepend.
  assert (H0 : running (lv (state_of (main_init freq_table E s0))) = 1 ->
               LATC5 (hw (state_of (main_init freq_table E s0))) = 1).
  { intros _. destruct s0 as [[con pps il ih iu lat led] l0 t0]. run_cbv.
    destruct (IS_SOFTWARE_MODE _); reflexivity. }
  revert H0. generalize (state_of (main_init freq_table E s0)). clear s0.
  induction n as [|n IH]; intros s Hs; [exact Hs|].
  rewrite main_loop_unfold. cbn zeta.
  pose proof (main_iteration_led freq_table E fuel s Hs) as H1. cbn zeta in H1.
  destruct (outcome_of (main_iteration freq_table E fuel s)).
  - rewrite state_prepend. apply IH. exact H1.
  - exact H1.
Qed.

Lemma led_on_while_running_witness :
  running (lv (state_of (main sample_table (idle_env 10) 20 2 power_on))) = 1 /\
  LATC5 (hw (state_of (main sample_table (idle_env 10) 20 2 power_on))) = 1.
Proof.
  assert (H : running (lv (state_of (main sample_table (idle_env 10) 20 2 power_on))) = 1)
    by (vm_compute; reflexivity).
  split; [exact H|].
  exact (led_on_while_running sample_table (idle_env 10) 20 2 power_on H).
Defined.

(** X10: a halt pass entered from step mode changes no register: the
    step pass leaves [halted] set and the LED on, so the halt branch
    skips its entry code and the LED stays on all through the halt (the
    LED goes off only when halt is entered from the running state). *)
Theorem halt_after_step_keeps_led (freq_table : Z -> Z) (E : env) (fuel : nat) (s : state) :
  halt_sel E (now s) = true -> step_sel E (now s) = false ->
  let r1 := main_iteration freq_table E fuel s in
  outcome_of r1 = Ret tt ->
  halt_sel E (now (state_of r1)) = false ->
  let r2 := main_iteration freq_table E fuel (state_of r1) in
  outcome_of r2 = Ret tt /\
  quiet (events_of r2) /\
  hw (state_of r2) = hw (state_of r1) /\
  LATC5 (hw (state_of r2)) = 1 /\
  halted (lv (state_of r2)) <> 0.
Proof.
  intros Hh Hs r1 Ho1 Hh2 r2.
  assert (Hr1 : r1 = prepend (mode_reads E (now s)) (step_branch E fuel s))
    by (now apply stepping_iteration).
  assert (Hled : LATC5 (hw (state_of r1)) = 1)
    by (rewrite Hr1, state_prepend; apply step_branch_led).
  assert (Hhl : (halted (lv (state_of r1)) =? 0) = false).
  { rewrite Hr1, state_prepend, step_branch_locals.
    unfold step_entry_locals, step_entering.
    destruct (running (lv s) =? 0); [destruct (halted (lv s) =? 0) eqn:Hz|];
      cbn [negb orb]; try reflexivity. exact Hz. }
  subst r2. rewrite main_iteration_dispatch, Hh2. cbn [negb].
  rewrite halt_branch_run, Hhl.
  rewrite outcome_prepend, state_prepend, events_prepend.
  cbn [outcome_of state_of events_of fst snd hw lv].
  split; [reflexivity|]. split; [quiet_solve|]. split; [reflexivity|].
  split; [exact Hled|]. now apply Z.eqb_neq.
Qed.

Lemma halt_after_step_keeps_led_witness :
  LATC5 (hw (state_of (main_iteration sample_table
                         (mkEnv (fun t => t <? 5000) (fun _ => false) (fun _ => true)
                                (fun _ => 100))
                         5 (state_of (main_iteration sample_table
                         (mkEnv (fun t => t <? 5000) (fun _ => false) (fun _ => true)
                                (fun _ => 100))
                         5 (hw_running 100)))))) = 1.
Proof.
  exact (proj1 (proj2 (proj2 (proj2
           (halt_after_step_keeps_led sample_table
              (mkEnv (fun t => t <? 5000) (fun _ => false) (fun _ => true) (fun _ => 100))
              5 (hw_running 100) eq_refl eq_refl eq_refl eq_refl))))).
Defined.

(* ------------------------------------------------------------------ *)
(** ** A step pulse on the pin *)



(* ------------------------------------------------------------------ *)
(** ** The NCO left alone *)




(* ------------------------------------------------------------------ *)
(** ** The debounce circuit *)

(** X13: whatever the registers hold beforehand, [clc_debounce_init]
    writes the timer's period and counter only while TMR2 is off, writes
    the wiring of each logic cell (its SEL, GLS and POL registers) only
    while that cell is disabled, and leaves the timer running and the
    three cells enabled. *)
Theorem clc_debounce_init_guarded (f : dfile) :
  guarded_writes tmr2_on is_timer_setup_write f clc_debounce_init = true /\
  (forall c, guarded_writes (fun g => clc_enabled g c) (is_wiring_write c)
                            f clc_debounce_init = true) /\
  tmr2_on (run_writes clc_debounce_init f) = true /\
  (forall c, clc_enabled (run_writes clc_debounce_init f) c = true).
Proof.
  split; [vm_compute; reflexivity|].
  split; [intros []; vm_compute; reflexivity|].
  split; [vm_compute; reflexivity|].
  intros []; vm_compute; reflexivity.
Qed.

(** X14: the circuit the register values describe.  After
    [clc_debounce_init], from any register contents: CLC2 is a 4-input
    AND whose output is the majority of the raw switch level, the CLC3
    output and the CLC1 output; CLC3 and CLC1 are D flip-flops clocked by
    the TMR2 match and never reset, CLC3 taking the raw switch level and
    CLC1 the CLC2 output; the flip-flop outputs are not inverted; and
    TMR2 matches every 9024 instruction cycles (1.504 ms at 6 MHz). *)
Theorem clc_debounce_init_circuit (f : dfile) (sg : signals) :
  let g := run_writes clc_debounce_init f in
  (clc_mode g CLC2 = 2 /\
   and4_out g sg CLC2 = majority (sig_raw sg) (sig_clc3 sg) (sig_clc1 sg)) /\
  (clc_mode g CLC3 = 5 /\ dff_clk g sg CLC3 = sig_tmr2 sg /\
   dff_d g sg CLC3 = sig_raw sg /\ dff_r g sg CLC3 = false /\
   out_inverted g CLC3 = false) /\
  (clc_mode g CLC1 = 5 /\ dff_clk g sg CLC1 = sig_tmr2 sg /\
   dff_d g sg CLC1 = sig_clc2 sg /\ dff_r g sg CLC1 = false /\
   out_inverted g CLC1 = false) /\
  tmr2_period g = 9024.
Proof.
  destruct sg as [[] [] [] [] []]; vm_compute; repeat split; reflexivity.
Qed.

Lemma clc_tick_init (f : dfile) (raw q1 q3 : bool) :
  clc_tick (run_writes clc_debounce_init f) raw (q1, q3) = (majority raw q3 q1, raw).
Proof. destruct raw, q1, q3; vm_compute; reflexivity. Qed.

(** X15: one sampling step of the configured circuit.  At a TMR2 match
    the debounced output takes the value of the sample when the sample
    equals the previous one, and keeps its value otherwise; the previous
    sample is replaced by the current one.  So two equal consecutive
    samples always set the output to their value. *)
Theorem debounce_step (f : dfile) (raw q1 q3 : bool) :
  let g := run_writes clc_debounce_init f in
  clc_tick g raw (q1, q3) = (if eqb raw q3 then raw else q1, raw) /\
  fst (clc_tick g raw (clc_tick g raw (q1, q3))) = raw.
Proof.
  cbn zeta. rewrite !clc_tick_init. cbn [fst snd].
  destruct raw, q1, q3; split; reflexivity.
Qed.

(** X16: isolated glitches do not get through.  With the debounced
    output at [v], over any sequence of samples in which no two
    consecutive samples (counting the sample before the sequence) differ
    from [v], the debounced output reads [v] after every TMR2 match. *)
Theorem debounce_ignores_single_glitches (f : dfile) (v prev : bool) (samples : list bool) :
  no_double v prev samples = true ->
  clc_run (run_writes clc_debounce_init f) samples (v, prev) = repeat v (length samples).
Proof.
  revert prev; induction samples as [|x rest IH]; intros prev Hnd; [reflexivity|].
  cbn [no_double] in Hnd. apply andb_true_iff in Hnd as [Hx Hrest].
  cbn [clc_run length repeat]. rewrite clc_tick_init. cbn [fst].
  assert (Hmaj : majority x prev v = v) by (destruct x, prev, v; try reflexivity; discriminate).
  rewrite Hmaj.
  assert (Hinv : out_inverted (run_writes clc_debounce_init f) CLC1 = false)
    by (vm_compute; reflexivity).
  rewrite Hinv. cbn [xorb]. f_equal.
  apply IH. exact Hrest.
Qed.

Lemma debounce_ignores_single_glitches_witness :
  no_double true true [false; true; true; false; true] = true /\
  clc_run (run_writes clc_debounce_init (fun _ => 0)) [false; true; true; false; true]
          (true, true) = [true; true; true; true; true].
Proof.
  split; [reflexivity|].
  exact (debounce_ignores_single_glitches (fun _ => 0) true true
           [false; true; true; false; true] eq_refl).
Defined.

(* ------------------------------------------------------------------ *)
(** ** Resuming in software mode after a halt in hardware mode *)

(** X17: a halt taken while the NCO is generating, followed by a resume
    onto a software entry, leaves the software generator cut off from
    the pin.  The halt pass stops the NCO with [nco_stop], which leaves
    RB6 routed to it; on resume the software branch does not touch the
    routing; so the software period that follows writes the latch high
    once, yet the pin reads low at every instant of the pass. *)
Theorem software_resume_after_hw_halt_is_silent
        (freq_table : Z -> Z) (E : env) (fuel : nat) (s : state) :
  Inv s -> software_mode (lv s) = 0 -> halted (lv s) = 0 ->
  halt_sel E (now s) = false ->
  mode_at E (now s + 50000) = 0 ->
  IS_SOFTWARE_MODE (freq_table (port_value E ADRESH (now s + 50000))) = true ->
  let r1 := main_iteration freq_table E fuel s in
  let r2 := main_iteration freq_table E fuel (state_of r1) in
  software_mode (lv (state_of r2)) = 1 ->
  outcome_of r1 = Ret tt /\
  RB6PPS (hw (state_of r1)) = 0x1D /\
  count_pulses (events_of r2) = 1%nat /\
  always (fun h => pin_level h = PinLow) (hw (state_of r1)) (events_of r2).
Proof.
  intros H Hsm Hhl Hhalt Hmode Hsw r1 r2 Hsm2.
  assert (Hr1 : r1 = prepend (mode_reads E (now s))
                       (Ret tt,
                        mkState (replay (hw s) (stop_events ++ [EvWrite R_LATC5 0]))
                                (set_running 0 (set_halted 1 (lv s))) (now s + 50000),
                        stop_events ++ [EvWrite R_LATC5 0; EvDelay 50000])).
  { subst r1. rewrite main_iteration_dispatch, Hhalt. cbn [negb].
    rewrite halt_branch_run, Hhl, Hsm. reflexivity. }
  destruct (inv_nco_on s H Hsm Hhl) as [Hpps Hcon].
  set (s1 := state_of r1) in *.
  assert (Hs1 : s1 = mkState (replay (hw s) (stop_events ++ [EvWrite R_LATC5 0]))
                             (set_running 0 (set_halted 1 (lv s))) (now s + 50000))
    by (subst s1; rewrite Hr1; reflexivity).
  assert (Hpps1 : RB6PPS (hw s1) = 0x1D) by (rewrite Hs1; exact Hpps).
  assert (Hcon1 : NCO1CON (hw s1) = 0x00) by (rewrite Hs1; reflexivity).
  split; [rewrite Hr1; reflexivity|]. split; [exact Hpps1|].
  destruct (mode_at_zero E _ Hmode) as [Hh2 Hst2].
  assert (Hnow : now s1 = now s + 50000) by (rewrite Hs1; reflexivity).
  assert (Hhl1 : halted (lv s1) = 1) by (rewrite Hs1; reflexivity).
  set (a := port_value E ADRESH (now s + 50000)) in *.
  set (s2 := resumed freq_table a s1).
  assert (Hr2 : r2 = prepend (mode_reads E (now s1) ++ [EvRead ADRESH a; EvWrite R_LATC5 1])
                       (software_cycle freq_table E fuel s2)).
  { subst r2. rewrite main_iteration_dispatch, Hnow, Hh2, Hst2. cbn [negb].
    rewrite run_branch_unfold. cbn zeta. rewrite Hhl1, Hnow. cbn [Z.eqb]. fold a. fold s2.
    rewrite generator_pass_unfold.
    assert (Hm2 : software_mode (lv s2) = 1) by (subst s2; unfold resumed; cbn; now rewrite Hsw).
    rewrite Hm2. cbn [Z.eqb]. unfold resume_writes. rewrite Hsw.
    rewrite prepend_prepend. reflexivity. }
  assert (Hh2' : hw s2 = write_reg R_LATC5 1 (hw s1))
    by (subst s2; unfold resumed, resume_writes; cbn [hw]; rewrite Hsw; reflexivity).
  assert (Hm2 : software_mode (lv s2) = 1) by (subst s2; unfold resumed; cbn; now rewrite Hsw).
  assert (Hsm2' : software_mode (lv (state_of (software_cycle freq_table E fuel s2))) = 1)
    by (rewrite Hr2, state_prepend in Hsm2; exact Hsm2).
  destruct (software_period_unrouted freq_table E fuel s2) as [Hcnt Hlow];
    [rewrite Hh2'; exact Hpps1|rewrite Hh2'; exact Hcon1|exact Hm2|exact Hsm2'|].
  rewrite Hr2, events_prepend. split.
  - rewrite count_pulses_app, Hcnt. reflexivity.
  - apply always_app. split.
    + assert (Hp1 : pin_level (hw s1) = PinLow)
        by (unfold pin_level, nco_enabled; rewrite Hpps1, Hcon1; reflexivity).
      assert (Hp2 : pin_level (write_reg R_LATC5 1 (hw s1)) = PinLow)
        by (rewrite <- Hp1; destruct (hw s1); reflexivity).
      unfold mode_reads. cbn [app always apply_event].
      split; [exact Hp1|]. split; [exact Hp1|]. split; [exact Hp1|].
      split; [exact Hp1|exact Hp2].
    + rewrite replay_app, (replay_quiet _ (mode_reads E (now s1))) by reflexivity.
      cbn [replay fold_left apply_event]. rewrite <- Hh2'. exact Hlow.
Qed.

Lemma software_resume_after_hw_halt_is_silent_witness :
  Inv (hw_running 100) /\
  software_mode (lv (state_of (main_iteration sample_table
       (mkEnv (fun t => 1000 <=? t) (fun _ => true) (fun _ => true) (fun _ => 10))
       20 (state_of (main_iteration sample_table
       (mkEnv (fun t => 1000 <=? t) (fun _ => true) (fun _ => true) (fun _ => 10))
       20 (hw_running 100)))))) = 1 /\
  count_pulses (events_of (main_iteration sample_table
       (mkEnv (fun t => 1000 <=? t) (fun _ => true) (fun _ => true) (fun _ => 10))
       20 (state_of (main_iteration sample_table
       (mkEnv (fun t => 1000 <=? t) (fun _ => true) (fun _ => true) (fun _ => 10))
       20 (hw_running 100))))) = 1%nat.
Proof.
  assert (Hsm2 : software_mode (lv (state_of (main_iteration sample_table
       (mkEnv (fun t => 1000 <=? t) (fun _ => true) (fun _ => true) (fun _ => 10))
       20 (state_of (main_iteration sample_table
       (mkEnv (fun t => 1000 <=? t) (fun _ => true) (fun _ => true) (fun _ => 10))
       20 (hw_running 100)))))) = 1) by (vm_compute; reflexivity).
  split; [apply hw_running_inv|]. split; [exact Hsm2|].
  exact (proj1 (proj2 (proj2 (software_resume_after_hw_halt_is_silent sample_table
                         (mkEnv (fun t => 1000 <=? t) (fun _ => true) (fun _ => true) (fun _ => 10))
                         20 (hw_running 100) (hw_running_inv 100)
                         eq_refl eq_refl eq_refl eq_refl eq_refl Hsm2)))).
Defined.

(* ------------------------------------------------------------------ *)
(** ** The software generator left alone *)

Lemma high_phase_full (E : env) (fuel : nat) (s : state) (d : Z) :
  0 <= d < 2 ^ 32 ->
  (forall t, now s < t -> mode_at E t = 0) ->
  (Z.to_nat d <= fuel)%nat ->
  let r := high_phase E fuel d 0 s in
  outcome_of r = Ret tt /\
  state_of r = mkState (hw s) (lv s) (now s + 10 * d) /\
  quiet (events_of r) /\ elapsed (events_of r) = 10 * d.
Proof.
  intros Hd Hm Hf.
  pose proof (high_phase_steady E fuel d 0 s) as H.
  cbn zeta in H. rewrite Z.sub_0_r in H. apply H; [lia|lia|exact Hm|exact Hf].
Qed.

Lemma software_cycle_steady (freq_table : Z -> Z) (E : env) (fuel : nat) (s : state) :
  0 <= half_period (lv s) < 2 ^ 32 ->
  (forall t, now s < t -> mode_at E t = 0) ->
  (forall t, now s < t -> Z.abs (port_value E ADRESH t - last_adc (lv s)) <= 1) ->
  (Z.to_nat (half_period (lv s) / 240) <= fuel)%nat ->
  let d := half_period (lv s) / 240 in
  let r := software_cycle freq_table E fuel s in
  outcome_of r = Ret tt /\
  state_of r = mkState (write_reg R_LATB6 0 (hw s)) (lv s) (now s + 20 * d) /\
  count_pulses (events_of r) = 1%nat /\
  elapsed (events_of r) = 20 * d.
Proof.
  intros Hhp Hm Ha Hf d r.
  assert (Hd : 0 <= d < 2 ^ 32).
  { subst d. split; [apply Z.div_pos; lia|apply Z.div_lt_upper_bound; lia]. }
  subst r. rewrite software_cycle_unfold. cbn zeta. fold d.
  destruct (high_phase_full E fuel (mkState (write_reg R_LATB6 1 (hw s)) (lv s) (now s)) d
              Hd Hm Hf) as (Ho1 & Hs1 & Hq1 & He1).
  rewrite Ho1, Hs1. cbn [hw lv now].
  pose proof (low_phase_steady freq_table E fuel d 0
                (mkState (write_reg R_LATB6 0 (write_reg R_LATB6 1 (hw s))) (lv s)
                         (now s + 10 * d))) as H2.
  cbn zeta in H2. cbn [hw lv now] in H2. rewrite Z.sub_0_r in H2.
  destruct H2 as (Ho2 & Hs2 & Hq2 & He2);
    [lia|lia|intros t Ht; apply Hm; lia
    |intros t Ht; apply adc_moved_false, Ha; lia|lia|].
  rewrite !outcome_prepend, !state_prepend, !events_prepend, Hs2.
  split; [exact Ho2|].
  split; [replace (now s + 10 * d + 10 * d) with (now s + 20 * d) by lia;
          f_equal; destruct (hw s); reflexivity|].
  split.
  - rewrite !count_pulses_app, (count_pulses_quiet _ Hq1), (count_pulses_quiet _ Hq2).
    reflexivity.
  - rewrite !elapsed_app, He1, He2. cbn [elapsed]. lia.
Qed.

Lemma software_passes (freq_table : Z -> Z) (E : env) (fuel n : nat) (s : state) :
  software_mode (lv s) = 1 -> halted (lv s) = 0 -> LATB6 (hw s) = 0 ->
  0 <= half_period (lv s) < 2 ^ 32 ->
  (forall t, now s <= t -> mode_at E t = 0) ->
  (forall t, now s <= t -> Z.abs (port_value E ADRESH t - last_adc (lv s)) <= 1) ->
  (Z.to_nat (half_period (lv s) / 240) <= fuel)%nat ->
  let d := half_period (lv s) / 240 in
  let r := main_loop freq_table E fuel n s in
  outcome_of r = Ret tt /\
  state_of r = mkState (hw s) (lv s) (now s + 20 * d * Z.of_nat n) /\
  count_pulses (events_of r) = n /\
  elapsed (events_of r) = 20 * d * Z.of_nat n.
Proof.
  revert s; induction n as [|n IH]; intros s Hsm Hhl Hlat Hhp Hm Ha Hf; cbn zeta.
  - cbn [main_loop]. unfold ret. cbn [outcome_of state_of events_of fst snd].
    replace (now s + 20 * (half_period (lv s) / 240) * Z.of_nat 0) with (now s) by lia.
    destruct s; repeat split. cbn [elapsed]. lia.
  - rewrite main_loop_unfold. cbn zeta.
    destruct (mode_at_zero E (now s) (Hm (now s) ltac:(lia))) as [Hh Hs].
    rewrite main_iteration_dispatch, Hh, Hs. cbn [negb].
    rewrite run_branch_unfold. cbn zeta. rewrite Hhl. cbn [Z.eqb].
    rewrite generator_pass_unfold, Hsm. cbn [Z.eqb].
    destruct (software_cycle_steady freq_table E fuel s Hhp) as (Ho & Hst & Hc & He);
      [intros t Ht; apply Hm; lia|intros t Ht; apply Ha; lia|exact Hf|].
    rewrite !outcome_prepend, !state_prepend, !events_prepend, Ho, Hst.
    assert (Hhw : write_reg R_LATB6 0 (hw s) = hw s)
      by (destruct (hw s); cbn in Hlat; subst; reflexivity).
    rewrite Hhw.
    set (d := half_period (lv s) / 240) in *.
    assert (Hd : 0 <= d) by (subst d; apply Z.div_pos; lia).
    specialize (IH (mkState (hw s) (lv s) (now s + 20 * d))). cbn zeta in IH.
    cbn [hw lv now] in IH. fold d in IH.
    destruct IH as (Ho' & Hst' & Hc' & He');
      [exact Hsm|exact Hhl|exact Hlat|exact Hhp
      |intros t Ht; apply Hm; lia|intros t Ht; apply Ha; lia|exact Hf|].
    rewrite outcome_prepend, state_prepend, events_prepend, Hst'.
    split; [exact Ho'|]. split; [f_equal; lia|].
    split.
    + rewrite !count_pulses_app, Hc, Hc', (count_pulses_quiet _ (quiet_mode_reads E (now s))).
      reflexivity.
    + rewrite !elapsed_app, He, He'. unfold mode_reads. cbn [elapsed]. lia.
Qed.

(** X18: the software generator in the steady state.  In software mode,
    while both selectors read "run" and the ADC stays within 1 of
    [last_adc], every pass through the loop is one full period: [n]
    passes return, write the latch high exactly [n] times, and leave the
    registers and the variables as they were. *)
Theorem software_generator_steady (freq_table : Z -> Z) (E : env) (fuel n : nat) (s : state) :
  software_mode (lv s) = 1 -> halted (lv s) = 0 -> LATB6 (hw s) = 0 ->
  0 <= half_period (lv s) < 2 ^ 32 ->
  (forall t, now s <= t -> mode_at E t = 0) ->
  (forall t, now s <= t -> Z.abs (port_value E ADRESH t - last_adc (lv s)) <= 1) ->
  (Z.to_nat (half_period (lv s) / 240) <= fuel)%nat ->
  let r := main_loop freq_table E fuel n s in
  outcome_of r = Ret tt /\
  hw (state_of r) = hw s /\
  lv (state_of r) = lv s /\
  count_pulses (events_of r) = n.
Proof.
  intros Hsm Hhl Hlat Hhp Hm Ha Hf r.
  destruct (software_passes freq_table E fuel n s Hsm Hhl Hlat Hhp Hm Ha Hf)
    as (Ho & Hst & Hc & _).
  fold r in Ho, Hst, Hc. rewrite Hst.
  split; [exact Ho|]. split; [reflexivity|]. split; [reflexivity|exact Hc].
Qed.

Lemma software_generator_steady_witness :
  (software_mode (lv (sw_running 10)) = 1 /\ LATB6 (hw (sw_running 10)) = 0) /\
  count_pulses (events_of (main_loop sample_table (idle_env 11) 13 4 (sw_running 10))) = 4%nat /\
  lv (state_of (main_loop sample_table (idle_env 11) 13 4 (sw_running 10))) =
    lv (sw_running 10).
Proof.
  assert (H1 : 0 <= half_period (lv (sw_running 10)) < 2 ^ 32)
    by (split; vm_compute; [discriminate|reflexivity]).
  assert (H2 : (Z.to_nat (half_period (lv (sw_running 10)) / 240) <= 13)%nat)
    by (vm_compute; lia).
  destruct (software_generator_steady sample_table (idle_env 11) 13 4 (sw_running 10)
              eq_refl eq_refl eq_refl H1 (fun _ _ => eq_refl)
              (fun _ _ => ltac:(vm_compute; discriminate)) H2) as (_ & _ & Hl & Hc).
  split; [split; reflexivity|]. split; [exact Hc|exact Hl].
Defined.

(** X19: the ADC never shortens the high phase.  While both selectors
    read "run", whatever the ADC does, a software period begins with the
    latch high for the full [10 * (half_period / 240)] microseconds,
    during which no register is written and the ADC is not read, and
    only then writes the latch low. *)
Theorem high_phase_ignores_adc (freq_table : Z -> Z) (E : env) (fuel : nat) (s : state) :
  0 <= half_period (lv s) < 2 ^ 32 ->
  (forall t, now s < t -> mode_at E t = 0) ->
  (Z.to_nat (half_period (lv s) / 240) <= fuel)%nat ->
  let d := half_period (lv s) / 240 in
  exists hi rest,
    events_of (software_cycle freq_table E fuel s) =
      EvWrite R_LATB6 1 :: hi ++ EvWrite R_LATB6 0 :: rest /\
    quiet hi /\ elapsed hi = 10 * d /\
    existsb (reads_port ADRESH) hi = false /\
    count_pulses rest = 0%nat.
Proof.
  intros Hhp Hm Hf d.
  assert (Hd : 0 <= d < 2 ^ 32).
  { subst d. split; [apply Z.div_pos; lia|apply Z.div_lt_upper_bound; lia]. }
  pose proof (software_cycle_one_rise freq_table E fuel s) as [Hone _]. cbn zeta in Hone.
  revert Hone. rewrite software_cycle_unfold. cbn zeta. fold d.
  destruct (high_phase_full E fuel (mkState (write_reg R_LATB6 1 (hw s)) (lv s) (now s)) d
              Hd Hm Hf) as (Ho1 & Hs1 & Hq1 & He1).
  assert (Hna : existsb (reads_port ADRESH)
                  (events_of (high_phase E fuel d 0
                     (mkState (write_reg R_LATB6 1 (hw s)) (lv s) (now s)))) = false).
  { generalize (mkState (write_reg R_LATB6 1 (hw s)) (lv s) (now s)).
    generalize 0 at 1. clear. revert d.
    induction fuel as [|f IH]; intros d i s0; rewrite high_phase_unfold;
      destruct (i <? d); try reflexivity.
    cbn zeta.
    destruct (Z.land i 1023 =? 0); [destruct (mode_at E (now s0 + 10) =? 0)|];
      rewrite ?events_prepend, ?existsb_app, ?IH; reflexivity. }
  rewrite Ho1. rewrite !events_prepend. intros Hone.
  eexists. eexists. split; [cbn [app]; rewrite <- app_assoc; reflexivity|].
  split; [exact Hq1|]. split; [exact He1|]. split; [exact Hna|].
  change (EvWrite R_LATB6 1 :: ?x) with ([EvWrite R_LATB6 1] ++ x) in Hone.
  rewrite !count_pulses_app, (count_pulses_quiet _ Hq1) in Hone.
  cbn [app] in Hone.
  change (count_pulses [EvWrite R_LATB6 1]) with 1%nat in Hone.
  change (count_pulses [EvWrite R_LATB6 0]) with 0%nat in Hone. lia.
Qed.

Lemma high_phase_ignores_adc_witness :
  0 <= half_period (lv (sw_running 10)) < 2 ^ 32 /\
  exists hi rest,
    events_of (software_cycle sample_table (idle_env 200) 13 (sw_running 10)) =
      EvWrite R_LATB6 1 :: hi ++ EvWrite R_LATB6 0 :: rest /\
    elapsed hi = 10 * (half_period (lv (sw_running 10)) / 240).
Proof.
  assert (H1 : 0 <= half_period (lv (sw_running 10)) < 2 ^ 32)
    by (split; vm_compute; [discriminate|reflexivity]).
  assert (H2 : (Z.to_nat (half_period (lv (sw_running 10)) / 240) <= 13)%nat)
    by (vm_compute; lia).
  split; [exact H1|].
  destruct (high_phase_ignores_adc sample_table (idle_env 200) 13 (sw_running 10)
              H1 (fun _ _ => eq_refl) H2) as (hi & rest & He & _ & Hel & _).
  exists hi, rest. split; [exact He|exact Hel].
Defined.
